(** * ai_quizzer: scoring, similarity fallback, adaptive difficulty and the
      attempt lifecycle

    A shallow embedding of the decision logic of the quiz backend:
    - [src/services/aiService.js]  (similarity fallback, answer evaluation,
      adaptive difficulty, trend),
    - [src/models/Submission.js], [src/models/User.js] (score and rolling
      average),
    - [src/controllers/submissionController.js] (start / submit handlers),
    - [src/controllers/quizController.js] (the adaptive-difficulty call site).

    Conventions of the embedding.
    - JavaScript numbers are carried by rationals ([Q]); [NaN] is [None]
      where the code can produce it.  The handlers are modelled in exact
      arithmetic.  The rounding formulas [calculateScore] and
      [updateStats], the two [calculateTrend] and the performance summary
      are modelled a second time on binary64 numbers (modules [Binary64],
      [Submission64], [User64], [AIService64], [PerformanceSummary64]): a
      finite double is the rational it denotes, and every arithmetic
      operation rounds its exact result to the nearest double, ties to
      even.
    - JavaScript strings are sequences of code units below 256 (the Latin-1
      range), carried by [string]; [\s] and [toLowerCase] are those of
      ECMAScript restricted to that range.
    - Dates are milliseconds since the epoch ([Z]).
    - UUIDs are natural numbers ([N]).
    - The relational store is a record of tables (lists of rows); the
      column validators and the unique indexes declared by the models are
      enforced by [create]. *)

From Stdlib Require Import ZArith QArith Qround Qabs Qpower Lqa.
From Stdlib Require Import List String Ascii Bool Lia.
From Stdlib Require Floats.
Import ListNotations.
Local Open Scope string_scope.

(** ** JavaScript numbers *)

Module JsNum.

(** [Math.round]: nearest integer, ties towards +infinity. *)
Definition Math_round (x : Q) : Z := Qfloor (x + (1 # 2)).

(** The idiom [Math.round(x * 100) / 100]. *)
Definition round_100 (x : Q) : Q := inject_Z (Math_round (x * 100)) / 100.

(** [a / b] on two array lengths. *)
Definition div_nat (a b : nat) : Q :=
  inject_Z (Z.of_nat a) / inject_Z (Z.of_nat b).

(** [xs.reduce((a, b) => a + b, 0)]. *)
Definition sumQ (xs : list Q) : Q := fold_left Qplus xs 0.

(** What the specification calls [round(x, 2)]: [r] is a whole number of
    hundredths, at distance at most one half of a hundredth from [x], the
    tie going up. *)
Definition geq (x y : Q) : bool := Qle_bool y x.   (* x >= y *)
Definition gt (x y : Q) : bool := negb (Qle_bool x y).   (* x > y *)
Definition lt (x y : Q) : bool := negb (Qle_bool y x).   (* x < y *)

(** [xs.slice(-n)]: the last [n] elements, all of them when there are fewer. *)
Definition slice_last {A : Type} (n : nat) (xs : list A) : list A :=
  skipn (List.length xs - n) xs.

Definition rounds_to_2dp (x r : Q) : Prop :=
  (exists k : Z, r == inject_Z k / 100) /\
  x - (1 # 200) < r /\ r <= x + (1 # 200).

End JsNum.

(** Exceptions the modelled code can raise. *)
Inductive exn :=
| TypeError
| SequelizeUniqueConstraintError
| SequelizeValidationError.

(** ** Binary64 numbers

    A finite double is represented by the rational it denotes; [fl] rounds a
    rational to the nearest double, ties to the even significand, with
    gradual underflow below [2^-1022].  Results beyond the largest finite
    double are outside the model. *)

Module Binary64.

(** [2 ^ k]. *)
Definition pow2 (k : Z) : Q := 2 ^ k.

(** The binary exponent of a positive rational: the [e] with
    [2^e <= x < 2^(e+1)]. *)
Definition ilog2 (x : Q) : Z :=
  let c := (Z.log2 (Qnum x) - Z.log2 (Zpos (Qden x)))%Z in
  if Qle_bool (pow2 c) x then c else (c - 1)%Z.

(** Nearest integer, ties to even. *)
Definition RNE (y : Q) : Z :=
  let f := Qfloor y in
  match Qcompare (y - inject_Z f) (1 # 2) with
  | Lt => f
  | Gt => (f + 1)%Z
  | Eq => if Z.even f then f else (f + 1)%Z
  end.

(** The spacing of the doubles around [x]: 53 significant bits, and
    [2^-1074] in the subnormal range. *)
Definition ulp (x : Q) : Q :=
  if Qeq_bool x 0 then pow2 (-1074)
  else pow2 (Z.max (ilog2 (Qabs x)) (-1022) - 52).

(** The double nearest to [x]. *)
Definition fl (x : Q) : Q := inject_Z (RNE (x / ulp x)) * ulp x.

(** The unit roundoff [2^-53]. *)
Definition u : Q := pow2 (-53).

End Binary64.

(** The kernel's primitive binary64 numbers, to compare [Binary64.fl]
    with. *)
Module KernelFloat.
Import Floats.

(** The rational a finite primitive float denotes. *)
Definition value (f : PrimFloat.float) : option Q :=
  match FloatOps.Prim2SF f with
  | SpecFloat.S754_zero _ => Some 0
  | SpecFloat.S754_finite s m e =>
      Some ((if s then -1 else 1) * inject_Z (Zpos m) * 2 ^ e)
  | _ => None
  end.

(** [(e / p) * 100 * 100] on primitive floats, for small integers. *)
Definition percent_hundredths (e p : Z) : PrimFloat.float :=
  (PrimFloat.of_uint63 (Uint63.of_Z e) / PrimFloat.of_uint63 (Uint63.of_Z p)
   * 100 * 100)%float.

(** [((avg * count) + s) / n * 100] on primitive floats, for an average and
    a score given in hundredths. *)
Definition average_hundredths (avg count s n : Z) : PrimFloat.float :=
  ((PrimFloat.of_uint63 (Uint63.of_Z avg) / 100
    * PrimFloat.of_uint63 (Uint63.of_Z count)
    + PrimFloat.of_uint63 (Uint63.of_Z s) / 100)
   / PrimFloat.of_uint63 (Uint63.of_Z n) * 100)%float.

End KernelFloat.

(** ** JavaScript strings (Latin-1 code units) *)

Module JsString.

(** The class [\s] below U+0100: TAB, LF, VT, FF, CR, SPACE, NBSP. *)
Definition isSpace (c : ascii) : bool :=
  let n := N_of_ascii c in
  ((n =? 9) || (n =? 10) || (n =? 11) || (n =? 12) || (n =? 13)
   || (n =? 32) || (n =? 160))%N.

(** [toLowerCase] on one code unit: A-Z, and U+00C0-U+00DE except the
    multiplication sign U+00D7, move up by 32. *)
Definition lowerChar (c : ascii) : ascii :=
  let n := N_of_ascii c in
  if (((65 <=? n) && (n <=? 90))
      || ((192 <=? n) && (n <=? 222) && negb (n =? 215)))%N
  then ascii_of_N (n + 32) else c.

Fixpoint toLowerCase (s : string) : string :=
  match s with
  | EmptyString => EmptyString
  | String c r => String (lowerChar c) (toLowerCase r)
  end.

(** [s.split(/\s+/)].  The scan keeps the piece read since the last
    separator in [cur]; [in_sep] tells that the previous code unit belonged
    to a separator, which a further white-space unit extends (the match of
    [\s+] is greedy).  The last piece is always pushed, so the empty string
    gives one empty piece, and leading or trailing white space gives an
    empty first or last piece. *)
Fixpoint split_from (in_sep : bool) (cur : string) (s : string)
  : list string :=
  match s with
  | EmptyString => [cur]
  | String c r =>
      if isSpace c then
        if in_sep then split_from true EmptyString r
        else cur :: split_from true EmptyString r
      else split_from false (cur ++ String c EmptyString) r
  end.

Definition split_ws (s : string) : list string :=
  split_from false EmptyString s.

(** [words.includes(word)] on an array of strings. *)
Definition includes (words : list string) (word : string) : bool :=
  existsb (String.eqb word) words.

End JsString.

(** ** src/services/aiService.js *)

Module AIService.
Import JsNum JsString.

(** [calculateSimilarity(text1, text2)]. *)
Definition calculateSimilarity (text1 text2 : string) : Q :=
  let words1 := split_ws text1 in
  let words2 := split_ws text2 in
  let commonWords := filter (fun word => includes words2 word) words1 in
  div_nat (List.length commonWords)
          (Nat.max (List.length words1) (List.length words2)).

(** The similarity of two answers as both call sites compute it:
    [calculateSimilarity(a.toLowerCase(), b.toLowerCase())]. *)
Definition similarity (a b : string) : Q :=
  calculateSimilarity (toLowerCase a) (toLowerCase b).


(** *** Adaptive difficulty *)

(** [calculateTrend(scores)] of the service: mean of the second half minus
    mean of the first half, the halves cut at [Math.floor(length / 2)]. *)
Definition calculateTrend (scores : list Q) : Q :=
  if (List.length scores <? 2)%nat then 0
  else
    let firstHalf := firstn (List.length scores / 2) scores in
    let secondHalf := skipn (List.length scores / 2) scores in
    let firstAvg := sumQ firstHalf / inject_Z (Z.of_nat (List.length firstHalf)) in
    let secondAvg := sumQ secondHalf / inject_Z (Z.of_nat (List.length secondHalf)) in
    secondAvg - firstAvg.

(** [getDifficultyReasoning(averageScore, trend)]. *)
Definition getDifficultyReasoning (averageScore trend : Q) : string :=
  if geq averageScore 85 && geq trend 0 then
    "You're doing great! Ready for more challenging questions."
  else if geq averageScore 70 then
    "Good progress! Continuing with moderate difficulty."
  else if lt averageScore 60 then
    "Let's focus on building confidence with easier questions."
  else
    "Mixed difficulty to help you improve gradually.".

(** One element of the history array handed over by the quiz controller. *)
Module HistoryItem.
Record t := { score_percentage : Q; difficulty : string }.
End HistoryItem.

(** The [userHistory] argument as a JavaScript value: [null]/[undefined],
    an array whose elements are objects or [null], or a truthy value that is
    no array (no [length], no [slice]). *)
Inductive UserHistory :=
| HMissing
| HArray (items : list (option HistoryItem.t))
| HNotArray.

(** The object returned by the two object-returning paths. *)
Module Analysis.
Record t := {
  difficulty : string;
  reasoning : string;
  averageScore : Q;
  trend : string
}.
End Analysis.

(** What [adaptQuizDifficulty] returns: the bare string of the early return,
    or an analysis object. *)
Inductive AdaptResult :=
| RString (s : string)
| RObject (a : Analysis.t).

(** Property read [result.difficulty]; a string primitive has no such
    property and the read gives [undefined] ([None]). *)
Definition get_difficulty (r : AdaptResult) : option string :=
  match r with
  | RString _ => None
  | RObject a => Some (Analysis.difficulty a)
  end.

Definition get_trend (r : AdaptResult) : option string :=
  match r with
  | RString _ => None
  | RObject a => Some (Analysis.trend a)
  end.

(** Reading [quiz.score_percentage] on every element: a [null] element
    throws. *)
Fixpoint scores_of (items : list (option HistoryItem.t)) : exn + list Q :=
  match items with
  | [] => inr []
  | None :: _ => inl TypeError
  | Some q :: r =>
      match scores_of r with
      | inl e => inl e
      | inr qs => inr (HistoryItem.score_percentage q :: qs)
      end
  end.

(** The [try] block of [adaptQuizDifficulty]. *)
Definition adaptQuizDifficulty_try (userHistory : UserHistory)
  : exn + AdaptResult :=
  match userHistory with
  | HMissing => inr (RString "mixed")
  | HNotArray => inl TypeError
  | HArray items =>
      if (List.length items =? 0)%nat then inr (RString "mixed")
      else
        let recentQuizzes := slice_last 5 items in
        match scores_of recentQuizzes with
        | inl e => inl e
        | inr scores =>
            let averageScore :=
              sumQ scores / inject_Z (Z.of_nat (List.length recentQuizzes)) in
            let trend := calculateTrend scores in
            let recommendedDifficulty :=
              if geq averageScore 85 && geq trend 0 then "hard"
              else if geq averageScore 70 then "medium"
              else if lt averageScore 60 then "easy"
              else "mixed" in
            inr (RObject {|
              Analysis.difficulty := recommendedDifficulty;
              Analysis.reasoning := getDifficultyReasoning averageScore trend;
              Analysis.averageScore := round_100 averageScore;
              Analysis.trend :=
                if gt trend 0 then "improving"
                else if lt trend 0 then "declining" else "stable"
            |})
        end
  end.

(** [adaptQuizDifficulty(userHistory, subject, gradeLevel)]: the [try] block
    and its [catch]. *)
Definition adaptQuizDifficulty (userHistory : UserHistory) : AdaptResult :=
  match adaptQuizDifficulty_try userHistory with
  | inr r => r
  | inl _ =>
      RObject {|
        Analysis.difficulty := "mixed";
        Analysis.reasoning := "Using balanced difficulty due to insufficient data.";
        Analysis.averageScore := 0;
        Analysis.trend := "unknown"
      |}
  end.

(** *** Answer evaluation *)

Module Evaluation.
Record t := {
  isCorrect : bool;
  score : Z;
  feedback : string;
  partialCredit : Q
}.
End Evaluation.

(** Outcome of one chat completion followed by [JSON.parse]: the request or
    the parse throws, the reply is the JSON literal [null], or it is an
    object with the requested fields. *)
Inductive Completion (A : Type) :=
| ApiThrows
| ParsedNull
| Parsed (a : A).
Arguments ApiThrows {A}.
Arguments ParsedNull {A}.
Arguments Parsed {A} a.

(** "Simple fallback evaluation", identical in the two places where
    [evaluateAnswer] uses it. *)
Definition fallbackEvaluation (userAnswer correctAnswer : string)
  : Evaluation.t :=
  let similarity :=
    calculateSimilarity (toLowerCase userAnswer) (toLowerCase correctAnswer) in
  {| Evaluation.isCorrect := gt similarity (7 # 10);
     Evaluation.score := Math_round (similarity * 100);
     Evaluation.feedback :=
       if gt similarity (7 # 10) then "Good answer!"
       else "Please review the correct answer and try to understand the key concepts.";
     Evaluation.partialCredit := similarity |}.

(** [evaluateAnswer(question, userAnswer, correctAnswer, subject, gradeLevel)];
    [available] is [this.isAvailable()], [completion] the outcome of the
    request when one is made.  The result is [None] when the parsed reply is
    [null]. *)
Definition evaluateAnswer (available : bool)
    (completion : Completion Evaluation.t)
    (userAnswer correctAnswer : string) : option Evaluation.t :=
  if negb available then Some (fallbackEvaluation userAnswer correctAnswer)
  else
    match completion with
    | Parsed e => Some e
    | ParsedNull => None
    | ApiThrows => Some (fallbackEvaluation userAnswer correctAnswer)
    end.

(** [generateImprovementSuggestions]: the reply is used when it parses to an
    array ([Parsed (Some l)]), replaced when it parses to something else. *)
Definition generateImprovementSuggestions (available : bool)
    (completion : Completion (option (list string))) : list string :=
  if negb available then
    [ "Review the questions you got wrong and study the explanations provided.";
      "Practice more questions on the topics you found challenging." ]
  else
    match completion with
    | Parsed (Some suggestions) => suggestions
    | Parsed None | ParsedNull =>
        [ "Review the concepts you missed and try practicing similar problems.";
          "Consider asking your teacher for extra help on the topics you found challenging." ]
    | ApiThrows =>
        [ "Review your incorrect answers and study the explanations provided.";
          "Practice more questions on the topics you found challenging." ]
    end.

End AIService.

(** ** src/models: rows of the tables *)

Definition UUID := N.

Inductive QuestionType := multiple_choice | true_false | short_answer | essay.

Inductive Status := in_progress | completed | abandoned | expired.

Definition Status_eqb (a b : Status) : bool :=
  match a, b with
  | in_progress, in_progress | completed, completed
  | abandoned, abandoned | expired, expired => true
  | _, _ => false
  end.

Module Question.
Record t := {
  id : UUID;
  question_text : string;
  question_type : QuestionType;
  correct_answer : string;
  explanation : option string;
  points : Z
}.
End Question.

(** A quiz row together with its [questions] association, as the handlers
    load it ([include: questions]). *)
Module Quiz.
Record t := {
  id : UUID;
  subject : string;
  grade_level : Z;
  time_limit_minutes : option Z;
  max_attempts : Z;
  is_active : bool;
  questions : list Question.t
}.
End Quiz.

Module PerformanceAnalysis.
Record t := {
  strengths : list UUID;
  weaknesses : list UUID;
  average_time_per_question : option Q   (* [None] is NaN *)
}.
End PerformanceAnalysis.

Module Submission.
Record t := {
  id : UUID;
  user_id : UUID;
  quiz_id : UUID;
  attempt_number : Z;
  total_questions : Z;
  correct_answers : Z;
  score_percentage : option Q;
  total_points_earned : Z;
  total_points_possible : Z;
  time_taken_minutes : option Q;
  started_at : option Z;
  completed_at : option Z;
  status : Status;
  improvement_suggestions : list string;
  performance_analysis : option PerformanceAnalysis.t
}.

(** [calculateScore()]. *)
Definition calculateScore (this : t) : Q :=
  if (total_points_possible this =? 0)%Z then 0
  else
    JsNum.round_100
      (inject_Z (total_points_earned this)
       / inject_Z (total_points_possible this) * 100).

(** [this.update({ completed_at, time_taken_minutes, status, score_percentage })]
    on a row. *)
Definition set_completion (this : t) (completedAt : Z) (timeTaken : option Q)
    (score : Q) : t :=
  {| id := id this; user_id := user_id this; quiz_id := quiz_id this;
     attempt_number := attempt_number this;
     total_questions := total_questions this;
     correct_answers := correct_answers this;
     score_percentage := Some score;
     total_points_earned := total_points_earned this;
     total_points_possible := total_points_possible this;
     time_taken_minutes := timeTaken;
     started_at := started_at this;
     completed_at := Some completedAt;
     status := completed;
     improvement_suggestions := improvement_suggestions this;
     performance_analysis := performance_analysis this |}.

(** The minutes between [started_at] and [completedAt], [null] without a
    start. *)
Definition timeTaken (this : t) (completedAt : Z) : option Q :=
  match started_at this with
  | Some started =>
      Some (inject_Z (completedAt - started) / inject_Z (1000 * 60))
  | None => None
  end.

(** [completeSubmission()]: the instance afterwards. *)
Definition completeSubmission (this : t) (completedAt : Z) : t :=
  set_completion this completedAt (timeTaken this completedAt)
                 (calculateScore this).

(** [this.update({ status })]. *)
Definition set_status (this : t) (st : Status) : t :=
  {| id := id this; user_id := user_id this; quiz_id := quiz_id this;
     attempt_number := attempt_number this;
     total_questions := total_questions this;
     correct_answers := correct_answers this;
     score_percentage := score_percentage this;
     total_points_earned := total_points_earned this;
     total_points_possible := total_points_possible this;
     time_taken_minutes := time_taken_minutes this;
     started_at := started_at this;
     completed_at := completed_at this;
     status := st;
     improvement_suggestions := improvement_suggestions this;
     performance_analysis := performance_analysis this |}.

(** [this.update({ correct_answers, total_points_earned, status })]. *)
Definition set_totals (this : t) (correct earned : Z) (st : Status) : t :=
  {| id := id this; user_id := user_id this; quiz_id := quiz_id this;
     attempt_number := attempt_number this;
     total_questions := total_questions this;
     correct_answers := correct;
     score_percentage := score_percentage this;
     total_points_earned := earned;
     total_points_possible := total_points_possible this;
     time_taken_minutes := time_taken_minutes this;
     started_at := started_at this;
     completed_at := completed_at this;
     status := st;
     improvement_suggestions := improvement_suggestions this;
     performance_analysis := performance_analysis this |}.

(** [this.update({ improvement_suggestions, performance_analysis })]. *)
Definition set_feedback (this : t) (suggestions : list string)
    (analysis : PerformanceAnalysis.t) : t :=
  {| id := id this; user_id := user_id this; quiz_id := quiz_id this;
     attempt_number := attempt_number this;
     total_questions := total_questions this;
     correct_answers := correct_answers this;
     score_percentage := score_percentage this;
     total_points_earned := total_points_earned this;
     total_points_possible := total_points_possible this;
     time_taken_minutes := time_taken_minutes this;
     started_at := started_at this;
     completed_at := completed_at this;
     status := status this;
     improvement_suggestions := suggestions;
     performance_analysis := Some analysis |}.
End Submission.

(** An answer row; its primary key, a random UUID nothing reads, is left
    out. *)
Module Answer.
Record t := {
  submission_id : UUID;
  question_id : UUID;
  user_answer : string;
  is_correct : bool;
  points_earned : Z;
  time_taken_seconds : option Z;
  hint_used : bool;
  ai_explanation : option string
}.
End Answer.

Module User.
Record t := {
  id : UUID;
  total_quizzes_attempted : Z;
  average_score : Q
}.

(** [this.update({ total_quizzes_attempted, average_score })] on a row. *)
Definition set_stats (this : t) (attempted : Z) (average : Q) : t :=
  {| id := id this;
     total_quizzes_attempted := attempted;
     average_score := average |}.

(** [updateStats(newScore)]: the instance afterwards. *)
Definition updateStats (this : t) (newScore : Q) : t :=
  let totalAttempts := (total_quizzes_attempted this + 1)%Z in
  let newAverage :=
    (average_score this * inject_Z (total_quizzes_attempted this) + newScore)
    / inject_Z totalAttempts in
  set_stats this totalAttempts (JsNum.round_100 newAverage).
End User.

(** The tables. *)
Module DB.
Record t := {
  quizzes : list Quiz.t;
  submissions : list Submission.t;
  answers : list Answer.t;
  users : list User.t
}.

Definition with_submissions (db : t) (l : list Submission.t) : t :=
  {| quizzes := quizzes db; submissions := l;
     answers := answers db; users := users db |}.

Definition with_answers (db : t) (l : list Answer.t) : t :=
  {| quizzes := quizzes db; submissions := submissions db;
     answers := l; users := users db |}.

Definition with_users (db : t) (l : list User.t) : t :=
  {| quizzes := quizzes db; submissions := submissions db;
     answers := answers db; users := l |}.

(** [Quiz.findByPk(quiz_id, { include: questions })]. *)
Definition findQuiz (db : t) (quiz_id : UUID) : option Quiz.t :=
  find (fun q => (Quiz.id q =? quiz_id)%N) (quizzes db).

(** [UPDATE submissions SET ... WHERE id = ...]: the statement behind
    [instance.update(fields)]; [set] writes the fields. *)
Definition updateSubmission (db : t) (id : UUID)
    (set : Submission.t -> Submission.t) : t :=
  with_submissions db
    (map (fun r => if (Submission.id r =? id)%N then set r else r)
         (submissions db)).

Definition updateUser (db : t) (id : UUID) (set : User.t -> User.t) : t :=
  with_users db
    (map (fun r => if (User.id r =? id)%N then set r else r) (users db)).

(** The validation of a new submission: [score_percentage] is
    [allowNull: false] without a default value and has the validators
    [min: 0] and [max: 100]; [attempt_number] has [min: 1]. *)
Definition validSubmission (s : Submission.t) : bool :=
  match Submission.score_percentage s with
  | None => false
  | Some score => Qle_bool 0 score && Qle_bool score 100
  end
  && (1 <=? Submission.attempt_number s)%Z.

(** [Submission.create]: the new row is validated first; then the unique
    index on [(user_id, quiz_id, attempt_number)] rejects a second row with
    the same triple. *)
Definition createSubmission (db : t) (s : Submission.t)
  : exn + t :=
  if negb (validSubmission s) then inl SequelizeValidationError
  else if existsb (fun r => (Submission.user_id r =? Submission.user_id s)%N
                       && (Submission.quiz_id r =? Submission.quiz_id s)%N
                       && (Submission.attempt_number r =? Submission.attempt_number s)%Z)
             (submissions db)
  then inl SequelizeUniqueConstraintError
  else inr (with_submissions db (submissions db ++ [s])).

(** [Answer.create]: the unique index on [(submission_id, question_id)]
    rejects a second answer to the same question in one submission. *)
Definition createAnswer (db : t) (a : Answer.t) : exn + t :=
  if existsb (fun r => (Answer.submission_id r =? Answer.submission_id a)%N
                       && (Answer.question_id r =? Answer.question_id a)%N)
             (answers db)
  then inl SequelizeUniqueConstraintError
  else inr (with_answers db (answers db ++ [a])).
End DB.

(** ** src/models/Submission.js and src/models/User.js on binary64 numbers *)

Module Submission64.
Import Binary64.

(** [calculateScore()]: [(earned / possible) * 100 * 100] is computed from
    the left, each operation rounding, then [Math.round] and the division
    by 100.  The two columns are integers. *)
Definition calculateScore (this : Submission.t) : Q :=
  if (Submission.total_points_possible this =? 0)%Z then 0
  else
    fl (inject_Z
          (JsNum.Math_round
             (fl (fl (fl (inject_Z (Submission.total_points_earned this)
                          / inject_Z (Submission.total_points_possible this))
                      * 100)
                  * 100)))
        / 100).

(** The validators [min: 0] and [max: 100] of [score_percentage]. *)
Definition validScore (score : Q) : bool :=
  Qle_bool 0 score && Qle_bool score 100.

(** The minutes between [started_at] and [completedAt], [null] without a
    start. *)
Definition timeTaken (this : Submission.t) (completedAt : Z) : option Q :=
  match Submission.started_at this with
  | Some started =>
      Some (fl (inject_Z (completedAt - started) / inject_Z (1000 * 60)))
  | None => None
  end.

(** [completeSubmission()]: the instance afterwards; [update] validates
    the score and throws when it is out of range. *)
Definition completeSubmission (this : Submission.t) (completedAt : Z)
  : exn + Submission.t :=
  let score := calculateScore this in
  if validScore score then
    inr (Submission.set_completion this completedAt
                                   (timeTaken this completedAt) score)
  else inl SequelizeValidationError.

End Submission64.

Module User64.
Import Binary64.

(** [updateStats(newScore)]: the instance afterwards.  [totalAttempts] is
    an integer; the average goes through four rounding operations before
    [Math.round].  [None]: the division is by zero and the result is not a
    finite number. *)
Definition updateStats (this : User.t) (newScore : Q) : option User.t :=
  let totalAttempts := (User.total_quizzes_attempted this + 1)%Z in
  if (totalAttempts =? 0)%Z then None
  else
    let newAverage :=
      fl (fl (fl (User.average_score this
                  * inject_Z (User.total_quizzes_attempted this))
              + newScore)
          / inject_Z totalAttempts) in
    Some (User.set_stats this totalAttempts
            (fl (inject_Z (JsNum.Math_round (fl (newAverage * 100))) / 100))).

End User64.

(** ** src/controllers/submissionController.js *)

Module SubmissionController.
Import JsNum JsString.

(** A JSON response: [res.status(http).json({ success: true, data })] or
    [res.status(http).json({ success: false, error })]. *)
Inductive Response (A : Type) :=
| Success (http : Z) (data : A)
| Failure (http : Z) (error : string).
Arguments Success {A} http data.
Arguments Failure {A} http error.

Definition internal_error {A : Type} : Response A :=
  Failure 500 "Internal server error".

(** *** startQuiz *)

Inductive StartData :=
| Resumed (submission_id : UUID) (started_at : option Z) (time_limit : option Z)
| Started (submission_id : UUID) (time_limit_minutes : option Z)
          (started_at : option Z) (attempt_number : Z).

(** [Submission.count({ where: { user_id, quiz_id, status: in [completed,
    in_progress] } })]. *)
Definition countAttempts (db : DB.t) (userId quiz_id : UUID) : Z :=
  Z.of_nat (List.length (filter
    (fun s => (Submission.user_id s =? userId)%N
              && (Submission.quiz_id s =? quiz_id)%N
              && (Status_eqb (Submission.status s) completed
                  || Status_eqb (Submission.status s) in_progress))
    (DB.submissions db))).

(** [Submission.findOne({ where: { user_id, quiz_id, status: 'in_progress' } })]. *)
Definition findInProgress (db : DB.t) (userId quiz_id : UUID)
  : option Submission.t :=
  find (fun s => (Submission.user_id s =? userId)%N
                 && (Submission.quiz_id s =? quiz_id)%N
                 && Status_eqb (Submission.status s) in_progress)
       (DB.submissions db).

(** [startQuiz(req, res)] for the authenticated user [userId] and the quiz
    [quiz_id]; [now] is the clock (default of [started_at]) and [new_id] the
    UUID drawn for the new row. *)
Definition startQuiz (db : DB.t) (now : Z) (new_id : UUID)
    (userId quiz_id : UUID) : Response StartData * DB.t :=
  match DB.findQuiz db quiz_id with
  | None => (Failure 404 "QUIZ_NOT_FOUND", db)
  | Some quiz =>
      if negb (Quiz.is_active quiz) then (Failure 400 "QUIZ_INACTIVE", db)
      else
        let existingAttempts := countAttempts db userId quiz_id in
        if (existingAttempts >=? Quiz.max_attempts quiz)%Z then
          (Failure 400 "MAX_ATTEMPTS_REACHED", db)
        else
          match findInProgress db userId quiz_id with
          | Some inProgressSubmission =>
              (Success 200
                 (Resumed (Submission.id inProgressSubmission)
                          (Submission.started_at inProgressSubmission)
                          (Quiz.time_limit_minutes quiz)),
               db)
          | None =>
              let submission := {|
                Submission.id := new_id;
                Submission.user_id := userId;
                Submission.quiz_id := quiz_id;
                Submission.attempt_number := (existingAttempts + 1)%Z;
                Submission.total_questions :=
                  Z.of_nat (List.length (Quiz.questions quiz));
                Submission.correct_answers := 0%Z;
                Submission.score_percentage := None;
                Submission.total_points_earned := 0%Z;
                Submission.total_points_possible :=
                  fold_left (fun sum q => (sum + Question.points q)%Z)
                            (Quiz.questions quiz) 0%Z;
                Submission.time_taken_minutes := None;
                Submission.started_at := Some now;
                Submission.completed_at := None;
                Submission.status := in_progress;
                Submission.improvement_suggestions := [];
                Submission.performance_analysis := None
              |} in
              match DB.createSubmission db submission with
              | inl _ => (internal_error, db)
              | inr db' =>
                  (Success 201
                     (Started (Submission.id submission)
                              (Quiz.time_limit_minutes quiz)
                              (Submission.started_at submission)
                              (Submission.attempt_number submission)),
                   db')
              end
          end
  end.

(** *** submitQuiz *)

(** One element of [req.body.answers], after validation. *)
Module UserAnswer.
Record t := {
  question_id : UUID;
  answer : string;
  time_taken : option Z;
  hint_used : option bool
}.
End UserAnswer.

(** The object pushed onto [answerResults]. *)
Module AnswerResult.
Record t := {
  question_id : UUID;
  question_text : string;
  user_answer : string;
  correct_answer : string;
  is_correct : bool;
  points_earned : Z;
  points_possible : Z;
  explanation : option string;
  ai_explanation : option string
}.

(** The read [r.time_taken_seconds]: the object literal above has no such
    property, so the read gives [undefined]. *)
Definition time_taken_seconds (r : t) : option Z := None.
End AnswerResult.

(** The generation service as the handler sees it: whether a client is
    configured, the outcome of the [n]-th evaluation request of this
    handler run, and the outcome of the suggestion request. *)
Module AI.
Record t := {
  available : bool;
  evaluations : nat -> AIService.Completion AIService.Evaluation.t;
  suggestions : AIService.Completion (option (list string))
}.
End AI.

(** The variables of the answer loop, with the store and the number of
    evaluation requests made so far. *)
Module Loop.
Record t := {
  db : DB.t;
  answerResults : list AnswerResult.t;
  totalPointsEarned : Z;
  correctAnswers : Z;
  requests : nat
}.
End Loop.

(** [getGrade(scorePercentage)]. *)
Definition getGrade (scorePercentage : Q) : string :=
  if geq scorePercentage 90 then "A+"
  else if geq scorePercentage 85 then "A"
  else if geq scorePercentage 80 then "A-"
  else if geq scorePercentage 75 then "B+"
  else if geq scorePercentage 70 then "B"
  else if geq scorePercentage 65 then "B-"
  else if geq scorePercentage 60 then "C+"
  else if geq scorePercentage 55 then "C"
  else if geq scorePercentage 50 then "C-"
  else "F".

(** The controller's own copy of [calculateSimilarity]. *)
Definition calculateSimilarity (text1 text2 : string) : Q :=
  let words1 := split_ws text1 in
  let words2 := split_ws text2 in
  let commonWords := filter (fun word => includes words2 word) words1 in
  div_nat (List.length commonWords)
          (Nat.max (List.length words1) (List.length words2)).

(** Evaluation of one answer against its question: [isCorrect],
    [pointsEarned], [aiExplanation] and the number of requests made.
    [this_bound] tells whether the handler runs with [this] bound to the
    controller; with [this] undefined, [this.calculateSimilarity] in the
    [catch] throws. *)
Definition evaluate (this_bound : bool) (ai : AI.t) (requests : nat)
    (question : Question.t) (userAnswer : UserAnswer.t)
  : exn + (bool * Z * option string * nat) :=
  match Question.question_type question with
  | multiple_choice | true_false =>
      let isCorrect :=
        String.eqb (toLowerCase (UserAnswer.answer userAnswer))
                   (toLowerCase (Question.correct_answer question)) in
      inr (isCorrect, if isCorrect then Question.points question else 0%Z,
           None, requests)
  | short_answer | essay =>
      let requests' := if AI.available ai then S requests else requests in
      match AIService.evaluateAnswer (AI.available ai)
              (AI.evaluations ai requests)
              (UserAnswer.answer userAnswer)
              (Question.correct_answer question) with
      | Some evaluation =>
          inr (AIService.Evaluation.isCorrect evaluation,
               Math_round (inject_Z (Question.points question)
                           * AIService.Evaluation.partialCredit evaluation),
               Some (AIService.Evaluation.feedback evaluation),
               requests')
      | None =>
          (* [evaluation.isCorrect] on [null] throws inside the [try] *)
          if this_bound then
            let similarity :=
              calculateSimilarity
                (toLowerCase (UserAnswer.answer userAnswer))
                (toLowerCase (Question.correct_answer question)) in
            let isCorrect := gt similarity (7 # 10) in
            inr (isCorrect,
                 if isCorrect then Question.points question
                 else Math_round (inject_Z (Question.points question) * similarity),
                 None, requests')
          else inl TypeError
      end
  end.

(** One iteration of [for (const userAnswer of answers)]. *)
Definition gradeAnswer (this_bound : bool) (ai : AI.t)
    (submission : Submission.t) (quiz : Quiz.t)
    (l : Loop.t) (userAnswer : UserAnswer.t) : exn + Loop.t :=
  match find (fun q => (Question.id q =? UserAnswer.question_id userAnswer)%N)
             (Quiz.questions quiz) with
  | None => inr l   (* continue *)
  | Some question =>
      match evaluate this_bound ai (Loop.requests l) question userAnswer with
      | inl e => inl e
      | inr (isCorrect, pointsEarned, aiExplanation, requests') =>
          let answerRecord := {|
            Answer.submission_id := Submission.id submission;
            Answer.question_id := Question.id question;
            Answer.user_answer := UserAnswer.answer userAnswer;
            Answer.is_correct := isCorrect;
            Answer.points_earned := pointsEarned;
            Answer.time_taken_seconds :=
              match UserAnswer.time_taken userAnswer with
              | Some t => if (t =? 0)%Z then None else Some t
              | None => None
              end;
            Answer.hint_used :=
              match UserAnswer.hint_used userAnswer with
              | Some b => b
              | None => false
              end;
            Answer.ai_explanation := aiExplanation
          |} in
          match DB.createAnswer (Loop.db l) answerRecord with
          | inl e => inl e
          | inr db' =>
              inr {|
                Loop.db := db';
                Loop.answerResults :=
                  Loop.answerResults l ++ [ {|
                    AnswerResult.question_id := Question.id question;
                    AnswerResult.question_text := Question.question_text question;
                    AnswerResult.user_answer := UserAnswer.answer userAnswer;
                    AnswerResult.correct_answer := Question.correct_answer question;
                    AnswerResult.is_correct := isCorrect;
                    AnswerResult.points_earned := pointsEarned;
                    AnswerResult.points_possible := Question.points question;
                    AnswerResult.explanation := Question.explanation question;
                    AnswerResult.ai_explanation := aiExplanation
                  |} ];
                Loop.totalPointsEarned :=
                  (Loop.totalPointsEarned l + pointsEarned)%Z;
                Loop.correctAnswers :=
                  if isCorrect then (Loop.correctAnswers l + 1)%Z
                  else Loop.correctAnswers l;
                Loop.requests := requests'
              |}
          end
      end
  end.

(** The whole loop; an exception leaves it with the variables as they were
    when it was raised. *)
Fixpoint gradeAnswers (this_bound : bool) (ai : AI.t)
    (submission : Submission.t) (quiz : Quiz.t)
    (answers : list UserAnswer.t) (l : Loop.t) : Loop.t * option exn :=
  match answers with
  | [] => (l, None)
  | userAnswer :: rest =>
      match gradeAnswer this_bound ai submission quiz l userAnswer with
      | inl e => (l, Some e)
      | inr l' => gradeAnswers this_bound ai submission quiz rest l'
      end
  end.

(** [average_time_per_question]: the sum of [r.time_taken_seconds || 0]
    over [answerResults], divided by their number; NaN for none. *)
Definition average_time (answerResults : list AnswerResult.t) : option Q :=
  let total :=
    fold_left
      (fun sum r =>
         match AnswerResult.time_taken_seconds r with
         | Some t => if (t =? 0)%Z then sum + 0 else sum + inject_Z t
         | None => sum + 0
         end)
      answerResults 0 in
  match answerResults with
  | [] => None
  | _ => Some (total / inject_Z (Z.of_nat (List.length answerResults)))
  end.

Module SubmitData.
Record t := {
  submission : Submission.t;
  correct_answers : Z;
  total_points_earned : Z;
  results : list AnswerResult.t;
  improvement_suggestions : list string;
  grade : string;
  can_retry : bool
}.
End SubmitData.

(** [submitQuiz(req, res)] once validation has passed: [user] is [req.user],
    [now] the clock at the time-limit check and [completedAt] the clock in
    [completeSubmission]. *)
Definition submitQuiz (this_bound : bool) (ai : AI.t) (db : DB.t)
    (now completedAt : Z) (user : User.t) (submission_id : UUID)
    (answers : list UserAnswer.t) : Response SubmitData.t * DB.t :=
  match find (fun s => (Submission.id s =? submission_id)%N
                       && (Submission.user_id s =? User.id user)%N)
             (DB.submissions db) with
  | None => (Failure 404 "SUBMISSION_NOT_FOUND", db)
  | Some submission =>
      if negb (Status_eqb (Submission.status submission) in_progress) then
        (Failure 400 "QUIZ_NOT_IN_PROGRESS", db)
      else
        match DB.findQuiz db (Submission.quiz_id submission) with
        | None => (internal_error, db)   (* [submission.quiz] is null *)
        | Some quiz =>
            let expired_now :=
              match Quiz.time_limit_minutes quiz with
              | Some limit =>
                  if (limit =? 0)%Z then false
                  else
                    let started :=
                      match Submission.started_at submission with
                      | Some t => t
                      | None => 0%Z
                      end in
                    let timeElapsed :=
                      inject_Z (now - started) / inject_Z (1000 * 60) in
                    gt timeElapsed (inject_Z limit)
              | None => false
              end in
            if expired_now then
              (Failure 400 "TIME_LIMIT_EXCEEDED",
               DB.updateSubmission db (Submission.id submission)
                 (fun r => Submission.set_status r expired))
            else
              match gradeAnswers this_bound ai submission quiz answers
                      {| Loop.db := db; Loop.answerResults := [];
                         Loop.totalPointsEarned := 0; Loop.correctAnswers := 0;
                         Loop.requests := 0 |} with
              | (l, Some _) => (internal_error, Loop.db l)
              | (l, None) =>
                  let answerResults := Loop.answerResults l in
                  let submission1 :=
                    Submission.set_totals submission (Loop.correctAnswers l)
                      (Loop.totalPointsEarned l) completed in
                  let db1 :=
                    DB.updateSubmission (Loop.db l) (Submission.id submission)
                      (fun r => Submission.set_totals r (Loop.correctAnswers l)
                                  (Loop.totalPointsEarned l) completed) in
                  let submission2 :=
                    Submission.completeSubmission submission1 completedAt in
                  let db2 :=
                    DB.updateSubmission db1 (Submission.id submission)
                      (fun r => Submission.set_completion r completedAt
                                  (Submission.timeTaken submission1 completedAt)
                                  (Submission.calculateScore submission1)) in
                  let score_percentage := Submission.calculateScore submission1 in
                  let user' := User.updateStats user score_percentage in
                  let db3 :=
                    DB.updateUser db2 (User.id user)
                      (fun r => User.set_stats r
                                  (User.total_quizzes_attempted user')
                                  (User.average_score user')) in
                  let incorrectQuestions :=
                    filter (fun r => negb (AnswerResult.is_correct r)) answerResults in
                  let improvementSuggestions :=
                    if (0 <? List.length incorrectQuestions)%nat then
                      AIService.generateImprovementSuggestions
                        (AI.available ai) (AI.suggestions ai)
                    else [] in
                  let analysis := {|
                    PerformanceAnalysis.strengths :=
                      map AnswerResult.question_id
                          (filter AnswerResult.is_correct answerResults);
                    PerformanceAnalysis.weaknesses :=
                      map AnswerResult.question_id
                          (filter (fun r => negb (AnswerResult.is_correct r))
                                  answerResults);
                    PerformanceAnalysis.average_time_per_question :=
                      average_time answerResults |} in
                  let submission3 :=
                    Submission.set_feedback submission2 improvementSuggestions
                                            analysis in
                  let db4 :=
                    DB.updateSubmission db3 (Submission.id submission)
                      (fun r => Submission.set_feedback r improvementSuggestions
                                                        analysis) in
                  if this_bound then
                    (Success 200 {|
                       SubmitData.submission := submission3;
                       SubmitData.correct_answers := Loop.correctAnswers l;
                       SubmitData.total_points_earned := Loop.totalPointsEarned l;
                       SubmitData.results := answerResults;
                       SubmitData.improvement_suggestions := improvementSuggestions;
                       SubmitData.grade :=
                         getGrade score_percentage;
                       SubmitData.can_retry :=
                         (Submission.attempt_number submission3
                          <? Quiz.max_attempts quiz)%Z
                     |}, db4)
                  else
                    (* [this.getGrade] throws once everything is stored *)
                    (internal_error, db4)
              end
        end
  end.

End SubmissionController.

(** ** src/controllers/quizController.js: the adaptive call site *)

Module QuizController.

(** [generateQuiz], lines deciding [finalDifficulty]: the requested level is
    kept unless it is falsy or ['adaptive']; otherwise it is the
    [difficulty] property of what [adaptQuizDifficulty] returns for the
    mapped history.  [None] is [undefined]. *)
Definition finalDifficulty (difficulty_level : option string)
    (userHistory : list AIService.HistoryItem.t) : option string :=
  let adaptive :=
    match difficulty_level with
    | None => true
    | Some d => String.eqb d "" || String.eqb d "adaptive"
    end in
  if adaptive then
    AIService.get_difficulty
      (AIService.adaptQuizDifficulty (AIService.HArray (map Some userHistory)))
  else difficulty_level.

End QuizController.

(** ** Definitions that follow the specification's words *)

Module Spec.

(** The number of words of [wa] present in [wb], each occurrence in [wa]
    counted. *)
Fixpoint count_present (wa wb : list string) : nat :=
  match wa with
  | [] => 0
  | w :: r => (if in_dec string_dec w wb then 1 else 0) + count_present r wb
  end.

Fixpoint all_chars (p : ascii -> bool) (s : string) : bool :=
  match s with
  | EmptyString => true
  | String c r => p c && all_chars p r
  end.

Definition no_space (w : string) : Prop :=
  all_chars (fun c => negb (JsString.isSpace c)) w = true.

Definition space_run (sep : string) : Prop :=
  sep <> EmptyString /\ all_chars JsString.isSpace sep = true.

Definition starts_with_space (s : string) : bool :=
  match s with
  | EmptyString => false
  | String c _ => JsString.isSpace c
  end.

(** "Split on whitespace": [Words s ws] says that [s] is the words [ws], free
    of white space, with a maximal non-empty run of white space between two
    neighbours. *)
Inductive Words : string -> list string -> Prop :=
| Words_last (w : string) :
    no_space w -> Words w [w]
| Words_cut (w sep rest : string) (ws : list string) :
    no_space w -> space_run sep -> starts_with_space rest = false ->
    Words rest ws -> Words (w ++ sep ++ rest) (w :: ws).

(** *** Adaptive-difficulty rules, fallback grading, lifecycle invariants *)

Definition mean (xs : list Q) : Q :=
  JsNum.sumQ xs / inject_Z (Z.of_nat (List.length xs)).

(** The decision table, first match first. *)
Definition decide (averageScore trend : Q) : string :=
  if JsNum.geq averageScore 85 && JsNum.geq trend 0 then "hard"
  else if JsNum.geq averageScore 70 then "medium"
  else if JsNum.lt averageScore 60 then "easy"
  else "mixed".

(** "The most recent at most 5 entries" of a history given most recent
    first. *)
Definition most_recent (n : nat) (history : list Q) : list Q :=
  firstn n history.

(** The difficulty the specification recommends for the scores of a
    non-empty history given most recent first. *)
Definition recommended (history : list Q) : string :=
  let window := most_recent 5 history in
  decide (mean window) (AIService.calculateTrend window).

(** Points of a fallback-graded answer: all of them when the similarity
    exceeds 0.7, [round(points * similarity)] otherwise. *)
Definition fallback_points (points : Z) (similarity : Q) : Z :=
  if JsNum.gt similarity (7 # 10) then points
  else JsNum.Math_round (inject_Z points * similarity).

(** Mean of the answers' [time_taken_seconds], a missing value counting
    as 0. *)
Definition mean_time (times : list (option Z)) : Q :=
  mean (map (fun t => match t with Some s => inject_Z s | None => 0 end) times).

(** Number of [in_progress] submissions of a user for a quiz. *)
Definition in_progress_count (db : DB.t) (userId quiz_id : UUID) : nat :=
  List.length (filter
    (fun s => (Submission.user_id s =? userId)%N
              && (Submission.quiz_id s =? quiz_id)%N
              && Status_eqb (Submission.status s) in_progress)
    (DB.submissions db)).

(** "A user may hold at most one in_progress submission per quiz." *)
Definition at_most_one_in_progress (db : DB.t) : Prop :=
  forall userId quiz_id, (in_progress_count db userId quiz_id <= 1)%nat.

(** "Completed + in_progress submissions per (user, quiz) never exceed the
    quiz's max_attempts." *)
Definition within_max_attempts (db : DB.t) : Prop :=
  forall userId quiz_id quiz,
    DB.findQuiz db quiz_id = Some quiz ->
    (SubmissionController.countAttempts db userId quiz_id
     <= Quiz.max_attempts quiz)%Z.

(** The submission id carried by a successful start response. *)
Definition submission_id_of
    (r : SubmissionController.Response SubmissionController.StartData)
  : option UUID :=
  match r with
  | SubmissionController.Success _ (SubmissionController.Resumed i _ _) => Some i
  | SubmissionController.Success _ (SubmissionController.Started i _ _ _) => Some i
  | SubmissionController.Failure _ _ => None
  end.

(** "Start returns the existing in_progress submission when one exists",
    read without a condition on the attempt count. *)
Definition resumes_whenever_in_progress : Prop :=
  forall db now new_id userId quiz_id quiz s,
    DB.findQuiz db quiz_id = Some quiz -> Quiz.is_active quiz = true ->
    SubmissionController.findInProgress db userId quiz_id = Some s ->
    submission_id_of
      (fst (SubmissionController.startQuiz db now new_id userId quiz_id))
    = Some (Submission.id s).

(** An answer whose [question_id] is the id of a question of the quiz. *)
Definition known_question (quiz : Quiz.t)
    (ua : SubmissionController.UserAnswer.t) : bool :=
  existsb (fun q => (Question.id q
                     =? SubmissionController.UserAnswer.question_id ua)%N)
          (Quiz.questions quiz).

(** The evaluation capability's contract: a parsed reply carries a partial
    credit between 0 and 1. *)
Definition service_contract (ai : SubmissionController.AI.t) : Prop :=
  forall n e,
    SubmissionController.AI.evaluations ai n = AIService.Parsed e ->
    0 <= AIService.Evaluation.partialCredit e
    /\ AIService.Evaluation.partialCredit e <= 1.

(** Sum of the points of the questions selected by [u]. *)
Fixpoint points_where (u : Question.t -> bool) (qs : list Question.t) : Z :=
  match qs with
  | [] => 0
  | q :: r => ((if u q then Question.points q else 0) + points_where u r)%Z
  end.

(** A question none of the graded answers so far belongs to. *)
Definition ungraded (results : list SubmissionController.AnswerResult.t)
    (q : Question.t) : bool :=
  negb (existsb
          (fun r => (SubmissionController.AnswerResult.question_id r
                     =? Question.id q)%N)
          results).

(** What the answer loop maintains: every graded answer has its row in the
    answers table, and the points earned so far plus the points of the
    questions still ungraded do not exceed the points of the quiz. *)
Definition loop_invariant (submission : Submission.t) (quiz : Quiz.t)
    (l : SubmissionController.Loop.t) : Prop :=
  (forall r, In r (SubmissionController.Loop.answerResults l) ->
     exists row, In row (DB.answers (SubmissionController.Loop.db l))
       /\ Answer.submission_id row = Submission.id submission
       /\ Answer.question_id row
          = SubmissionController.AnswerResult.question_id r)
  /\ (0 <= SubmissionController.Loop.totalPointsEarned l)%Z
  /\ (SubmissionController.Loop.totalPointsEarned l
      + points_where (ungraded (SubmissionController.Loop.answerResults l))
                     (Quiz.questions quiz)
      <= points_where (fun _ => true) (Quiz.questions quiz))%Z.

End Spec.

(** ** Concrete inputs used by the examples *)

Module Sample.

(** A history array whose items carry the given scores. *)
Definition history_of (scores : list Q)
  : list (option AIService.HistoryItem.t) :=
  map (fun q => Some {| AIService.HistoryItem.score_percentage := q;
                        AIService.HistoryItem.difficulty := "medium" |})
      scores.

(** Six completed quizzes, most recent first: five at 90, the oldest at 10. *)
Definition six_scores : list Q := [90; 90; 90; 90; 90; 10].

(** A ten-point short-answer question. *)
Definition open_question : Question.t :=
  {| Question.id := 11%N;
     Question.question_text := "Name the four letters.";
     Question.question_type := short_answer;
     Question.correct_answer := "a b c d";
     Question.explanation := None;
     Question.points := 10 |}.

(** An answer sharing three of the four words of the reference answer. *)
Definition open_answer : SubmissionController.UserAnswer.t :=
  {| SubmissionController.UserAnswer.question_id := 11%N;
     SubmissionController.UserAnswer.answer := "a b c x";
     SubmissionController.UserAnswer.time_taken := Some 30%Z;
     SubmissionController.UserAnswer.hint_used := None |}.

(** No client configured. *)
Definition ai_unavailable : SubmissionController.AI.t :=
  {| SubmissionController.AI.available := false;
     SubmissionController.AI.evaluations := fun _ => AIService.ApiThrows;
     SubmissionController.AI.suggestions := AIService.ApiThrows |}.

(** A configured client whose every request fails. *)
Definition ai_failing : SubmissionController.AI.t :=
  {| SubmissionController.AI.available := true;
     SubmissionController.AI.evaluations := fun _ => AIService.ApiThrows;
     SubmissionController.AI.suggestions := AIService.ApiThrows |}.

Definition choice_question : Question.t :=
  {| Question.id := 10%N;
     Question.question_text := "Which letter comes second?";
     Question.question_type := multiple_choice;
     Question.correct_answer := "B";
     Question.explanation := None;
     Question.points := 5 |}.

Definition other_question : Question.t :=
  {| Question.id := 12%N;
     Question.question_text := "Is the sky blue?";
     Question.question_type := true_false;
     Question.correct_answer := "true";
     Question.explanation := None;
     Question.points := 1 |}.

(** A quiz of two questions, three attempts, one minute. *)
Definition quiz : Quiz.t :=
  {| Quiz.id := 3%N; Quiz.subject := "english"; Quiz.grade_level := 5;
     Quiz.time_limit_minutes := Some 1%Z; Quiz.max_attempts := 3;
     Quiz.is_active := true;
     Quiz.questions := [choice_question; open_question] |}.

(** A quiz that allows a single attempt. *)
Definition single_attempt_quiz : Quiz.t :=
  {| Quiz.id := 4%N; Quiz.subject := "english"; Quiz.grade_level := 5;
     Quiz.time_limit_minutes := None; Quiz.max_attempts := 1;
     Quiz.is_active := true;
     Quiz.questions := [other_question] |}.

Definition user : User.t :=
  {| User.id := 2%N; User.total_quizzes_attempted := 2;
     User.average_score := 80 |}.

(** The user's first attempt at [quiz], started at time 0. *)
Definition attempt : Submission.t :=
  {| Submission.id := 1%N; Submission.user_id := 2%N;
     Submission.quiz_id := 3%N; Submission.attempt_number := 1;
     Submission.total_questions := 2; Submission.correct_answers := 0;
     Submission.score_percentage := None;
     Submission.total_points_earned := 0;
     Submission.total_points_possible := 15;
     Submission.time_taken_minutes := None;
     Submission.started_at := Some 0%Z; Submission.completed_at := None;
     Submission.status := in_progress;
     Submission.improvement_suggestions := [];
     Submission.performance_analysis := None |}.

(** A store with both quizzes, the user and the attempt in progress. *)
Definition db : DB.t :=
  {| DB.quizzes := [quiz; single_attempt_quiz];
     DB.submissions := [attempt];
     DB.answers := [];
     DB.users := [user] |}.

(** A store in which the user's single attempt at [single_attempt_quiz] is
    in progress. *)
Definition last_attempt : Submission.t :=
  {| Submission.id := 7%N; Submission.user_id := 2%N;
     Submission.quiz_id := 4%N; Submission.attempt_number := 1;
     Submission.total_questions := 1; Submission.correct_answers := 0;
     Submission.score_percentage := Some 0;
     Submission.total_points_earned := 0;
     Submission.total_points_possible := 1;
     Submission.time_taken_minutes := None;
     Submission.started_at := Some 0%Z; Submission.completed_at := None;
     Submission.status := in_progress;
     Submission.improvement_suggestions := [];
     Submission.performance_analysis := None |}.

Definition db_last_attempt : DB.t :=
  {| DB.quizzes := [quiz; single_attempt_quiz];
     DB.submissions := [last_attempt];
     DB.answers := [];
     DB.users := [user] |}.

(** The right choice, given in lower case after 30 seconds. *)
Definition choice_answer : SubmissionController.UserAnswer.t :=
  {| SubmissionController.UserAnswer.question_id := 10%N;
     SubmissionController.UserAnswer.answer := "b";
     SubmissionController.UserAnswer.time_taken := Some 30%Z;
     SubmissionController.UserAnswer.hint_used := None |}.

(** An answer to a question that is not part of the quiz. *)
Definition stray_answer : SubmissionController.UserAnswer.t :=
  {| SubmissionController.UserAnswer.question_id := 99%N;
     SubmissionController.UserAnswer.answer := "zzz";
     SubmissionController.UserAnswer.time_taken := Some 5%Z;
     SubmissionController.UserAnswer.hint_used := None |}.

End Sample.

(** ** src/controllers/submissionController.js: the read-only handlers *)

Module SubmissionQueries.
Import JsNum.

(** The controller's own [calculateTrend(scores)]: its "first half" is the
    slice from the middle on, its "second half" the slice before the
    middle, and it returns [firstAvg - secondAvg]. *)
Definition calculateTrend (scores : list Q) : Q :=
  if (List.length scores <? 2)%nat then 0
  else
    let firstHalf := skipn (List.length scores / 2) scores in
    let secondHalf := firstn (List.length scores / 2) scores in
    let firstAvg := sumQ firstHalf / inject_Z (Z.of_nat (List.length firstHalf)) in
    let secondAvg := sumQ secondHalf / inject_Z (Z.of_nat (List.length secondHalf)) in
    firstAvg - secondAvg.

(** *** retryQuiz *)

(** [ORDER BY completed_at DESC]: later completions first, rows without a
    completion time before all others (the database's default for a
    descending order); rows with equal times keep the order of the
    table. *)
Definition sorts_before (x y : Submission.t) : bool :=
  match Submission.completed_at x, Submission.completed_at y with
  | None, _ => true
  | Some _, None => false
  | Some a, Some b => (b <=? a)%Z
  end.

Fixpoint insert_desc (x : Submission.t) (l : list Submission.t)
  : list Submission.t :=
  match l with
  | [] => [x]
  | y :: r => if sorts_before x y then x :: y :: r else y :: insert_desc x r
  end.

Definition order_by_completed_at_desc (l : list Submission.t)
  : list Submission.t :=
  fold_right insert_desc [] l.

(** [getGrade] applied to a column that may be [null]: the comparisons
    read [null] as 0. *)
Definition grade_of (score_percentage : option Q) : string :=
  SubmissionController.getGrade
    (match score_percentage with Some q => q | None => 0 end).

Module PreviousAttempt.
Record t := {
  attempt_number : Z;
  score_percentage : option Q;
  completed_at : option Z;
  grade : string
}.
End PreviousAttempt.

Module RetryData.
Record t := {
  quiz_id : UUID;
  current_attempts : Z;
  max_attempts : Z;
  remaining_attempts : Z;
  previous_attempts : list PreviousAttempt.t
}.
End RetryData.

(** [retryQuiz(req, res)].  The callback of [previousAttempts.map] reads
    [this.getGrade]; it runs only when there is a previous attempt, and
    throws when the handler runs with [this] undefined. *)
Definition retryQuiz (this_bound : bool) (db : DB.t) (userId quiz_id : UUID)
  : SubmissionController.Response RetryData.t :=
  match DB.findQuiz db quiz_id with
  | None => SubmissionController.Failure 404 "QUIZ_NOT_FOUND"
  | Some quiz =>
      if negb (Quiz.is_active quiz) then
        SubmissionController.Failure 400 "QUIZ_INACTIVE"
      else
        let existingAttempts :=
          SubmissionController.countAttempts db userId quiz_id in
        if (existingAttempts >=? Quiz.max_attempts quiz)%Z then
          SubmissionController.Failure 400 "MAX_ATTEMPTS_REACHED"
        else
          let previousAttempts :=
            firstn 3
              (order_by_completed_at_desc
                 (filter (fun s => (Submission.user_id s =? userId)%N
                                   && (Submission.quiz_id s =? quiz_id)%N
                                   && Status_eqb (Submission.status s) completed)
                         (DB.submissions db))) in
          match previousAttempts, this_bound with
          | _ :: _, false => SubmissionController.internal_error
          | _, _ =>
              SubmissionController.Success 200 {|
                RetryData.quiz_id := Quiz.id quiz;
                RetryData.current_attempts := existingAttempts;
                RetryData.max_attempts := Quiz.max_attempts quiz;
                RetryData.remaining_attempts :=
                  (Quiz.max_attempts quiz - existingAttempts)%Z;
                RetryData.previous_attempts :=
                  map (fun attempt => {|
                         PreviousAttempt.attempt_number :=
                           Submission.attempt_number attempt;
                         PreviousAttempt.score_percentage :=
                           Submission.score_percentage attempt;
                         PreviousAttempt.completed_at :=
                           Submission.completed_at attempt;
                         PreviousAttempt.grade :=
                           grade_of (Submission.score_percentage attempt) |})
                      previousAttempts
              |}
          end
  end.

(** *** Pagination of getQuizHistory (and of getQuizzes) *)

Module Pagination.
Record t := {
  current_page : Z;
  total_pages : Z;
  total_count : Z;
  per_page : Z;
  has_next : bool;
  has_prev : bool
}.
End Pagination.

(** The [pagination] object of the response, for the parsed [page] and
    [limit] and the count returned by [findAndCountAll]. *)
Definition pagination (page limit totalCount : Z) : Pagination.t :=
  {| Pagination.current_page := page;
     Pagination.total_pages := Qceiling (inject_Z totalCount / inject_Z limit);
     Pagination.total_count := totalCount;
     Pagination.per_page := limit;
     Pagination.has_next := (page * limit <? totalCount)%Z;
     Pagination.has_prev := (page >? 1)%Z |}.

(** [offset = (page - 1) * limit]. *)
Definition offset (page limit : Z) : Z := ((page - 1) * limit)%Z.

(** The rows [findAndCountAll] returns for [limit] and [offset], out of
    the ordered rows that match. *)
Definition page_rows {A : Type} (matching : list A) (page limit : Z) : list A :=
  firstn (Z.to_nat limit) (skipn (Z.to_nat (offset page limit)) matching).

End SubmissionQueries.

(** ** src/controllers/quizController.js: getQuizStats *)

Module QuizStats.
Import JsNum.

(** A [null] column read as a number. *)
Definition num (x : option Q) : Q :=
  match x with Some q => q | None => 0 end.

(** [Math.max(a, b)] and [Math.min(a, b)]. *)
Definition max2 (a b : Q) : Q := if Qle_bool a b then b else a.
Definition min2 (a b : Q) : Q := if Qle_bool a b then a else b.

(** [[...new Set(ids)]]: the distinct ids, in order of first occurrence. *)
Fixpoint unique (ids : list UUID) : list UUID :=
  match ids with
  | [] => []
  | x :: r => x :: filter (fun y => negb (y =? x)%N) (unique r)
  end.

Module Distribution.
Record t := { excellent : Z; good : Z; fair : Z; poor : Z }.
End Distribution.

Module Stats.
Record t := {
  total_attempts : Z;
  average_score : Q;
  highest_score : Q;
  lowest_score : Q;
  average_completion_time : Q;
  unique_participants : Z;
  score_distribution : option Distribution.t
}.
End Stats.

Definition count_where (p : Q -> bool) (scores : list Q) : Z :=
  Z.of_nat (List.length (filter p scores)).

(** The statistics computed from the completed submissions of the quiz;
    the empty case returns the fixed object without a distribution. *)
Definition stats_of (submissions : list Submission.t) : Stats.t :=
  match map (fun s => num (Submission.score_percentage s)) submissions with
  | [] =>
      {| Stats.total_attempts := 0; Stats.average_score := 0;
         Stats.highest_score := 0; Stats.lowest_score := 0;
         Stats.average_completion_time := 0;
         Stats.unique_participants := 0;
         Stats.score_distribution := None |}
  | first :: others =>
      let scores := first :: others in
      let times :=
        map (fun s => num (Submission.time_taken_minutes s))
            (filter (fun s =>
                       match Submission.time_taken_minutes s with
                       | Some t => negb (Qeq_bool t 0)
                       | None => false
                       end)
                    submissions) in
      let uniqueUsers := unique (map Submission.user_id submissions) in
      {| Stats.total_attempts := Z.of_nat (List.length submissions);
         Stats.average_score :=
           round_100 (sumQ scores / inject_Z (Z.of_nat (List.length scores)));
         Stats.highest_score := fold_left max2 others first;
         Stats.lowest_score := fold_left min2 others first;
         Stats.average_completion_time :=
           if (0 <? List.length times)%nat then
             round_100 (sumQ times / inject_Z (Z.of_nat (List.length times)))
           else 0;
         Stats.unique_participants := Z.of_nat (List.length uniqueUsers);
         Stats.score_distribution := Some {|
           Distribution.excellent := count_where (fun s => geq s 90) scores;
           Distribution.good :=
             count_where (fun s => geq s 70 && lt s 90) scores;
           Distribution.fair :=
             count_where (fun s => geq s 50 && lt s 70) scores;
           Distribution.poor := count_where (fun s => lt s 50) scores |} |}
  end.

(** [getQuizStats(req, res)]: the statistics of the completed submissions
    of quiz [id]. *)
Definition getQuizStats (db : DB.t) (id : UUID) : Stats.t :=
  stats_of (filter (fun s => (Submission.quiz_id s =? id)%N
                             && Status_eqb (Submission.status s) completed)
                   (DB.submissions db)).

End QuizStats.

(** ** src/controllers/submissionController.js: getPerformanceSummary *)

Module PerformanceSummary.
Import JsNum.

Module SubjectPerformance.
Record t := {
  count : Z;
  total_score : Q;
  best_score : Q;
  average_score : Q
}.
End SubjectPerformance.

(** The object [subjectPerformance]: its own properties, in the order in
    which they were created. *)
Definition Subjects := list (string * SubjectPerformance.t).

(** The names an object literal inherits from [Object.prototype].  For
    such a name [subjectPerformance[subject]] is an inherited value, which
    is truthy: no own property is created, and the three updates write to
    the inherited value. *)
Definition inherited (key : string) : bool :=
  existsb (String.eqb key)
    ["constructor"; "__defineGetter__"; "__defineSetter__"; "hasOwnProperty";
     "__lookupGetter__"; "__lookupSetter__"; "isPrototypeOf";
     "propertyIsEnumerable"; "toString"; "valueOf"; "__proto__";
     "toLocaleString"].

Fixpoint own (o : Subjects) (key : string) : option SubjectPerformance.t :=
  match o with
  | [] => None
  | (k, v) :: r => if String.eqb k key then Some v else own r key
  end.

Fixpoint assign (o : Subjects) (key : string) (v : SubjectPerformance.t)
  : Subjects :=
  match o with
  | [] => [(key, v)]
  | (k, w) :: r =>
      if String.eqb k key then (k, v) :: r else (k, w) :: assign r key v
  end.

(** The body of [submissions.forEach] for one submission of [subject]. *)
Definition record (o : Subjects) (subject : string) (score : option Q)
  : Subjects :=
  if inherited subject then o
  else
    let entry :=
      match own o subject with
      | Some e => e
      | None =>
          {| SubjectPerformance.count := 0;
             SubjectPerformance.total_score := 0;
             SubjectPerformance.best_score := 0;
             SubjectPerformance.average_score := 0 |}
      end in
    assign o subject
      {| SubjectPerformance.count := SubjectPerformance.count entry + 1;
         SubjectPerformance.total_score :=
           SubjectPerformance.total_score entry + QuizStats.num score;
         SubjectPerformance.best_score :=
           QuizStats.max2 (SubjectPerformance.best_score entry)
                          (QuizStats.num score);
         SubjectPerformance.average_score :=
           SubjectPerformance.average_score entry |}.

(** [submissions.forEach(sub => ...)]; [sub.quiz] is the joined quiz row,
    [null] when there is none, and then [sub.quiz.subject] throws. *)
Fixpoint forEach_subject (db : DB.t) (submissions : list Submission.t)
    (o : Subjects) : option Subjects :=
  match submissions with
  | [] => Some o
  | sub :: r =>
      match DB.findQuiz db (Submission.quiz_id sub) with
      | None => None
      | Some quiz =>
          forEach_subject db r
            (record o (Quiz.subject quiz) (Submission.score_percentage sub))
      end
  end.

(** [Object.keys(subjectPerformance).forEach(...)]: the averages. *)
Definition averaged (o : Subjects) : Subjects :=
  map (fun e =>
         (fst e,
          {| SubjectPerformance.count := SubjectPerformance.count (snd e);
             SubjectPerformance.total_score :=
               SubjectPerformance.total_score (snd e);
             SubjectPerformance.best_score :=
               SubjectPerformance.best_score (snd e);
             SubjectPerformance.average_score :=
               SubjectPerformance.total_score (snd e)
               / inject_Z (SubjectPerformance.count (snd e)) |}))
      o.

Module RecentPerformance.
Record t := {
  quiz_title : string;
  subject : string;
  score_percentage : option Q;
  completed_at : option Z;
  grade : string
}.
End RecentPerformance.

Module SummaryData.
Record t := {
  total_quizzes : Z;
  average_score : Q;
  best_score : Q;
  recent_performance : list RecentPerformance.t;
  subject_performance : Subjects;
  improvement_trend : string
}.
End SummaryData.

(** The completed submissions of the user, most recently completed first. *)
Definition completed_submissions (db : DB.t) (userId : UUID)
  : list Submission.t :=
  SubmissionQueries.order_by_completed_at_desc
    (filter (fun s => (Submission.user_id s =? userId)%N
                      && Status_eqb (Submission.status s) completed)
            (DB.submissions db)).

(** One element of [recent_performance]; the join loads only [subject],
    [grade_level] and [difficulty_level], so that [sub.quiz.title] is
    undefined and the title is built from the subject. *)
Definition recent_of (db : DB.t) (sub : Submission.t) : RecentPerformance.t :=
  let subject :=
    match DB.findQuiz db (Submission.quiz_id sub) with
    | Some quiz => Quiz.subject quiz
    | None => ""
    end in
  {| RecentPerformance.quiz_title := subject ++ " Quiz";
     RecentPerformance.subject := subject;
     RecentPerformance.score_percentage := Submission.score_percentage sub;
     RecentPerformance.completed_at := Submission.completed_at sub;
     RecentPerformance.grade :=
       SubmissionQueries.grade_of (Submission.score_percentage sub) |}.

(** [getPerformanceSummary(req, res)].  With submissions to report the
    handler reads [this.calculateTrend] and [this.getGrade], which throws
    when it runs with [this] undefined; [recent_of] is reached only when
    every submission has its quiz. *)
Definition getPerformanceSummary (this_bound : bool) (db : DB.t)
    (userId : UUID) : SubmissionController.Response SummaryData.t :=
  let submissions := completed_submissions db userId in
  match map (fun s => QuizStats.num (Submission.score_percentage s))
            submissions with
  | [] =>
      SubmissionController.Success 200
        {| SummaryData.total_quizzes := 0;
           SummaryData.average_score := 0;
           SummaryData.best_score := 0;
           SummaryData.recent_performance := [];
           SummaryData.subject_performance := [];
           SummaryData.improvement_trend := "no_data" |}
  | first :: others =>
      let scores := first :: others in
      let averageScore :=
        sumQ scores / inject_Z (Z.of_nat (List.length scores)) in
      let bestScore := fold_left QuizStats.max2 others first in
      match forEach_subject db submissions [] with
      | None => SubmissionController.internal_error
      | Some subjectPerformance =>
          if negb this_bound then SubmissionController.internal_error
          else
            let recentSubmissions := firstn 5 submissions in
            let trend :=
              SubmissionQueries.calculateTrend
                (map (fun s => QuizStats.num (Submission.score_percentage s))
                     recentSubmissions) in
            SubmissionController.Success 200
              {| SummaryData.total_quizzes :=
                   Z.of_nat (List.length submissions);
                 SummaryData.average_score := round_100 averageScore;
                 SummaryData.best_score := bestScore;
                 SummaryData.recent_performance :=
                   map (recent_of db) recentSubmissions;
                 SummaryData.subject_performance :=
                   averaged subjectPerformance;
                 SummaryData.improvement_trend :=
                   if gt trend 5 then "improving"
                   else if lt trend (-5) then "declining"
                   else "stable" |}
      end
  end.

End PerformanceSummary.

(** ** src/services/aiService.js: the trend on binary64 *)

Module AIService64.
Import Binary64.

(** [scores.reduce((a, b) => a + b, 0)]. *)
Definition sum (scores : list Q) : Q :=
  fold_left (fun a b => fl (a + b)) scores 0.

(** The service's [calculateTrend(scores)], each operation rounding. *)
Definition calculateTrend (scores : list Q) : Q :=
  if (List.length scores <? 2)%nat then 0
  else
    let firstHalf := firstn (List.length scores / 2) scores in
    let secondHalf := skipn (List.length scores / 2) scores in
    let firstAvg :=
      fl (sum firstHalf / inject_Z (Z.of_nat (List.length firstHalf))) in
    let secondAvg :=
      fl (sum secondHalf / inject_Z (Z.of_nat (List.length secondHalf))) in
    fl (secondAvg - firstAvg).

End AIService64.

(** Bounds on the rounding error of a trend of at most five scores between
    0 and 100. *)
Module Trend64.

(** [2 ^ -44], a bound on the error of rounding a number below 512. *)
Definition step : Q := 1 # 17592186044416.

(** [2 ^ -40], a bound on the error of the whole trend. *)
Definition slack : Q := 1 # 1099511627776.

End Trend64.

(** ** The performance summary on binary64

    The same handler with every sum, quotient and difference rounded as the
    doubles of the program round it. *)

Module PerformanceSummary64.
Import JsNum Binary64 PerformanceSummary.

(** [scores.reduce((a, b) => a + b, 0)]. *)
Definition sum (scores : list Q) : Q :=
  fold_left (fun a b => fl (a + b)) scores 0.

(** The controller's [calculateTrend(scores)]. *)
Definition calculateTrend (scores : list Q) : Q :=
  if (List.length scores <? 2)%nat then 0
  else
    let firstHalf := skipn (List.length scores / 2) scores in
    let secondHalf := firstn (List.length scores / 2) scores in
    let firstAvg :=
      fl (sum firstHalf / inject_Z (Z.of_nat (List.length firstHalf))) in
    let secondAvg :=
      fl (sum secondHalf / inject_Z (Z.of_nat (List.length secondHalf))) in
    fl (firstAvg - secondAvg).

(** The body of [submissions.forEach] for one submission of [subject]. *)
Definition record (o : Subjects) (subject : string) (score : option Q)
  : Subjects :=
  if inherited subject then o
  else
    let entry :=
      match own o subject with
      | Some e => e
      | None =>
          {| SubjectPerformance.count := 0;
             SubjectPerformance.total_score := 0;
             SubjectPerformance.best_score := 0;
             SubjectPerformance.average_score := 0 |}
      end in
    assign o subject
      {| SubjectPerformance.count := SubjectPerformance.count entry + 1;
         SubjectPerformance.total_score :=
           fl (SubjectPerformance.total_score entry + QuizStats.num score);
         SubjectPerformance.best_score :=
           QuizStats.max2 (SubjectPerformance.best_score entry)
                          (QuizStats.num score);
         SubjectPerformance.average_score :=
           SubjectPerformance.average_score entry |}.

Fixpoint forEach_subject (db : DB.t) (submissions : list Submission.t)
    (o : Subjects) : option Subjects :=
  match submissions with
  | [] => Some o
  | sub :: r =>
      match DB.findQuiz db (Submission.quiz_id sub) with
      | None => None
      | Some quiz =>
          forEach_subject db r
            (record o (Quiz.subject quiz) (Submission.score_percentage sub))
      end
  end.

Definition averaged (o : Subjects) : Subjects :=
  map (fun e =>
         (fst e,
          {| SubjectPerformance.count := SubjectPerformance.count (snd e);
             SubjectPerformance.total_score :=
               SubjectPerformance.total_score (snd e);
             SubjectPerformance.best_score :=
               SubjectPerformance.best_score (snd e);
             SubjectPerformance.average_score :=
               fl (SubjectPerformance.total_score (snd e)
                   / inject_Z (SubjectPerformance.count (snd e))) |}))
      o.

(** [getPerformanceSummary(req, res)]. *)
Definition getPerformanceSummary (this_bound : bool) (db : DB.t)
    (userId : UUID) : SubmissionController.Response SummaryData.t :=
  let submissions := completed_submissions db userId in
  match map (fun s => QuizStats.num (Submission.score_percentage s))
            submissions with
  | [] =>
      SubmissionController.Success 200
        {| SummaryData.total_quizzes := 0;
           SummaryData.average_score := 0;
           SummaryData.best_score := 0;
           SummaryData.recent_performance := [];
           SummaryData.subject_performance := [];
           SummaryData.improvement_trend := "no_data" |}
  | first :: others =>
      let scores := first :: others in
      let averageScore :=
        fl (sum scores / inject_Z (Z.of_nat (List.length scores))) in
      let bestScore := fold_left QuizStats.max2 others first in
      match forEach_subject db submissions [] with
      | None => SubmissionController.internal_error
      | Some subjectPerformance =>
          if negb this_bound then SubmissionController.internal_error
          else
            let recentSubmissions := firstn 5 submissions in
            let trend :=
              calculateTrend
                (map (fun s => QuizStats.num (Submission.score_percentage s))
                     recentSubmissions) in
            SubmissionController.Success 200
              {| SummaryData.total_quizzes :=
                   Z.of_nat (List.length submissions);
                 SummaryData.average_score :=
                   fl (inject_Z (Math_round (fl (averageScore * 100))) / 100);
                 SummaryData.best_score := bestScore;
                 SummaryData.recent_performance :=
                   map (recent_of db) recentSubmissions;
                 SummaryData.subject_performance :=
                   averaged subjectPerformance;
                 SummaryData.improvement_trend :=
                   if gt trend 5 then "improving"
                   else if lt trend (-5) then "declining"
                   else "stable" |}
      end
  end.

End PerformanceSummary64.

(** The controller's [calculateTrend] on the kernel's primitive floats, for
    scores given in hundredths. *)
Module KernelFloatTrend.
Import Floats.

Definition of_hundredths (k : Z) : PrimFloat.float :=
  (PrimFloat.of_uint63 (Uint63.of_Z k) / 100)%float.

Definition sum (scores : list PrimFloat.float) : PrimFloat.float :=
  fold_left PrimFloat.add scores 0%float.

Definition size (scores : list PrimFloat.float) : PrimFloat.float :=
  PrimFloat.of_uint63 (Uint63.of_Z (Z.of_nat (List.length scores))).

Definition calculateTrend (scores : list PrimFloat.float)
  : PrimFloat.float :=
  if (List.length scores <? 2)%nat then 0%float
  else
    let firstHalf := skipn (List.length scores / 2) scores in
    let secondHalf := firstn (List.length scores / 2) scores in
    let firstAvg := (sum firstHalf / size firstHalf)%float in
    let secondAvg := (sum secondHalf / size secondHalf)%float in
    (firstAvg - secondAvg)%float.

End KernelFloatTrend.

(** A store in which the sample user has completed the sample quiz twice:
    80 percent at time 100, then 60 percent at time 200. *)
Module SampleHistory.

Definition completed_attempt (id : UUID) (attempt_number : Z) (score : Q)
    (completedAt : Z) : Submission.t :=
  {| Submission.id := id; Submission.user_id := 2%N;
     Submission.quiz_id := 3%N; Submission.attempt_number := attempt_number;
     Submission.total_questions := 2; Submission.correct_answers := 1;
     Submission.score_percentage := Some score;
     Submission.total_points_earned := 0;
     Submission.total_points_possible := 15;
     Submission.time_taken_minutes := None;
     Submission.started_at := Some 0%Z;
     Submission.completed_at := Some completedAt;
     Submission.status := completed;
     Submission.improvement_suggestions := [];
     Submission.performance_analysis := None |}.

Definition db : DB.t :=
  {| DB.quizzes := [Sample.quiz];
     DB.submissions :=
       [completed_attempt 1%N 1 80 100; completed_attempt 2%N 2 60 200];
     DB.answers := [];
     DB.users := [Sample.user] |}.

End SampleHistory.

(** ** src/services/aiService.js: question generation *)

Module Generation.

(** A question as [generateQuizQuestions] returns it. *)
Module GeneratedQuestion.
Record t := {
  question_text : string;
  question_type : QuestionType;
  options : list string;
  correct_answer : string;
  explanation : string;
  hint : string;
  difficulty : string;
  points : Z;
  question_order : Z
}.
End GeneratedQuestion.

(** An element of the array the model replies with; [difficulty] and
    [points] may be missing. *)
Module RawQuestion.
Record t := {
  question : string;
  options : list string;
  correctAnswer : string;
  explanation : string;
  hint : string;
  difficulty : option string;
  points : option Z
}.
End RawQuestion.

(** The code units U+00B2 (superscript two) and U+00D7 (multiplication
    sign) of the sample texts. *)
Definition sup2 : string := String (ascii_of_N 178) EmptyString.
Definition times : string := String (ascii_of_N 215) EmptyString.

(** The table [sampleQuestions]. *)
Definition sampleQuestions_mathematics : list RawQuestion.t :=
  [ {| RawQuestion.question := "What is 15 + 27?";
       RawQuestion.options := ["40"; "42"; "45"; "48"];
       RawQuestion.correctAnswer := "B";
       RawQuestion.explanation := "15 + 27 = 42";
       RawQuestion.hint := "Break it down: 15 + 20 + 7 = 35 + 7 = 42";
       RawQuestion.difficulty := Some "easy";
       RawQuestion.points := None |};
    {| RawQuestion.question :=
         "If a rectangle has length 8 cm and width 5 cm, what is its area?";
       RawQuestion.options :=
         ["13 cm" ++ sup2; "26 cm" ++ sup2; "40 cm" ++ sup2; "45 cm" ++ sup2];
       RawQuestion.correctAnswer := "C";
       RawQuestion.explanation :=
         "Area = length " ++ times ++ " width = 8 " ++ times
         ++ " 5 = 40 cm" ++ sup2;
       RawQuestion.hint :=
         "Remember: Area of rectangle = length " ++ times ++ " width";
       RawQuestion.difficulty := Some "medium";
       RawQuestion.points := None |};
    {| RawQuestion.question :=
         "What is the value of x in the equation 2x + 6 = 14?";
       RawQuestion.options := ["2"; "4"; "6"; "8"];
       RawQuestion.correctAnswer := "B";
       RawQuestion.explanation := "2x + 6 = 14, so 2x = 8, therefore x = 4";
       RawQuestion.hint := "Subtract 6 from both sides first";
       RawQuestion.difficulty := Some "medium";
       RawQuestion.points := None |} ].

Definition sampleQuestions_science : list RawQuestion.t :=
  [ {| RawQuestion.question := "What is the chemical symbol for water?";
       RawQuestion.options := ["H2O"; "CO2"; "NaCl"; "O2"];
       RawQuestion.correctAnswer := "A";
       RawQuestion.explanation :=
         "Water is composed of 2 hydrogen atoms and 1 oxygen atom: H2O";
       RawQuestion.hint := "Think about hydrogen and oxygen";
       RawQuestion.difficulty := Some "easy";
       RawQuestion.points := None |};
    {| RawQuestion.question := "Which planet is closest to the Sun?";
       RawQuestion.options := ["Venus"; "Mercury"; "Earth"; "Mars"];
       RawQuestion.correctAnswer := "B";
       RawQuestion.explanation :=
         "Mercury is the closest planet to the Sun in our solar system";
       RawQuestion.hint := "Think about the order of planets from the Sun";
       RawQuestion.difficulty := Some "easy";
       RawQuestion.points := None |} ].

(** What [sampleQuestions[subject]] finds: an own property of the table, or
    a member the object literal inherits from [Object.prototype] (a function,
    or the prototype itself for [__proto__]). *)
Inductive Lookup :=
| Own (questions : list RawQuestion.t)
| Inherited.

(** [sampleQuestions[subject] || sampleQuestions.mathematics]: an inherited
    member is truthy and is kept. *)
Definition subjectQuestions (subject : string) : Lookup :=
  if String.eqb subject "mathematics" then Own sampleQuestions_mathematics
  else if String.eqb subject "science" then Own sampleQuestions_science
  else if PerformanceSummary.inherited subject then Inherited
  else Own sampleQuestions_mathematics.

Definition no_question : RawQuestion.t :=
  {| RawQuestion.question := ""; RawQuestion.options := [];
     RawQuestion.correctAnswer := ""; RawQuestion.explanation := "";
     RawQuestion.hint := ""; RawQuestion.difficulty := None;
     RawQuestion.points := None |}.

(** The loop [for (i = 0; i < Math.min(numQuestions, 10); i++)] over an
    array of base questions: one question is pushed per index. *)
Definition pushQuestions (subjectQuestions : list RawQuestion.t)
    (numQuestions : Z) : list GeneratedQuestion.t :=
  map (fun i =>
         let baseQuestion :=
           nth (i mod List.length subjectQuestions) subjectQuestions
               no_question in
         {| GeneratedQuestion.question_text := RawQuestion.question baseQuestion;
            GeneratedQuestion.question_type := multiple_choice;
            GeneratedQuestion.options := RawQuestion.options baseQuestion;
            GeneratedQuestion.correct_answer :=
              RawQuestion.correctAnswer baseQuestion;
            GeneratedQuestion.explanation := RawQuestion.explanation baseQuestion;
            GeneratedQuestion.hint := RawQuestion.hint baseQuestion;
            GeneratedQuestion.difficulty :=
              match RawQuestion.difficulty baseQuestion with
              | Some d => d
              | None => ""
              end;
            GeneratedQuestion.points := 1;
            GeneratedQuestion.question_order := (Z.of_nat i + 1)%Z |})
      (seq 0 (Z.to_nat (Z.min numQuestions 10))).

(** [generateSampleQuestions(subject, gradeLevel, difficulty, numQuestions)].
    An inherited member has no element at any index: [baseQuestion] is
    undefined and [baseQuestion.question] throws in the first iteration of
    the loop, when there is one. *)
Definition generateSampleQuestions (subject : string) (numQuestions : Z)
  : exn + list GeneratedQuestion.t :=
  match subjectQuestions subject with
  | Own subjectQuestions => inr (pushQuestions subjectQuestions numQuestions)
  | Inherited =>
      if (0 <? Z.min numQuestions 10)%Z then inl TypeError else inr []
  end.

(** [questions.map((q, index) => ...)] of the reply: a missing or empty
    difficulty is replaced by the requested one, missing or zero points
    by 1. *)
Fixpoint number_from (index : nat) (difficulty : string)
    (questions : list RawQuestion.t) : list GeneratedQuestion.t :=
  match questions with
  | [] => []
  | q :: rest =>
      {| GeneratedQuestion.question_text := RawQuestion.question q;
         GeneratedQuestion.question_type := multiple_choice;
         GeneratedQuestion.options := RawQuestion.options q;
         GeneratedQuestion.correct_answer := RawQuestion.correctAnswer q;
         GeneratedQuestion.explanation := RawQuestion.explanation q;
         GeneratedQuestion.hint := RawQuestion.hint q;
         GeneratedQuestion.difficulty :=
           match RawQuestion.difficulty q with
           | Some d => if String.eqb d "" then difficulty else d
           | None => difficulty
           end;
         GeneratedQuestion.points :=
           match RawQuestion.points q with
           | Some p => if (p =? 0)%Z then 1%Z else p
           | None => 1%Z
           end;
         GeneratedQuestion.question_order := (Z.of_nat index + 1)%Z |}
      :: number_from (S index) difficulty rest
  end.

(** [generateQuizQuestions(subject, gradeLevel, difficulty, numQuestions,
    topics)]; a reply that parses to something that is no array is
    [Parsed None].  The fallback runs in the [catch] block, so that what it
    throws leaves the function. *)
Definition generateQuizQuestions (available : bool)
    (completion : AIService.Completion (option (list RawQuestion.t)))
    (subject difficulty : string) (numQuestions : Z)
  : exn + list GeneratedQuestion.t :=
  if negb available then generateSampleQuestions subject numQuestions
  else
    match completion with
    | AIService.Parsed (Some questions) =>
        inr (number_from 0 difficulty questions)
    | AIService.Parsed None | AIService.ParsedNull | AIService.ApiThrows =>
        generateSampleQuestions subject numQuestions
    end.

End Generation.

(** ** src/middleware/auth.js: rate limiting *)

Module RateLimit.

(** The [Map] from user id to the array of request times, as an
    association list in insertion order. *)
Definition Store := list (UUID * list Z).

(** [userRequests.get(userId)]. *)
Fixpoint get (m : Store) (userId : UUID) : option (list Z) :=
  match m with
  | [] => None
  | (k, v) :: r => if (k =? userId)%N then Some v else get r userId
  end.

(** [userRequests.set(userId, history)]: an existing key keeps its place. *)
Fixpoint set (m : Store) (userId : UUID) (history : list Z) : Store :=
  match m with
  | [] => [(userId, history)]
  | (k, v) :: r =>
      if (k =? userId)%N then (k, history) :: r
      else (k, v) :: set r userId history
  end.

Module Headers.
Record t := { limit : Z; remaining : Z; reset : Z }.
End Headers.

(** What the middleware does with a request: [next()], with the headers it
    set if any, or the 429 response with its [retryAfter]. *)
Inductive Outcome :=
| Next (headers : option Headers.t)
| TooManyRequests (retryAfter : Z).

(** The middleware returned by [rateLimitByUser(maxRequests, windowMs)],
    applied to a request of [user] ([None] when [req.user] is unset) at
    time [now], with the map [m]. *)
Definition rateLimitByUser (maxRequests windowMs : Z) (m : Store)
    (user : option UUID) (now : Z) : Outcome * Store :=
  match user with
  | None => (Next None, m)
  | Some userId =>
      let windowStart := (now - windowMs)%Z in
      let userHistory :=
        match get m userId with Some h => h | None => [] end in
      let userHistory :=
        filter (fun timestamp => (timestamp >? windowStart)%Z) userHistory in
      if (Z.of_nat (List.length userHistory) >=? maxRequests)%Z then
        (TooManyRequests (Qceiling (inject_Z windowMs / 1000)), m)
      else
        let userHistory := (userHistory ++ [now])%list in
        (Next (Some {|
           Headers.limit := maxRequests;
           Headers.remaining :=
             Z.max 0 (maxRequests - Z.of_nat (List.length userHistory));
           Headers.reset := (windowStart + windowMs)%Z |}),
         set m userId userHistory)
  end.

(** A run of the middleware over a series of requests, in order, keeping
    the log of the requests of users that were let through. *)
Definition serve_one (maxRequests windowMs : Z)
    (st : Store * list (UUID * Z)) (request : option UUID * Z)
  : Store * list (UUID * Z) :=
  let '(m, log) := st in
  let '(user, now) := request in
  match rateLimitByUser maxRequests windowMs m user now, user with
  | (Next _, m'), Some userId => (m', (log ++ [(userId, now)])%list)
  | (_, m'), _ => (m', log)
  end.

Definition serve (maxRequests windowMs : Z)
    (requests : list (option UUID * Z)) : Store * list (UUID * Z) :=
  fold_left (serve_one maxRequests windowMs) requests ([], []).

End RateLimit.

(** ** src/utils/jwtUtils.js and src/middleware/auth.js: authentication *)

Module Auth.

(** [s.includes(part)] on strings. *)
Fixpoint String_includes (s part : string) : bool :=
  String.prefix part s
  || match s with
     | EmptyString => false
     | String _ rest => String_includes rest part
     end.

(** [extractTokenFromRequest(req)], from the value of
    [req.headers.authorization] ([None] when the header is absent). *)
Definition extractTokenFromRequest (authorization : option string)
  : option string :=
  match authorization with
  | None => None
  | Some authHeader =>
      if String.eqb authHeader "" then None
      else if String.prefix "Bearer " authHeader then
        Some (substring 7 (String.length authHeader - 7) authHeader)
      else Some authHeader
  end.

(** [jwt.verify(token, secret, options)]: the [id] of the payload, or the
    message of the error the library throws. *)
Definition JwtVerify := string -> string + UUID.

(** [verifyToken(token)]: every error of the library is replaced by one
    with the fixed message. *)
Definition verifyToken (jwt_verify : JwtVerify) (token : string)
  : string + UUID :=
  match jwt_verify token with
  | inl _ => inl "Invalid or expired token"
  | inr id => inr id
  end.

(** The columns of a user row the middleware reads. *)
Module Account.
Record t := { id : UUID; is_active : bool }.
End Account.

(** [User.findByPk(decoded.id)]: the row, [null], or the message of the
    error the query is rejected with. *)
Definition FindByPk := UUID -> string + option Account.t.

Inductive Outcome :=
| Next (user : Account.t) (token : string)
| Unauthorized (error : string).

(** The [catch] block of [authenticateToken]. *)
Definition authentication_error (message : string) : Outcome :=
  if String_includes message "expired" then Unauthorized "TOKEN_EXPIRED"
  else if String_includes message "malformed" then
    Unauthorized "MALFORMED_TOKEN"
  else Unauthorized "INVALID_TOKEN".

(** [authenticateToken(req, res, next)]: [Next] attaches the user and the
    token and calls [next()], [Unauthorized] is the 401 response. *)
Definition authenticateToken (jwt_verify : JwtVerify) (findByPk : FindByPk)
    (authorization : option string) : Outcome :=
  match extractTokenFromRequest authorization with
  | None => Unauthorized "NO_TOKEN"
  | Some token =>
      if String.eqb token "" then Unauthorized "NO_TOKEN"
      else
        match verifyToken jwt_verify token with
        | inr id =>
            match findByPk id with
            | inr None => Unauthorized "USER_NOT_FOUND"
            | inr (Some user) =>
                if negb (Account.is_active user) then
                  Unauthorized "USER_INACTIVE"
                else Next user token
            | inl message => authentication_error message
            end
        | inl message => authentication_error message
        end
  end.

(** [optionalAuth(req, res, next)]: what it attaches to the request before
    it calls [next()]. *)
Definition optionalAuth (jwt_verify : JwtVerify) (findByPk : FindByPk)
    (authorization : option string) : option (Account.t * string) :=
  match extractTokenFromRequest authorization with
  | None => None
  | Some token =>
      if String.eqb token "" then None
      else
        match verifyToken jwt_verify token with
        | inr id =>
            match findByPk id with
            | inr (Some user) =>
                if Account.is_active user then Some (user, token) else None
            | inr None => None
            | inl _ => None
            end
        | inl _ => None
        end
  end.

End Auth.

(** ** Auxiliary notions used to state further properties *)

Module Aux.

(** Rank of a grade letter: 0 for F up to 9 for A+. *)
Definition grade_rank (g : string) : Z :=
  if String.eqb g "A+" then 9
  else if String.eqb g "A" then 8
  else if String.eqb g "A-" then 7
  else if String.eqb g "B+" then 6
  else if String.eqb g "B" then 5
  else if String.eqb g "B-" then 4
  else if String.eqb g "C+" then 3
  else if String.eqb g "C" then 2
  else if String.eqb g "C-" then 1
  else 0.

(** The user row after a series of completed quizzes. *)
Definition after_scores (u : User.t) (scores : list Q) : User.t :=
  fold_left User.updateStats scores u.

(** The rows of the answers table that belong to a submission. *)
Definition rows_of (db : DB.t) (submission_id : UUID) : list Answer.t :=
  filter (fun a => (Answer.submission_id a =? submission_id)%N) (DB.answers db).

(** Sum of the points earned by a list of answer rows. *)
Definition points_of (rows : list Answer.t) : Z :=
  fold_right (fun a sum => (Answer.points_earned a + sum)%Z) 0%Z rows.

(** Times that never go back, starting from [t0]. *)
Fixpoint ascending_from (t0 : Z) (times : list Z) : Prop :=
  match times with
  | [] => True
  | t :: r => (t0 <= t)%Z /\ ascending_from t r
  end.

(** The times at which requests of [userId] were let through, later than
    [since]. *)
Definition passed_since (log : list (UUID * Z)) (userId : UUID) (since : Z)
  : list Z :=
  filter (fun t => (t >? since)%Z)
         (map snd (filter (fun e => (fst e =? userId)%N) log)).

(** What the rate limiter's map remembers after the requests up to time
    [t0]: for every user and every later time, the stored times inside the
    window are the logged ones inside it. *)
Definition remembers (windowMs t0 : Z)
    (st : RateLimit.Store * list (UUID * Z)) : Prop :=
  forall userId now, (t0 <= now)%Z ->
    filter (fun t => (t >? now - windowMs)%Z)
           (match RateLimit.get (fst st) userId with
            | Some h => h
            | None => []
            end)
    = passed_since (snd st) userId (now - windowMs).







End Aux.

(** * Properties *)

Import JsNum JsString.

(** ** Rounding *)

Lemma Math_round_bounds (y : Q) :
  y - (1 # 2) < inject_Z (Math_round y) /\ inject_Z (Math_round y) <= y + (1 # 2).
Proof.
  unfold Math_round.
  pose proof (Qfloor_le (y + (1 # 2))) as Hle.
  pose proof (Qlt_floor (y + (1 # 2))) as Hlt.
  rewrite inject_Z_plus in Hlt. change (inject_Z 1) with 1 in Hlt.
  split; lra.
Qed.

Lemma round_100_rounds (x : Q) : rounds_to_2dp x (round_100 x).
Proof.
  unfold rounds_to_2dp, round_100.
  destruct (Math_round_bounds (x * 100)) as [Hlo Hhi].
  split; [exists (Math_round (x * 100)); reflexivity|].
  unfold Qdiv; change (/ 100) with (1 # 100).
  split; lra.
Qed.

Lemma Math_round_mono (x y : Q) : x <= y -> (Math_round x <= Math_round y)%Z.
Proof.
  intros H. unfold Math_round. apply Qfloor_resp_le. lra.
Qed.

Lemma Math_round_Z (k : Z) : Math_round (inject_Z k) = k.
Proof.
  unfold Math_round.
  apply Z.le_antisymm.
  - assert (H : (Qfloor (inject_Z k + (1 # 2)) < k + 1)%Z).
    { rewrite Zlt_Qlt. eapply Qle_lt_trans; [apply Qfloor_le|].
      rewrite inject_Z_plus. change (inject_Z 1) with 1. lra. }
    lia.
  - rewrite <- (Qfloor_Z k) at 1. apply Qfloor_resp_le. lra.
Qed.

Lemma round_100_range (x : Q) : 0 <= x -> x <= 100 -> 0 <= round_100 x /\ round_100 x <= 100.
Proof.
  intros H0 H1. unfold round_100.
  assert (Hlo : (0 <= Math_round (x * 100))%Z).
  { rewrite <- (Math_round_Z 0). apply Math_round_mono. change (inject_Z 0) with 0. lra. }
  assert (Hhi : (Math_round (x * 100) <= 10000)%Z).
  { rewrite <- (Math_round_Z 10000). apply Math_round_mono. change (inject_Z 10000) with 10000. lra. }
  rewrite Zle_Qle in Hlo, Hhi.
  change (inject_Z 0) with 0 in Hlo. change (inject_Z 10000) with 10000 in Hhi.
  unfold Qdiv; change (/ 100) with (1 # 100).
  split; lra.
Qed.

Lemma Qdiv_Z_unit (a b : Z) : (0 <= a <= b)%Z -> (0 < b)%Z ->
  0 <= inject_Z a / inject_Z b /\ inject_Z a / inject_Z b <= 1.
Proof.
  intros [Ha Hab] Hb.
  assert (Hb' : 0 < inject_Z b).
  { change 0 with (inject_Z 0). rewrite <- Zlt_Qlt. exact Hb. }
  split.
  - apply Qle_shift_div_l; [exact Hb'|]. rewrite Qmult_0_l.
    change 0 with (inject_Z 0). rewrite <- Zle_Qle. exact Ha.
  - apply Qle_shift_div_r; [exact Hb'|]. rewrite Qmult_1_l.
    rewrite <- Zle_Qle. exact Hab.
Qed.

(** ** Similarity fallback *)

Lemma append_empty_r (s : string) : (s ++ "")%string = s.
Proof. induction s as [|c r IH]; simpl; [reflexivity|now rewrite IH]. Qed.

Lemma append_assoc (s1 s2 s3 : string) :
  ((s1 ++ s2) ++ s3)%string = (s1 ++ s2 ++ s3)%string.
Proof. induction s1 as [|c r IH]; simpl; [reflexivity|now rewrite IH]. Qed.

Lemma split_from_word (w : string) : forall cur s,
  Spec.no_space w ->
  split_from false cur (w ++ s) = split_from false (cur ++ w) s.
Proof.
  unfold Spec.no_space.
  induction w as [|c r IH]; intros cur s Hw; simpl in *.
  - now rewrite append_empty_r.
  - apply andb_prop in Hw as [Hc Hr]. apply negb_true_iff in Hc. rewrite Hc.
    rewrite IH by exact Hr. now rewrite append_assoc.
Qed.

Lemma split_from_run (sep : string) : forall s,
  Spec.all_chars isSpace sep = true ->
  split_from true "" (sep ++ s) = split_from true "" s.
Proof.
  induction sep as [|c r IH]; intros s Hs; simpl in *; [reflexivity|].
  apply andb_prop in Hs as [Hc Hr]. rewrite Hc. now apply IH.
Qed.

Lemma split_from_after_run (s : string) :
  Spec.starts_with_space s = false ->
  split_from true "" s = split_from false "" s.
Proof.
  destruct s as [|c r]; simpl; [reflexivity|]. intros Hc. now rewrite Hc.
Qed.

(** A string has at most one splitting, the one [split] computes. *)
Lemma Words_split (s : string) (ws : list string) :
  Spec.Words s ws -> split_ws s = ws.
Proof.
  unfold split_ws. induction 1 as [w Hw|w sep rest ws Hw [Hne Hsep] Hrest _ IH].
  - rewrite <- (append_empty_r w) at 1. rewrite split_from_word by exact Hw.
    reflexivity.
  - rewrite split_from_word by exact Hw. simpl.
    destruct sep as [|c sep']; [contradiction|]. simpl in Hsep |- *.
    apply andb_prop in Hsep as [Hc Hsep']. rewrite Hc.
    rewrite split_from_run by exact Hsep'.
    rewrite split_from_after_run by exact Hrest. now rewrite IH.
Qed.

Lemma Words_exists (s : string) : exists ws, Spec.Words s ws.
Proof.
  induction s as [|c r [ws IH]].
  - exists [""]. now constructor.
  - destruct (isSpace c) eqn:Hc.
    + destruct (Spec.starts_with_space r) eqn:Hr.
      * destruct r as [|c' r']; [discriminate|]. simpl in Hr.
        inversion IH as [w Hw Ew|w sep rest ws' Hw [Hne Hsep] Hrest Hws Ew Ews].
        -- subst w. unfold Spec.no_space in Hw. simpl in Hw. rewrite Hr in Hw.
           discriminate.
        -- destruct w as [|cw w'].
           ++ exists ("" :: ws').
              change (String c ("" ++ sep ++ rest))
                with ("" ++ String c sep ++ rest)%string.
              constructor; try assumption.
              split; [discriminate|]. simpl. now rewrite Hc.
           ++ simpl in Ew. injection Ew as Ec _. subst cw.
              unfold Spec.no_space in Hw. simpl in Hw. rewrite Hr in Hw.
              discriminate.
      * exists ("" :: ws).
        change (String c r) with ("" ++ String c "" ++ r)%string.
        constructor; try assumption; [reflexivity|].
        split; [discriminate|]. simpl. now rewrite Hc.
    + inversion IH as [w Hw Ew|w sep rest ws' Hw Hsep Hrest Hws Ew Ews].
      * subst w. exists [String c r]. constructor.
        unfold Spec.no_space in *. simpl. now rewrite Hc.
      * exists (String c w :: ws').
        change (String c (w ++ sep ++ rest)) with (String c w ++ sep ++ rest)%string.
        constructor; try assumption.
        unfold Spec.no_space in *. simpl. now rewrite Hc.
Qed.

(** [split_ws] splits on white space. *)
Lemma split_ws_Words (s : string) : Spec.Words s (split_ws s).
Proof.
  destruct (Words_exists s) as [ws H].
  now rewrite (Words_split s ws H).
Qed.

Lemma split_from_length (s : string) : forall in_sep cur,
  (1 <= List.length (split_from in_sep cur s))%nat.
Proof.
  induction s as [|c r IH]; intros in_sep cur; simpl.
  - lia.
  - destruct (isSpace c).
    + destruct in_sep; [apply IH|]. simpl. lia.
    + apply IH.
Qed.

Lemma split_ws_length (s : string) : (1 <= List.length (split_ws s))%nat.
Proof. apply split_from_length. Qed.

Lemma includes_In (ws : list string) (w : string) :
  includes ws w = true <-> In w ws.
Proof.
  unfold includes. rewrite existsb_exists. split.
  - intros [x [Hin Heq]]. apply String.eqb_eq in Heq. subst. exact Hin.
  - intros Hin. exists w. split; [exact Hin|apply String.eqb_refl].
Qed.

Lemma commonWords_count (wa wb : list string) :
  List.length (filter (fun word => includes wb word) wa)
  = Spec.count_present wa wb.
Proof.
  induction wa as [|w r IH]; simpl; [reflexivity|].
  destruct (in_dec string_dec w wb) as [Hin|Hnin].
  - apply includes_In in Hin. rewrite Hin. simpl. now rewrite IH.
  - destruct (includes wb w) eqn:E.
    + apply includes_In in E. contradiction.
    + exact IH.
Qed.

Lemma div_nat_unit (n m : nat) : (n <= m)%nat -> (1 <= m)%nat ->
  0 <= div_nat n m /\ div_nat n m <= 1.
Proof.
  intros Hnm Hm. unfold div_nat. apply Qdiv_Z_unit; lia.
Qed.

Lemma calculateSimilarity_unit (t1 t2 : string) :
  0 <= AIService.calculateSimilarity t1 t2
  /\ AIService.calculateSimilarity t1 t2 <= 1.
Proof.
  unfold AIService.calculateSimilarity. apply div_nat_unit.
  - etransitivity; [apply filter_length_le|]. apply Nat.le_max_l.
  - etransitivity; [apply (split_ws_length t1)|]. apply Nat.le_max_l.
Qed.

(** C1.  For all strings [a] and [b], with [wa] and [wb] the words of the
    case-folded strings split on white space, the similarity is the number of
    words of [wa] present in [wb] (each occurrence in [wa] counted) divided
    by the larger of the two word counts, which is never zero; it lies in
    [0, 1]; the controller's copy computes the same value; and
    similarity("the cat sat", "the cat") is 2/3. *)
Theorem similarity_overlap_ratio (a b : string) :
  exists wa wb : list string,
    Spec.Words (toLowerCase a) wa /\ Spec.Words (toLowerCase b) wb
    /\ AIService.similarity a b
       = inject_Z (Z.of_nat (Spec.count_present wa wb))
         / inject_Z (Z.of_nat (Nat.max (List.length wa) (List.length wb)))
    /\ (1 <= Nat.max (List.length wa) (List.length wb))%nat
    /\ 0 <= AIService.similarity a b /\ AIService.similarity a b <= 1
    /\ SubmissionController.calculateSimilarity (toLowerCase a) (toLowerCase b)
       = AIService.similarity a b
    /\ AIService.similarity "the cat sat" "the cat" = 2 # 3.
Proof.
  exists (split_ws (toLowerCase a)), (split_ws (toLowerCase b)).
  repeat split.
  - apply split_ws_Words.
  - apply split_ws_Words.
  - unfold AIService.similarity, AIService.calculateSimilarity, div_nat.
    now rewrite commonWords_count.
  - etransitivity; [apply (split_ws_length (toLowerCase a))|].
    apply Nat.le_max_l.
  - apply calculateSimilarity_unit.
  - apply calculateSimilarity_unit.
Qed.

(** ** Score and rolling average *)

Lemma Qdiv_Z_percent (a b : Z) : (0 <= a <= b)%Z -> (0 < b)%Z ->
  0 <= inject_Z a / inject_Z b * 100 /\ inject_Z a / inject_Z b * 100 <= 100.
Proof.
  intros Hab Hb. destruct (Qdiv_Z_unit a b Hab Hb) as [H0 H1]. split; nra.
Qed.

(** ** Binary64 rounding *)

Module Binary64Facts.
Import Binary64.

Lemma pow2_pos (k : Z) : 0 < pow2 k.
Proof. apply Qpower_0_lt. reflexivity. Qed.

Lemma pow2_plus (a b : Z) : pow2 (a + b) == pow2 a * pow2 b.
Proof. unfold pow2. apply Qpower_plus. discriminate. Qed.

Lemma pow2_Z (a : Z) : (0 <= a)%Z -> pow2 a == inject_Z (2 ^ a).
Proof. intros H. unfold pow2. now rewrite Zpower_Qpower. Qed.

Lemma pow2_succ (a : Z) : pow2 (a + 1) == 2 * pow2 a.
Proof. rewrite pow2_plus. change (pow2 1) with 2. ring. Qed.

Lemma pow2_mono (a b : Z) : (a <= b)%Z -> pow2 a <= pow2 b.
Proof.
  intros H. replace b with (a + (b - a))%Z by lia. rewrite pow2_plus.
  assert (1 <= pow2 (b - a)) by (apply Qpower_1_le; [lra|lia]).
  pose proof (pow2_pos a). nra.
Qed.

Lemma ilog2_spec (x : Q) :
  0 < x -> pow2 (ilog2 x) <= x /\ x < pow2 (ilog2 x + 1).
Proof.
  intros Hx. destruct x as [n d]. unfold ilog2. cbn [Qnum Qden].
  assert (Hn : (0 < n)%Z) by (unfold Qlt in Hx; simpl in Hx; lia).
  set (a := Z.log2 n). set (b := Z.log2 (Zpos d)).
  destruct (Z.log2_spec n Hn) as [A1 A2]. fold a in A1, A2.
  destruct (Z.log2_spec (Zpos d) ltac:(lia)) as [B1 B2]. fold b in B1, B2.
  assert (Ha : (0 <= a)%Z) by apply Z.log2_nonneg.
  assert (Hb : (0 <= b)%Z) by apply Z.log2_nonneg.
  rewrite Z.pow_succ_r in A2, B2 by assumption.
  assert (HA : 0 < pow2 a) by apply pow2_pos.
  assert (HB : 0 < pow2 b) by apply pow2_pos.
  assert (EA : pow2 a == inject_Z (2 ^ a)) by now apply pow2_Z.
  assert (EB : pow2 b == inject_Z (2 ^ b)) by now apply pow2_Z.
  assert (Ex : n # d == inject_Z n / inject_Z (Zpos d)) by apply Qmake_Qdiv.
  assert (HD : 0 < inject_Z (Zpos d)).
  { change 0 with (inject_Z 0). rewrite <- Zlt_Qlt. lia. }
  assert (N1 : pow2 a <= inject_Z n) by (rewrite EA, <- Zle_Qle; lia).
  assert (N2 : inject_Z n < 2 * pow2 a).
  { rewrite EA. change 2 with (inject_Z 2). rewrite <- inject_Z_mult, <- Zlt_Qlt. lia. }
  assert (D1 : pow2 b <= inject_Z (Zpos d)) by (rewrite EB, <- Zle_Qle; lia).
  assert (D2 : inject_Z (Zpos d) < 2 * pow2 b).
  { rewrite EB. change 2 with (inject_Z 2). rewrite <- inject_Z_mult, <- Zlt_Qlt. lia. }
  assert (Ec : pow2 a == pow2 (a - b) * pow2 b).
  { rewrite <- pow2_plus. now replace (a - b + b)%Z with a by lia. }
  assert (Hc : 0 < pow2 (a - b)) by apply pow2_pos.
  set (N := inject_Z n) in *. set (D := inject_Z (Zpos d)) in *.
  set (P := pow2 (a - b)) in *. set (PA := pow2 a) in *. set (PB := pow2 b) in *.
  assert (Up : N / D < 2 * P).
  { apply Qlt_shift_div_r; [exact HD|].
    assert (H1 : P * PB <= P * D)
      by (apply Qmult_le_l; [exact Hc|lra]).
    nra. }
  assert (Lo : P <= 2 * (N / D)).
  { assert (H : P / 2 <= N / D).
    { apply Qle_shift_div_l; [exact HD|].
      assert (H1 : P * D <= P * (2 * PB))
        by (apply Qmult_le_l; [exact Hc|lra]).
      unfold Qdiv. change (/ 2) with (1 # 2). nra. }
    set (q := N / D) in *. unfold Qdiv in H. change (/ 2) with (1 # 2) in H.
    lra. }
  destruct (Qle_bool P (n # d)) eqn:E.
  - apply Qle_bool_iff in E. split; [exact E|].
    rewrite pow2_succ. fold P. rewrite Ex. exact Up.
  - assert (E' : n # d < P).
    { apply Qnot_le_lt. intros C. apply Qle_bool_iff in C. congruence. }
    replace (a - b - 1 + 1)%Z with (a - b)%Z by lia. split; [|exact E'].
    assert (Ep : P == 2 * pow2 (a - b - 1)).
    { rewrite <- pow2_succ. unfold P. now replace (a - b - 1 + 1)%Z with (a - b)%Z by lia. }
    rewrite Ex. lra.
Qed.

Lemma RNE_error (y : Q) :
  - (1 # 2) <= inject_Z (RNE y) - y /\ inject_Z (RNE y) - y <= 1 # 2.
Proof.
  unfold RNE. pose proof (Qfloor_le y) as H1. pose proof (Qlt_floor y) as H2.
  rewrite inject_Z_plus in H2. change (inject_Z 1) with 1 in H2.
  destruct (Qcompare_spec (y - inject_Z (Qfloor y)) (1 # 2)) as [E|E|E].
  - destruct (Z.even (Qfloor y)).
    + lra.
    + rewrite inject_Z_plus. change (inject_Z 1) with 1. lra.
  - lra.
  - rewrite inject_Z_plus. change (inject_Z 1) with 1. lra.
Qed.

Lemma ulp_pos (x : Q) : 0 < ulp x.
Proof. unfold ulp. destruct (Qeq_bool x 0); apply pow2_pos. Qed.

Lemma fl_ulp (x : Q) :
  - (ulp x * (1 # 2)) <= fl x - x /\ fl x - x <= ulp x * (1 # 2).
Proof.
  unfold fl. pose proof (ulp_pos x) as Hu.
  destruct (RNE_error (x / ulp x)) as [H1 H2].
  set (r := inject_Z (RNE (x / ulp x))) in *.
  assert (E : x == x / ulp x * ulp x) by (field; lra).
  set (q := x / ulp x) in *. nra.
Qed.

Lemma ulp_le (x B : Q) :
  Qabs x <= B -> pow2 (-1022) <= B -> ulp x <= pow2 (-52) * B.
Proof.
  intros Hx HB. unfold ulp. pose proof (pow2_pos (-52)) as H52.
  destruct (Qeq_bool x 0) eqn:E0.
  - change (-1074)%Z with (-52 + -1022)%Z. rewrite pow2_plus. nra.
  - destruct (Z.max_spec (ilog2 (Qabs x)) (-1022)) as [[Hm ->]|[Hm ->]].
    + change (-1022 - 52)%Z with (-52 + -1022)%Z. rewrite pow2_plus. nra.
    + assert (Hpos : 0 < Qabs x).
      { destruct (Qlt_le_dec 0 (Qabs x)) as [|C]; [assumption|].
        exfalso. pose proof (Qabs_nonneg x) as N.
        assert (Z0 : Qabs x == 0) by lra.
        assert (X0 : x == 0).
        { apply Qabs_Qle_condition with (y := 0) in C. lra. }
        apply Qeq_bool_iff in X0. congruence. }
      destruct (ilog2_spec _ Hpos) as [L _].
      replace (ilog2 (Qabs x) - 52)%Z with (-52 + ilog2 (Qabs x))%Z by lia.
      rewrite pow2_plus. nra.
Qed.

(** The rounding error: at most [u] times any bound of the magnitude. *)
Lemma fl_error (x B : Q) :
  Qabs x <= B -> pow2 (-1022) <= B ->
  - (u * B) <= fl x - x /\ fl x - x <= u * B.
Proof.
  intros Hx HB. pose proof (ulp_le x B Hx HB) as Hu.
  destruct (fl_ulp x) as [H1 H2].
  assert (E : pow2 (-52) == 2 * u).
  { unfold u. rewrite <- pow2_succ. reflexivity. }
  rewrite E in Hu. lra.
Qed.

Lemma fl_0 : fl 0 == 0.
Proof. reflexivity. Qed.

Lemma ilog2_unique (x : Q) (a b : Z) :
  pow2 a <= x -> x < pow2 (a + 1) -> pow2 b <= x -> x < pow2 (b + 1) -> a = b.
Proof.
  intros A1 A2 B1 B2.
  destruct (Z.lt_trichotomy a b) as [C|[C|C]]; [|exact C|]; exfalso.
  - pose proof (pow2_mono (a + 1) b ltac:(lia)). lra.
  - pose proof (pow2_mono (b + 1) a ltac:(lia)). lra.
Qed.

Lemma ilog2_comp (x y : Q) : 0 < x -> x == y -> ilog2 x = ilog2 y.
Proof.
  intros Hx E. assert (Hy : 0 < y) by (rewrite <- E; exact Hx).
  destruct (ilog2_spec x Hx) as [A1 A2]. destruct (ilog2_spec y Hy) as [B1 B2].
  assert (B1' : pow2 (ilog2 y) <= x) by (rewrite E; exact B1).
  assert (B2' : x < pow2 (ilog2 y + 1)) by (rewrite E; exact B2).
  eapply ilog2_unique; eassumption.
Qed.

Lemma ulp_comp (x y : Q) : x == y -> ulp x = ulp y.
Proof.
  intros E. unfold ulp.
  assert (B : Qeq_bool x 0 = Qeq_bool y 0).
  { destruct (Qeq_bool x 0) eqn:Bx, (Qeq_bool y 0) eqn:By; try reflexivity.
    - apply Qeq_bool_iff in Bx. rewrite E in Bx. apply Qeq_bool_iff in Bx. congruence.
    - apply Qeq_bool_iff in By. rewrite <- E in By. apply Qeq_bool_iff in By. congruence. }
  rewrite <- B. destruct (Qeq_bool x 0) eqn:Bx; [reflexivity|].
  assert (Hpos : 0 < Qabs x).
  { destruct (Qlt_le_dec 0 (Qabs x)) as [|C]; [assumption|].
    exfalso. apply Qabs_Qle_condition in C.
    assert (X0 : x == 0) by lra. apply Qeq_bool_iff in X0. congruence. }
  rewrite (ilog2_comp (Qabs x) (Qabs y) Hpos); [reflexivity|].
  now rewrite E.
Qed.

Lemma RNE_comp (x y : Q) : x == y -> RNE x = RNE y.
Proof.
  intros E. unfold RNE. rewrite (Qfloor_comp x y E).
  assert (C : Qcompare (x - inject_Z (Qfloor y)) (1 # 2)
              = Qcompare (y - inject_Z (Qfloor y)) (1 # 2))
    by (now rewrite E).
  now rewrite C.
Qed.

#[global] Instance fl_comp : Proper (Qeq ==> Qeq) fl.
Proof.
  intros x y E. unfold fl. rewrite (ulp_comp x y E).
  rewrite (RNE_comp (x / ulp y) (y / ulp y)); [reflexivity|].
  now rewrite E.
Qed.

Lemma fl_zero (x : Q) : x == 0 -> fl x == 0.
Proof. intros E. rewrite E. reflexivity. Qed.

Lemma Math_round_proper (x y : Q) : x == y -> Math_round x = Math_round y.
Proof. intros E. unfold Math_round. apply Qfloor_comp. now rewrite E. Qed.

Lemma Qabs_bound (x B : Q) : - B <= x -> x <= B -> Qabs x <= B.
Proof. intros. apply Qabs_Qle_condition. split; assumption. Qed.

Lemma Qabs_two_sided (x : Q) : - Qabs x <= x /\ x <= Qabs x.
Proof. apply Qabs_Qle_condition. apply Qle_refl. Qed.

Lemma Qfloor_eq (z : Q) (m : Z) :
  inject_Z m <= z -> z < inject_Z m + 1 -> Qfloor z = m.
Proof.
  intros H1 H2. pose proof (Qfloor_le z) as F1. pose proof (Qlt_floor z) as F2.
  rewrite inject_Z_plus in F2. change (inject_Z 1) with 1 in F2.
  assert (A : inject_Z (Qfloor z) < inject_Z m + 1) by lra.
  assert (B : inject_Z m < inject_Z (Qfloor z) + 1) by lra.
  change 1 with (inject_Z 1) in A, B. rewrite <- inject_Z_plus in A, B.
  rewrite <- Zlt_Qlt in A, B. lia.
Qed.

Lemma pow2_m1022_small : pow2 (-1022) <= 1 # 4294967296.
Proof. unfold pow2, Qle. vm_compute. discriminate. Qed.

Lemma u_value : u == 1 # 9007199254740992.
Proof. reflexivity. Qed.

(** Three roundings: the quotient, and twice the product with 100. *)
Lemma percent_chain (x X : Q) :
  Qabs x <= X -> (1 # 4294967296) <= X ->
  let c := fl (fl (fl x * 100) * 100) in
  - (40000 * u * X) <= c - x * 10000 /\ c - x * 10000 <= 40000 * u * X.
Proof.
  intros Hx HX c. pose proof pow2_m1022_small as Hs.
  pose proof u_value as Hu.
  destruct (Qabs_two_sided x) as [x1 x2].
  destruct (fl_error x X Hx ltac:(lra)) as [a1 a2].
  set (a := fl x) in *.
  assert (Ha : Qabs (a * 100) <= 100 * ((1 + u) * X))
    by (apply Qabs_bound; lra).
  destruct (fl_error (a * 100) _ Ha ltac:(lra)) as [b1 b2].
  set (b := fl (a * 100)) in *.
  assert (Hb : Qabs (b * 100) <= 100 * (100 * ((1 + u) * X) * (1 + u)))
    by (apply Qabs_bound; lra).
  destruct (fl_error (b * 100) _ Hb ltac:(lra)) as [c1 c2].
  fold c in c1, c2. rewrite Hu in *. lra.
Qed.

(** A rational [z] whose multiple by [den] is the integer [num] is an
    integer or at least [1/den] away from the integers around it. *)
Lemma fraction_gap (z : Q) (num den : Z) :
  (0 < den)%Z -> z * inject_Z den == inject_Z num ->
  z == inject_Z (Qfloor z)
  \/ (inject_Z (Qfloor z) * inject_Z den + 1 <= z * inject_Z den
      /\ z * inject_Z den + 1 <= (inject_Z (Qfloor z) + 1) * inject_Z den).
Proof.
  intros Hden Hz. pose proof (Qfloor_le z) as F1. pose proof (Qlt_floor z) as F2.
  rewrite inject_Z_plus in F2. change (inject_Z 1) with 1 in F2.
  set (m := Qfloor z) in *.
  assert (HD : 0 < inject_Z den).
  { change 0 with (inject_Z 0). rewrite <- Zlt_Qlt. exact Hden. }
  assert (L : inject_Z (m * den) <= inject_Z num).
  { rewrite inject_Z_mult, <- Hz. apply Qmult_le_compat_r; lra. }
  assert (U : inject_Z num < inject_Z ((m + 1) * den)).
  { rewrite inject_Z_mult, inject_Z_plus, <- Hz. change (inject_Z 1) with 1.
    apply Qmult_lt_compat_r; lra. }
  rewrite <- Zle_Qle in L. rewrite <- Zlt_Qlt in U.
  destruct (Z.eq_dec num (m * den)) as [E|N].
  - left. rewrite E, inject_Z_mult in Hz.
    apply Qmult_inj_r in Hz; [exact Hz|lra].
  - right. assert (L' : (m * den + 1 <= num)%Z) by lia.
    assert (U' : (num + 1 <= (m + 1) * den)%Z) by lia.
    rewrite Zle_Qle in L', U'.
    rewrite !inject_Z_plus, !inject_Z_mult in L', U'.
    rewrite !inject_Z_plus in U'.
    change (inject_Z 1) with 1 in L', U'. rewrite Hz. split; lra.
Qed.

(** The integer the score idiom rounds to. *)
Lemma round2_of_quotient (e p : Z) :
  p <> 0%Z -> (Z.abs e <= 2 ^ 31)%Z -> (Z.abs p <= 2 ^ 31)%Z ->
  let y := inject_Z e / inject_Z p * 10000 in
  let k := Math_round (fl (fl (fl (inject_Z e / inject_Z p) * 100) * 100)) in
  k = Math_round y
  \/ (y + (1 # 2) == inject_Z (Math_round y) /\ k = (Math_round y - 1)%Z).
Proof.
  intros Hp He Hpb y k.
  destruct (Z.eq_dec e 0) as [->|Hne].
  { left. unfold k, y.
    assert (X : inject_Z 0 / inject_Z p == 0) by (unfold Qdiv; ring).
    apply Math_round_proper. rewrite X. reflexivity. }
  set (x := inject_Z e / inject_Z p) in *.
  set (P := inject_Z (Z.abs p)). set (E := inject_Z (Z.abs e)).
  assert (HP : 1 <= P).
  { unfold P. change 1 with (inject_Z 1). rewrite <- Zle_Qle. lia. }
  assert (HPb : P <= 2147483648).
  { unfold P. change 2147483648 with (inject_Z (2 ^ 31)). rewrite <- Zle_Qle. lia. }
  assert (HE : 1 <= E).
  { unfold E. change 1 with (inject_Z 1). rewrite <- Zle_Qle. lia. }
  assert (HEb : E <= 2147483648).
  { unfold E. change 2147483648 with (inject_Z (2 ^ 31)). rewrite <- Zle_Qle. lia. }
  assert (HX : Qabs x == E / P).
  { unfold x, Qdiv. rewrite Qabs_Qmult, Qabs_Qinv. unfold E, P.
    reflexivity. }
  assert (HXP : Qabs x * P == E) by (rewrite HX; field; lra).
  assert (HXlow : (1 # 4294967296) <= Qabs x).
  { rewrite HX. apply Qle_shift_div_l; [lra|]. lra. }
  destruct (percent_chain x (Qabs x) (Qle_refl _) HXlow) as [c1 c2].
  set (c := fl (fl (fl x * 100) * 100)) in *. fold y in c1, c2.
  (* the exact value as a fraction over 2 |p| *)
  set (den := (2 * Z.abs p)%Z).
  set (num := (20000 * (e * Z.sgn p) + Z.abs p)%Z).
  assert (Hz : (y + (1 # 2)) * inject_Z den == inject_Z num).
  { unfold y, x, den, num.
    rewrite !inject_Z_plus, !inject_Z_mult.
    assert (Hs : inject_Z (Z.abs p) == inject_Z p * inject_Z (Z.sgn p)).
    { rewrite <- inject_Z_mult. apply inject_Z_injective. lia. }
    assert (Hs2 : inject_Z (Z.sgn p) * inject_Z (Z.sgn p) == 1).
    { rewrite <- inject_Z_mult. change 1 with (inject_Z 1).
      apply inject_Z_injective. lia. }
    assert (Hp0 : ~ inject_Z p == 0).
    { intros C. unfold Qeq in C. simpl in C. lia. }
    rewrite Hs. change (inject_Z 2) with 2. change (inject_Z 20000) with 20000.
    field. exact Hp0. }
  assert (Hden : (0 < den)%Z) by (unfold den; lia).
  assert (HD : inject_Z den == 2 * P).
  { unfold den, P. now rewrite inject_Z_mult. }
  assert (Herr : 40000 * u * Qabs x * (2 * P) <= 1 # 50).
  { rewrite u_value.
    setoid_replace (40000 * (1 # 9007199254740992) * Qabs x * (2 * P))
      with (80000 * (1 # 9007199254740992) * (Qabs x * P)) by ring.
    rewrite HXP. lra. }
  unfold k, Math_round. fold c.
  set (z := y + (1 # 2)) in *.
  pose proof (Qfloor_le z) as F1. pose proof (Qlt_floor z) as F2.
  rewrite inject_Z_plus in F2. change (inject_Z 1) with 1 in F2.
  set (eta := 40000 * u * Qabs x) in *.
  assert (Heta : 0 <= eta).
  { unfold eta. rewrite u_value. pose proof (Qabs_nonneg x). nra. }
  assert (Heta1 : eta <= 1 # 50).
  { assert (eta * 1 <= eta * (2 * P)); [|lra].
    rewrite !(Qmult_comm eta). apply Qmult_le_compat_r; lra. }
  pose proof (fraction_gap z num den Hden Hz) as G.
  remember (Qfloor z) as m eqn:Em. destruct G as [T|[G1 G2]].
  - (* an exact tie *)
    destruct (Qlt_le_dec (c + (1 # 2)) (inject_Z m)) as [Lt|Ge].
    + right. split; [exact T|]. apply Qfloor_eq.
      * unfold Z.sub. rewrite inject_Z_plus, inject_Z_opp. change (inject_Z 1) with 1. unfold z in T. lra.
      * unfold Z.sub. rewrite inject_Z_plus, inject_Z_opp. change (inject_Z 1) with 1. lra.
    + left. apply Qfloor_eq; [exact Ge|]. unfold z in T. lra.
  - left. rewrite HD in G1, G2. apply Qfloor_eq.
    + assert (0 <= (c + (1 # 2) - inject_Z m) * (2 * P)); [|nra].
      unfold z in G1. nra.
    + assert (0 < (inject_Z m + 1 - (c + (1 # 2))) * (2 * P)); [|nra].
      unfold z in G2. nra.
Qed.

Lemma pow2_m1022_le_1 : pow2 (-1022) <= 1.
Proof. pose proof pow2_m1022_small. lra. Qed.

(** A number of hundredths between 0 and 100, as a double. *)
Lemma fl_hundredths_range (k : Z) :
  (0 <= k <= 10000)%Z ->
  0 <= fl (inject_Z k / 100) /\ fl (inject_Z k / 100) <= 100.
Proof.
  intros Hk.
  destruct (Z.eq_dec k 0) as [->|H0].
  { vm_compute. split; discriminate. }
  destruct (Z.eq_dec k 10000) as [->|H1].
  { vm_compute. split; discriminate. }
  assert (K1 : 1 <= inject_Z k).
  { change 1 with (inject_Z 1). rewrite <- Zle_Qle. lia. }
  assert (K2 : inject_Z k <= 9999).
  { change 9999 with (inject_Z 9999). rewrite <- Zle_Qle. lia. }
  assert (HB : Qabs (inject_Z k / 100) <= 100).
  { apply Qabs_bound; unfold Qdiv; change (/ 100) with (1 # 100); lra. }
  pose proof pow2_m1022_le_1.
  destruct (fl_error _ 100 HB ltac:(lra)) as [E1 E2].
  rewrite u_value in E1, E2. unfold Qdiv in *. change (/ 100) with (1 # 100) in *.
  set (r := fl (inject_Z k * (1 # 100))) in *. split; lra.
Qed.

(** The four roundings of the rolling average. *)
Lemma average_chain (avg s : Q) (count : Z) :
  (0 <= count <= 2 ^ 31)%Z -> 0 <= avg -> avg <= 100 -> 0 <= s -> s <= 100 ->
  let n := inject_Z (count + 1) in
  let y := (avg * inject_Z count + s) / n * 100 in
  let t := fl (fl (fl (fl (avg * inject_Z count) + s) / n) * 100) in
  - (1 # 137438953472) <= t - y /\ t - y <= 1 # 137438953472.
Proof.
  intros Hc A0 A1 S0 S1 n y t. pose proof pow2_m1022_le_1 as Hs.
  pose proof u_value as Hu.
  assert (HC : 0 <= inject_Z count).
  { change 0 with (inject_Z 0). rewrite <- Zle_Qle. lia. }
  assert (HN : n == inject_Z count + 1).
  { unfold n. now rewrite inject_Z_plus. }
  set (C := inject_Z count) in *.
  assert (P0 : 0 <= avg * C) by (apply Qmult_le_0_compat; assumption).
  assert (P1 : avg * C <= 100 * C) by (apply Qmult_le_compat_r; assumption).
  set (A := avg * C) in *.
  assert (H1 : Qabs A <= 100 * n) by (apply Qabs_bound; lra).
  destruct (fl_error A _ H1 ltac:(lra)) as [a1 a2]. rewrite Hu in a1, a2.
  set (t1 := fl A) in *.
  assert (H2 : Qabs (t1 + s) <= 101 * n) by (apply Qabs_bound; lra).
  destruct (fl_error (t1 + s) _ H2 ltac:(lra)) as [b1 b2]. rewrite Hu in b1, b2.
  set (t2 := fl (t1 + s)) in *.
  assert (Hn0 : 0 < n) by lra.
  assert (Q2 : t2 / n * n == t2) by (field; lra).
  assert (Q0 : (A + s) / n * n == A + s) by (field; lra).
  set (q2 := t2 / n) in *. set (q0 := (A + s) / n) in *.
  assert (D1 : q2 - q0 <= 201 * (1 # 9007199254740992)).
  { assert ((q2 - q0) * n <= 201 * (1 # 9007199254740992) * n) by lra.
    apply Qmult_le_r in H; [exact H|exact Hn0]. }
  assert (D2 : - (201 * (1 # 9007199254740992)) <= q2 - q0).
  { assert (- (201 * (1 # 9007199254740992)) * n <= (q2 - q0) * n) by lra.
    apply Qmult_le_r in H; [exact H|exact Hn0]. }
  assert (R0 : 0 <= q0).
  { assert (0 * n <= q0 * n) by lra. apply Qmult_le_r in H; [exact H|exact Hn0]. }
  assert (R1 : q0 <= 100).
  { assert (q0 * n <= 100 * n) by lra. apply Qmult_le_r in H; [exact H|exact Hn0]. }
  assert (H3 : Qabs q2 <= 101) by (apply Qabs_bound; lra).
  destruct (fl_error q2 _ H3 ltac:(lra)) as [c1 c2]. rewrite Hu in c1, c2.
  set (t3 := fl q2) in *.
  assert (H4 : Qabs (t3 * 100) <= 10001) by (apply Qabs_bound; lra).
  destruct (fl_error (t3 * 100) _ H4 ltac:(lra)) as [d1 d2].
  rewrite Hu in d1, d2. fold t in d1, d2.
  assert (Y : y == q0 * 100) by reflexivity. rewrite Y. lra.
Qed.

End Binary64Facts.

(** The model's rounding agrees with the kernel's binary64 arithmetic on
    the products the two formulas round. *)
Lemma fl_agrees_with_kernel_floats :
  Forall (fun ep =>
            match KernelFloat.value
                    (KernelFloat.percent_hundredths (fst ep) (snd ep)) with
            | Some v =>
                v == Binary64.fl
                       (Binary64.fl
                          (Binary64.fl (inject_Z (fst ep) / inject_Z (snd ep))
                           * 100)
                        * 100)
            | None => False
            end)
         [(23, 160); (1, 3); (2, 3); (7, 9); (13, 15); (1, 7); (200, 3)]%Z
  /\ Forall (fun r =>
               match r with
               | (avg, count, s) =>
                   match KernelFloat.value
                           (KernelFloat.average_hundredths avg count s
                                                           (count + 1)) with
                   | Some v =>
                       v == Binary64.fl
                              (Binary64.fl
                                 (Binary64.fl
                                    (Binary64.fl
                                       (Binary64.fl (inject_Z avg / 100)
                                        * inject_Z count)
                                     + Binary64.fl (inject_Z s / 100))
                                  / inject_Z (count + 1))
                               * 100)
                   | None => False
                   end
               end)
            [(6400, 9, 6875); (8000, 2, 10000); (3333, 1, 10000);
             (1, 2147483647, 9999)]%Z.
Proof.
  split; repeat (apply Forall_cons; [vm_compute; reflexivity|]);
    apply Forall_nil.
Qed.

(** C3 (amended).  On binary64 numbers, for point totals that fit the
    integer columns: a submission is finalised only with a score between 0
    and 100 (the validators of the column refuse any other), and it is
    finalised whenever the earned points lie between 0 and the possible
    points.  The stored score is 0 when no points are possible; otherwise
    it is the double nearest to [k / 100], where [k] is earned / possible *
    10000 rounded to the nearest integer, ties up - except that at an exact
    tie (a percentage such as 14.375) the rounding errors of the three
    operations may make [k] the integer below. *)
Theorem score_percentage_rounded (s : Submission.t) (completedAt : Z) :
  let earned := Submission.total_points_earned s in
  let possible := Submission.total_points_possible s in
  let exact := inject_Z earned / inject_Z possible * 10000 in
  (Z.abs earned <= 2 ^ 31)%Z -> (Z.abs possible <= 2 ^ 31)%Z ->
  (forall s',
     Submission64.completeSubmission s completedAt = inr s' ->
     Submission.status s' = completed
     /\ exists score : Q,
          Submission.score_percentage s' = Some score
          /\ 0 <= score /\ score <= 100
          /\ (possible = 0%Z -> score = 0)
          /\ (possible <> 0%Z ->
              exists k : Z,
                score = Binary64.fl (inject_Z k / 100)
                /\ (k = Math_round exact
                    \/ (exact + (1 # 2) == inject_Z (Math_round exact)
                        /\ k = (Math_round exact - 1)%Z))))
  /\ ((0 <= earned <= possible)%Z ->
      exists s', Submission64.completeSubmission s completedAt = inr s').
Proof.
  intros earned possible exact He Hp.
  assert (K : possible <> 0%Z ->
              exists k : Z,
                Submission64.calculateScore s = Binary64.fl (inject_Z k / 100)
                /\ (k = Math_round exact
                    \/ (exact + (1 # 2) == inject_Z (Math_round exact)
                        /\ k = (Math_round exact - 1)%Z))).
  { intros Hne. unfold Submission64.calculateScore. fold earned possible.
    apply Z.eqb_neq in Hne. rewrite Hne. eexists. split; [reflexivity|].
    apply Z.eqb_neq in Hne.
    exact (Binary64Facts.round2_of_quotient earned possible Hne He Hp). }
  split.
  - intros s' H. unfold Submission64.completeSubmission in H.
    destruct (Submission64.validScore (Submission64.calculateScore s)) eqn:V;
      [|discriminate].
    injection H as <-. split; [reflexivity|].
    exists (Submission64.calculateScore s). split; [reflexivity|].
    unfold Submission64.validScore in V. apply andb_true_iff in V.
    destruct V as [V0 V1]. apply Qle_bool_iff in V0, V1.
    split; [exact V0|]. split; [exact V1|]. split; [|exact K].
    intros H0. unfold Submission64.calculateScore. fold possible.
    now rewrite H0.
  - intros Hr. unfold Submission64.completeSubmission.
    assert (V : Submission64.validScore (Submission64.calculateScore s) = true);
      [|rewrite V; eexists; reflexivity].
    unfold Submission64.validScore. apply andb_true_iff.
    destruct (Z.eq_dec possible 0) as [H0|Hne].
    { unfold Submission64.calculateScore. fold possible. rewrite H0.
      split; reflexivity. }
    destruct (K Hne) as [k [-> Hk]].
    assert (Hx : 0 <= exact /\ exact <= 10000).
    { unfold exact.
      destruct (Qdiv_Z_percent earned possible Hr ltac:(lia)) as [P0 P1].
      set (q := inject_Z earned / inject_Z possible) in *. split; lra. }
    destruct Hx as [X0 X1].
    assert (M0 : (0 <= Math_round exact)%Z).
    { rewrite <- (Math_round_Z 0). apply Math_round_mono. exact X0. }
    assert (M1 : (Math_round exact <= 10000)%Z).
    { rewrite <- (Math_round_Z 10000). apply Math_round_mono. exact X1. }
    assert (Hk' : (0 <= k <= 10000)%Z).
    { destruct Hk as [->|[T ->]]; [lia|].
      assert (0 < inject_Z (Math_round exact)) by lra.
      change 0 with (inject_Z 0) in H. rewrite <- Zlt_Qlt in H. lia. }
    destruct (Binary64Facts.fl_hundredths_range k Hk') as [R0 R1].
    split; apply Qle_bool_iff; assumption.
Qed.

Lemma score_percentage_rounded_witness :
  let s := {| Submission.id := 1%N; Submission.user_id := 2%N;
              Submission.quiz_id := 3%N; Submission.attempt_number := 1;
              Submission.total_questions := 3;
              Submission.correct_answers := 1;
              Submission.score_percentage := Some 0;
              Submission.total_points_earned := 1;
              Submission.total_points_possible := 3;
              Submission.time_taken_minutes := None;
              Submission.started_at := Some 0%Z;
              Submission.completed_at := None;
              Submission.status := in_progress;
              Submission.improvement_suggestions := [];
              Submission.performance_analysis := None |} in
  exists s',
    Submission64.completeSubmission s 60000 = inr s'
    /\ Submission.score_percentage s' = Some (Binary64.fl (3333 # 100)).
Proof.
  intros s.
  destruct (score_percentage_rounded s 60000) as [_ H];
    [simpl; lia|simpl; lia|].
  destruct H as [s' H]; [simpl; lia|].
  exists s'. split; [exact H|].
  vm_compute in H. injection H as <-. vm_compute. reflexivity.
Defined.

(** C3 as stated fails at an exact tie: 23 points out of 160 are 14.375
    percent, which rounds to 14.38, but the three rounded operations give
    1437.4999999999998 and the stored score is 14.37. *)
Theorem score_percentage_tie_rounds_down :
  let s := {| Submission.id := 1%N; Submission.user_id := 2%N;
              Submission.quiz_id := 3%N; Submission.attempt_number := 1;
              Submission.total_questions := 160;
              Submission.correct_answers := 23;
              Submission.score_percentage := Some 0;
              Submission.total_points_earned := 23;
              Submission.total_points_possible := 160;
              Submission.time_taken_minutes := None;
              Submission.started_at := Some 0%Z;
              Submission.completed_at := None;
              Submission.status := in_progress;
              Submission.improvement_suggestions := [];
              Submission.performance_analysis := None |} in
  round_100 (inject_Z 23 / inject_Z 160 * 100) == 1438 # 100
  /\ exists s' score,
       Submission64.completeSubmission s 60000 = inr s'
       /\ Submission.score_percentage s' = Some score
       /\ score = Binary64.fl (1437 # 100)
       /\ (1438 # 100) - score > 1 # 101.
Proof.
  intros s. split; [reflexivity|].
  eexists. eexists. split; [vm_compute; reflexivity|].
  split; [reflexivity|]. split; [vm_compute; reflexivity|].
  vm_compute. reflexivity.
Qed.

(** C8 (amended).  On binary64 numbers, for an attempt count that fits the
    integer column and an average and a score between 0 and 100:
    [updateStats] raises the count by one and stores the double nearest to
    [k / 100], where [k] is the integer [Math.round] yields for a value
    within [2^-37] of ((average * oldCount) + newScore) / (oldCount + 1) *
    100.  So [k] is that quotient rounded to the nearest integer, ties up,
    unless the quotient lies within [2^-37] of a tie; the stored average
    stays between 0 and 100; and count 2, average 80, score 100 give
    86.67. *)
Theorem updateStats_rolling_average (u : User.t) (newScore : Q) :
  let oldCount := User.total_quizzes_attempted u in
  let oldAverage := User.average_score u in
  let exact :=
    (oldAverage * inject_Z oldCount + newScore) / inject_Z (oldCount + 1)
    * 100 in
  (0 <= oldCount <= 2 ^ 31)%Z ->
  0 <= oldAverage -> oldAverage <= 100 ->
  0 <= newScore -> newScore <= 100 ->
  (exists (u' : User.t) (k : Z),
     User64.updateStats u newScore = Some u'
     /\ User.total_quizzes_attempted u' = (oldCount + 1)%Z
     /\ User.average_score u' = Binary64.fl (inject_Z k / 100)
     /\ (Math_round (exact - (1 # 137438953472)) <= k
         <= Math_round (exact + (1 # 137438953472)))%Z
     /\ (Math_round (exact - (1 # 137438953472))
         = Math_round (exact + (1 # 137438953472)) ->
         k = Math_round exact)
     /\ 0 <= User.average_score u' /\ User.average_score u' <= 100)
  /\ User64.updateStats {| User.id := User.id u;
                           User.total_quizzes_attempted := 2;
                           User.average_score := 80 |} 100
     = Some {| User.id := User.id u;
               User.total_quizzes_attempted := 3;
               User.average_score := Binary64.fl (8667 # 100) |}.
Proof.
  intros oldCount oldAverage exact Hc A0 A1 S0 S1.
  split; [|vm_compute; reflexivity].
  unfold User64.updateStats. fold oldCount oldAverage.
  destruct (oldCount + 1 =? 0)%Z eqn:E; [apply Z.eqb_eq in E; lia|].
  destruct (Binary64Facts.average_chain oldAverage newScore oldCount
              Hc A0 A1 S0 S1) as [D1 D2].
  fold exact in D1, D2.
  set (t := Binary64.fl
              (Binary64.fl
                 (Binary64.fl
                    (Binary64.fl (oldAverage * inject_Z oldCount) + newScore)
                  / inject_Z (oldCount + 1))
               * 100)) in *.
  assert (L : (Math_round (exact - (1 # 137438953472)) <= Math_round t)%Z)
    by (apply Math_round_mono; lra).
  assert (U : (Math_round t <= Math_round (exact + (1 # 137438953472)))%Z)
    by (apply Math_round_mono; lra).
  assert (Hx : 0 <= exact /\ exact <= 10000).
  { unfold exact.
    assert (HC : 0 <= inject_Z oldCount).
    { change 0 with (inject_Z 0). rewrite <- Zle_Qle. lia. }
    assert (HN : inject_Z (oldCount + 1) == inject_Z oldCount + 1)
      by now rewrite inject_Z_plus.
    assert (P0 : 0 <= oldAverage * inject_Z oldCount)
      by (apply Qmult_le_0_compat; assumption).
    assert (P1 : oldAverage * inject_Z oldCount <= 100 * inject_Z oldCount)
      by (apply Qmult_le_compat_r; assumption).
    set (n := inject_Z (oldCount + 1)) in *.
    set (A := oldAverage * inject_Z oldCount) in *.
    assert (Hn : 0 < n) by lra.
    assert (Q0 : (A + newScore) / n * n == A + newScore) by (field; lra).
    set (q := (A + newScore) / n) in *.
    assert (R0 : 0 <= q).
    { assert (H : 0 * n <= q * n) by lra.
      apply Qmult_le_r in H; [exact H|exact Hn]. }
    assert (R1 : q <= 100).
    { assert (H : q * n <= 100 * n) by lra.
      apply Qmult_le_r in H; [exact H|exact Hn]. }
    split; lra. }
  destruct Hx as [X0 X1].
  assert (K0 : (0 <= Math_round t)%Z).
  { assert (H : (Math_round (- (1 # 137438953472)) <= Math_round t)%Z)
      by (apply Math_round_mono; lra).
    vm_compute (Math_round (- (1 # 137438953472))) in H. exact H. }
  assert (K1 : (Math_round t <= 10000)%Z).
  { assert (H : (Math_round t <= Math_round ((20001 # 2) - (1 # 4)))%Z)
      by (apply Math_round_mono; lra).
    vm_compute (Math_round ((20001 # 2) - (1 # 4))) in H. exact H. }
  destruct (Binary64Facts.fl_hundredths_range (Math_round t)
              (conj K0 K1)) as [R0 R1].
  eexists. exists (Math_round t).
  split; [reflexivity|]. split; [reflexivity|]. split; [reflexivity|].
  split; [split; assumption|]. split; [|split; assumption].
  intros Heq.
  assert (M1 : (Math_round (exact - (1 # 137438953472)) <= Math_round exact)%Z)
    by (apply Math_round_mono; lra).
  assert (M2 : (Math_round exact <= Math_round (exact + (1 # 137438953472)))%Z)
    by (apply Math_round_mono; lra).
  lia.
Qed.

Lemma updateStats_rolling_average_witness :
  let u := {| User.id := 5%N; User.total_quizzes_attempted := 2;
              User.average_score := 80 |} in
  exists u',
    User64.updateStats u 100 = Some u'
    /\ User.total_quizzes_attempted u' = 3%Z
    /\ User.average_score u' = Binary64.fl (8667 # 100).
Proof.
  intros u.
  destruct (updateStats_rolling_average u 100) as [[u' [k H]] _];
    [simpl; lia|simpl; lra|simpl; lra|lra|lra|].
  destruct H as [H1 [H2 _]]. exists u'. split; [exact H1|].
  split; [exact H2|].
  vm_compute in H1. injection H1 as <-. vm_compute. reflexivity.
Defined.

(** C8 as stated fails at an exact tie: count 9, average 64 and score
    68.75 give the average 64.475, which rounds to 64.48, but the rounded
    operations give 6447.4999999999991 and the stored average is 64.47. *)
Theorem updateStats_tie_rounds_down :
  let u := {| User.id := 5%N; User.total_quizzes_attempted := 9;
              User.average_score := 64 |} in
  round_100 ((64 * inject_Z 9 + (6875 # 100)) / inject_Z (9 + 1))
  == 6448 # 100
  /\ exists u',
       User64.updateStats u (6875 # 100) = Some u'
       /\ User.total_quizzes_attempted u' = 10%Z
       /\ User.average_score u' = Binary64.fl (6447 # 100)
       /\ (6448 # 100) - User.average_score u' > 1 # 101.
Proof.
  intros u. split; [reflexivity|].
  eexists. split; [vm_compute; reflexivity|].
  split; [reflexivity|]. split; [vm_compute; reflexivity|].
  vm_compute. reflexivity.
Qed.

(** ** Adaptive difficulty *)

Lemma scores_of_history_of (scores : list Q) :
  AIService.scores_of (Sample.history_of scores) = inr scores.
Proof.
  induction scores as [|q r IH]; [reflexivity|].
  change (Sample.history_of (q :: r))
    with (Some {| AIService.HistoryItem.score_percentage := q;
                  AIService.HistoryItem.difficulty := "medium" |}
          :: Sample.history_of r).
  simpl. now rewrite IH.
Qed.

(** What the estimator computes on a non-empty array without null items:
    the decision table applied to the mean and the trend of the last (at
    most) five items of the array. *)
Lemma adaptQuizDifficulty_decision (items : list (option AIService.HistoryItem.t))
    (scores : list Q) :
  items <> [] ->
  AIService.scores_of (slice_last 5 items) = inr scores ->
  AIService.adaptQuizDifficulty (AIService.HArray items)
  = AIService.RObject {|
      AIService.Analysis.difficulty :=
        Spec.decide
          (sumQ scores / inject_Z (Z.of_nat (List.length (slice_last 5 items))))
          (AIService.calculateTrend scores);
      AIService.Analysis.reasoning :=
        AIService.getDifficultyReasoning
          (sumQ scores / inject_Z (Z.of_nat (List.length (slice_last 5 items))))
          (AIService.calculateTrend scores);
      AIService.Analysis.averageScore :=
        round_100
          (sumQ scores / inject_Z (Z.of_nat (List.length (slice_last 5 items))));
      AIService.Analysis.trend :=
        if gt (AIService.calculateTrend scores) 0 then "improving"
        else if lt (AIService.calculateTrend scores) 0 then "declining"
        else "stable"
    |}.
Proof.
  intros Hne Hs. unfold AIService.adaptQuizDifficulty, AIService.adaptQuizDifficulty_try.
  destruct items as [|i r]; [contradiction|].
  change (List.length (i :: r) =? 0)%nat with false. cbv iota.
  rewrite Hs. reflexivity.
Qed.

(** With at most five entries the window is the whole history, so the
    recommendation is the specification's. *)
Lemma adaptQuizDifficulty_short_history (scores : list Q) :
  scores <> [] -> (List.length scores <= 5)%nat ->
  AIService.get_difficulty
    (AIService.adaptQuizDifficulty (AIService.HArray (Sample.history_of scores)))
  = Some (Spec.recommended scores).
Proof.
  intros Hne Hlen.
  assert (Hw : slice_last 5 (Sample.history_of scores) = Sample.history_of scores).
  { unfold slice_last, Sample.history_of. rewrite length_map.
    replace (List.length scores - 5)%nat with 0%nat by lia. reflexivity. }
  rewrite (adaptQuizDifficulty_decision _ scores).
  - simpl. rewrite Hw. unfold Spec.recommended, Spec.most_recent, Spec.mean.
    rewrite firstn_all2 by exact Hlen.
    unfold Sample.history_of. now rewrite length_map.
  - destruct scores; [contradiction|discriminate].
  - rewrite Hw. apply scores_of_history_of.
Qed.

(** C4.  On the history [90; 90; 90; 90; 90; 10] given most recent first,
    the estimator's window is the last five items of the array, that is the
    five oldest quizzes [90; 90; 90; 90; 10]: the average is 74 and the
    difficulty medium, where the five most recent quizzes average 90 with a
    flat trend and the decision table gives hard. *)
Theorem adaptQuizDifficulty_window_oldest :
  slice_last 5 Sample.six_scores = [90; 90; 90; 90; 10]
  /\ Spec.most_recent 5 Sample.six_scores = [90; 90; 90; 90; 90]
  /\ AIService.adaptQuizDifficulty
       (AIService.HArray (Sample.history_of Sample.six_scores))
     = AIService.RObject {|
         AIService.Analysis.difficulty := "medium";
         AIService.Analysis.reasoning :=
           "Good progress! Continuing with moderate difficulty.";
         AIService.Analysis.averageScore := 7400 # 100;
         AIService.Analysis.trend := "declining" |}
  /\ Spec.recommended Sample.six_scores = "hard".
Proof. repeat split. Qed.

(** An exception inside the estimator is caught and answered with the
    cold-start object, whose trend is "unknown". *)
Lemma adaptQuizDifficulty_catch (h : AIService.UserHistory) (e : exn) :
  AIService.adaptQuizDifficulty_try h = inl e ->
  AIService.adaptQuizDifficulty h
  = AIService.RObject {|
      AIService.Analysis.difficulty := "mixed";
      AIService.Analysis.reasoning :=
        "Using balanced difficulty due to insufficient data.";
      AIService.Analysis.averageScore := 0;
      AIService.Analysis.trend := "unknown" |}.
Proof.
  intros H. unfold AIService.adaptQuizDifficulty. now rewrite H.
Qed.

Lemma adaptQuizDifficulty_null_item :
  AIService.adaptQuizDifficulty_try (AIService.HArray [None]) = inl TypeError
  /\ AIService.adaptQuizDifficulty_try AIService.HNotArray = inl TypeError.
Proof. split; reflexivity. Qed.

(** C5.  For an empty array, and for a missing history, the estimator
    returns the bare string "mixed", not an analysis object: its
    [difficulty] property is undefined, and so is the difficulty the quiz
    controller takes from it for an adaptive request of a user without
    history. *)
Theorem adaptQuizDifficulty_empty_is_bare_string :
  AIService.adaptQuizDifficulty (AIService.HArray []) = AIService.RString "mixed"
  /\ AIService.adaptQuizDifficulty AIService.HMissing = AIService.RString "mixed"
  /\ AIService.get_difficulty (AIService.adaptQuizDifficulty (AIService.HArray []))
     = None
  /\ QuizController.finalDifficulty None [] = None
  /\ QuizController.finalDifficulty (Some "adaptive") [] = None.
Proof. repeat split. Qed.

(** ** Fallback grading *)

(** What the handler does when the service is not configured or its request
    fails: [evaluateAnswer] answers with its own fallback and the handler
    awards [round(points * partialCredit)], whatever [isCorrect] is. *)
Lemma evaluate_service_fallback (this_bound : bool)
    (ai : SubmissionController.AI.t) (n : nat)
    (q : Question.t) (ua : SubmissionController.UserAnswer.t) :
  Question.question_type q = short_answer \/ Question.question_type q = essay ->
  SubmissionController.AI.available ai = false
  \/ SubmissionController.AI.evaluations ai n = AIService.ApiThrows ->
  let similarity :=
    AIService.similarity (SubmissionController.UserAnswer.answer ua)
                         (Question.correct_answer q) in
  exists n',
    SubmissionController.evaluate this_bound ai n q ua
    = inr (gt similarity (7 # 10),
           Math_round (inject_Z (Question.points q) * similarity),
           Some (if gt similarity (7 # 10) then "Good answer!"
                 else "Please review the correct answer and try to understand the key concepts."),
           n').
Proof.
  intros Hty Hai similarity. unfold SubmissionController.evaluate.
  assert (Hev : AIService.evaluateAnswer (SubmissionController.AI.available ai)
                  (SubmissionController.AI.evaluations ai n)
                  (SubmissionController.UserAnswer.answer ua)
                  (Question.correct_answer q)
                = Some (AIService.fallbackEvaluation
                          (SubmissionController.UserAnswer.answer ua)
                          (Question.correct_answer q))).
  { unfold AIService.evaluateAnswer.
    destruct (SubmissionController.AI.available ai); [|reflexivity].
    destruct Hai as [Hai|Hai]; [discriminate|]. now rewrite Hai. }
  destruct Hty as [Hty|Hty]; rewrite Hty, Hev; eexists; reflexivity.
Qed.

(** The handler's own fallback, reached when the parsed reply is [null]:
    this one awards the full points above 0.7. *)
Lemma evaluate_controller_fallback (ai : SubmissionController.AI.t) (n : nat)
    (q : Question.t) (ua : SubmissionController.UserAnswer.t) :
  Question.question_type q = short_answer \/ Question.question_type q = essay ->
  SubmissionController.AI.available ai = true ->
  SubmissionController.AI.evaluations ai n = AIService.ParsedNull ->
  let similarity :=
    AIService.similarity (SubmissionController.UserAnswer.answer ua)
                         (Question.correct_answer q) in
  SubmissionController.evaluate true ai n q ua
  = inr (gt similarity (7 # 10),
         Spec.fallback_points (Question.points q) similarity,
         None, S n).
Proof.
  intros Hty Hav Hnull similarity. unfold SubmissionController.evaluate.
  unfold AIService.evaluateAnswer. rewrite Hav, Hnull. simpl.
  destruct Hty as [Hty|Hty]; rewrite Hty; reflexivity.
Qed.

(** C2.  A ten-point short-answer question with reference answer "a b c d",
    answered "a b c x" while the service is not configured, or while its
    request fails: the similarity is 3/4, above 0.7, the answer is marked
    correct, and the points earned are round(10 * 3/4) = 8, where the
    specification's rule gives the full 10. *)
Theorem evaluate_fallback_partial_points :
  AIService.similarity "a b c x" "a b c d" = 3 # 4
  /\ SubmissionController.evaluate true Sample.ai_unavailable 0
       Sample.open_question Sample.open_answer
     = inr (true, 8%Z, Some "Good answer!", 0%nat)
  /\ SubmissionController.evaluate true Sample.ai_failing 0
       Sample.open_question Sample.open_answer
     = inr (true, 8%Z, Some "Good answer!", 1%nat)
  /\ Spec.fallback_points (Question.points Sample.open_question) (3 # 4)
     = 10%Z.
Proof. repeat split. Qed.

(** ** Submitting *)

Import SubmissionController.

Lemma gt_true (x y : Q) : gt x y = true <-> y < x.
Proof.
  unfold gt. rewrite negb_true_iff. split.
  - intros H. apply Qnot_le_lt. intros Hle. apply Qle_bool_iff in Hle. congruence.
  - intros H. destruct (Qle_bool x y) eqn:E; [|reflexivity].
    apply Qle_bool_iff in E. apply Qlt_not_le in H. contradiction.
Qed.

Lemma find_map_same {A : Type} (p : A -> bool) (g : A -> A) (l : list A) :
  (forall r, p (g r) = p r) ->
  find p (map g l) = option_map g (find p l).
Proof.
  intros Hp. induction l as [|r l IH]; simpl; [reflexivity|].
  rewrite Hp. destruct (p r); [reflexivity|exact IH].
Qed.

(** [update({ status })] writes the status and nothing else. *)
Lemma set_status_fields (r : Submission.t) (st : Status) :
  let r' := Submission.set_status r st in
  Submission.status r' = st
  /\ Submission.id r' = Submission.id r
  /\ Submission.user_id r' = Submission.user_id r
  /\ Submission.quiz_id r' = Submission.quiz_id r
  /\ Submission.attempt_number r' = Submission.attempt_number r
  /\ Submission.total_questions r' = Submission.total_questions r
  /\ Submission.correct_answers r' = Submission.correct_answers r
  /\ Submission.score_percentage r' = Submission.score_percentage r
  /\ Submission.total_points_earned r' = Submission.total_points_earned r
  /\ Submission.total_points_possible r' = Submission.total_points_possible r
  /\ Submission.time_taken_minutes r' = Submission.time_taken_minutes r
  /\ Submission.started_at r' = Submission.started_at r
  /\ Submission.completed_at r' = Submission.completed_at r
  /\ Submission.improvement_suggestions r' = Submission.improvement_suggestions r
  /\ Submission.performance_analysis r' = Submission.performance_analysis r.
Proof. repeat split. Qed.

(** C6.  Submitting an in_progress submission of the caller whose quiz has
    a time limit, more than that many minutes after [started_at]: the
    request is rejected with TIME_LIMIT_EXCEEDED; the stored submission is
    the old one with status expired; the answers, users and quizzes tables
    are unchanged (no answer is created, none is graded), and every
    submission row is unchanged but for the status of the submitted one. *)
Theorem submitQuiz_time_limit_exceeded (this_bound : bool) (ai : AI.t)
    (db : DB.t) (now completedAt : Z) (user : User.t) (submission_id : UUID)
    (answers : list UserAnswer.t)
    (submission : Submission.t) (quiz : Quiz.t) (limit started : Z) :
  find (fun s => (Submission.id s =? submission_id)%N
                 && (Submission.user_id s =? User.id user)%N)
       (DB.submissions db) = Some submission ->
  Submission.status submission = in_progress ->
  DB.findQuiz db (Submission.quiz_id submission) = Some quiz ->
  Quiz.time_limit_minutes quiz = Some limit -> limit <> 0%Z ->
  Submission.started_at submission = Some started ->
  inject_Z limit < inject_Z (now - started) / inject_Z (1000 * 60) ->
  let result :=
    submitQuiz this_bound ai db now completedAt user submission_id answers in
  fst result = Failure 400 "TIME_LIMIT_EXCEEDED"
  /\ DB.answers (snd result) = DB.answers db
  /\ DB.users (snd result) = DB.users db
  /\ DB.quizzes (snd result) = DB.quizzes db
  /\ DB.submissions (snd result)
     = map (fun r => if (Submission.id r =? submission_id)%N
                     then Submission.set_status r expired else r)
           (DB.submissions db)
  /\ find (fun s => (Submission.id s =? submission_id)%N
                    && (Submission.user_id s =? User.id user)%N)
          (DB.submissions (snd result))
     = Some (Submission.set_status submission expired).
Proof.
  intros Hfind Hst Hquiz Hlimit Hnz Hstart Hlate result.
  assert (Hid : Submission.id submission = submission_id).
  { apply find_some in Hfind as [_ H]. apply andb_prop in H as [H _].
    now apply N.eqb_eq in H. }
  assert (E : result
              = (Failure 400 "TIME_LIMIT_EXCEEDED",
                 DB.updateSubmission db submission_id
                   (fun r => Submission.set_status r expired))).
  { unfold result, submitQuiz. rewrite Hfind, Hst. simpl negb. cbv iota.
    rewrite Hquiz, Hlimit, Hstart.
    apply Z.eqb_neq in Hnz. rewrite Hnz.
    apply gt_true in Hlate. rewrite Hlate. now rewrite Hid. }
  rewrite E. simpl. repeat split.
  rewrite find_map_same.
  - rewrite Hfind. simpl. now rewrite Hid, N.eqb_refl.
  - intros r. destruct (Submission.id r =? submission_id)%N eqn:Er;
      simpl; rewrite ?Er; reflexivity.
Qed.

Lemma submitQuiz_time_limit_exceeded_witness :
  let result :=
    submitQuiz true Sample.ai_unavailable Sample.db 120000 120001
               Sample.user 1%N [Sample.choice_answer] in
  fst result = Failure 400 "TIME_LIMIT_EXCEEDED"
  /\ DB.answers (snd result) = []
  /\ map Submission.status (DB.submissions (snd result)) = [expired].
Proof.
  intros result.
  destruct (submitQuiz_time_limit_exceeded true Sample.ai_unavailable Sample.db
              120000 120001 Sample.user 1%N [Sample.choice_answer]
              Sample.attempt Sample.quiz 1 0)
    as [H1 [H2 [_ [_ [H5 _]]]]];
    try reflexivity; [discriminate|].
  fold result in H1, H2, H5.
  split; [exact H1|]. split; [exact H2|]. rewrite H5. reflexivity.
Defined.

(** An answer whose question is not in the quiz leaves the loop variables
    and the store as they are. *)
Lemma gradeAnswer_unknown_question (this_bound : bool) (ai : AI.t)
    (submission : Submission.t) (quiz : Quiz.t) (l : Loop.t)
    (ua : UserAnswer.t) :
  Spec.known_question quiz ua = false ->
  gradeAnswer this_bound ai submission quiz l ua = inr l.
Proof.
  intros H. unfold gradeAnswer.
  destruct (find _ (Quiz.questions quiz)) as [q|] eqn:E; [|reflexivity].
  apply find_some in E as [Hin Hq].
  unfold Spec.known_question in H.
  assert (Ht : existsb
                 (fun q => (Question.id q =? UserAnswer.question_id ua)%N)
                 (Quiz.questions quiz) = true).
  { apply existsb_exists. now exists q. }
  congruence.
Qed.

Lemma gradeAnswers_known_only (this_bound : bool) (ai : AI.t)
    (submission : Submission.t) (quiz : Quiz.t) (answers : list UserAnswer.t) :
  forall l,
    gradeAnswers this_bound ai submission quiz answers l
    = gradeAnswers this_bound ai submission quiz
        (filter (Spec.known_question quiz) answers) l.
Proof.
  induction answers as [|ua rest IH]; intros l; simpl; [reflexivity|].
  destruct (Spec.known_question quiz ua) eqn:E; simpl.
  - destruct (gradeAnswer this_bound ai submission quiz l ua); [reflexivity|apply IH].
  - rewrite gradeAnswer_unknown_question by exact E. apply IH.
Qed.

(** Every answer row the loop creates is for a question of the quiz. *)
Lemma gradeAnswers_rows (this_bound : bool) (ai : AI.t)
    (submission : Submission.t) (quiz : Quiz.t) (answers : list UserAnswer.t) :
  forall l,
    exists created,
      DB.answers (Loop.db (fst (gradeAnswers this_bound ai submission quiz answers l)))
      = (DB.answers (Loop.db l) ++ created)%list
      /\ Forall (fun a => exists q, In q (Quiz.questions quiz)
                                    /\ Question.id q = Answer.question_id a)
                created.
Proof.
  induction answers as [|ua rest IH]; intros l; simpl.
  - exists []. split; [now rewrite app_nil_r|constructor].
  - destruct (gradeAnswer this_bound ai submission quiz l ua) as [e|l'] eqn:E.
    + exists []. split; [now rewrite app_nil_r|constructor].
    + destruct (IH l') as [created [Hc Hf]].
      unfold gradeAnswer in E.
      destruct (find _ (Quiz.questions quiz)) as [q|] eqn:Eq.
      * destruct (evaluate this_bound ai (Loop.requests l) q ua)
          as [e|[[[c p] x] n]]; [discriminate|].
        unfold DB.createAnswer in E.
        destruct (existsb _ (DB.answers (Loop.db l))); [discriminate|].
        injection E as <-. simpl in Hc.
        eexists. split; [rewrite Hc, <- app_assoc; reflexivity|].
        constructor; [|exact Hf].
        exists q. split; [|reflexivity]. now apply find_some in Eq.
      * injection E as <-. exists created. now split.
Qed.

(** C10.  An answer whose [question_id] is no question of the quiz is
    skipped: its iteration changes neither the store nor the totals and
    raises nothing; every answer row created by the loop belongs to a
    question of the quiz; and the whole handler responds and stores exactly
    what it would for the matching answers alone. *)
Theorem submitQuiz_skips_unknown_questions (this_bound : bool) (ai : AI.t)
    (db : DB.t) (now completedAt : Z) (user : User.t) (submission_id : UUID)
    (answers : list UserAnswer.t) (submission : Submission.t) (quiz : Quiz.t) :
  find (fun s => (Submission.id s =? submission_id)%N
                 && (Submission.user_id s =? User.id user)%N)
       (DB.submissions db) = Some submission ->
  DB.findQuiz db (Submission.quiz_id submission) = Some quiz ->
  (forall l ua, Spec.known_question quiz ua = false ->
                gradeAnswer this_bound ai submission quiz l ua = inr l)
  /\ (forall l, exists created,
        DB.answers (Loop.db (fst (gradeAnswers this_bound ai submission quiz answers l)))
        = (DB.answers (Loop.db l) ++ created)%list
        /\ Forall (fun a => exists q, In q (Quiz.questions quiz)
                                      /\ Question.id q = Answer.question_id a)
                  created)
  /\ submitQuiz this_bound ai db now completedAt user submission_id answers
     = submitQuiz this_bound ai db now completedAt user submission_id
         (filter (Spec.known_question quiz) answers).
Proof.
  intros Hfind Hquiz. split; [|split].
  - intros l ua. apply gradeAnswer_unknown_question.
  - apply gradeAnswers_rows.
  - unfold submitQuiz. rewrite Hfind, Hquiz.
    now rewrite (gradeAnswers_known_only this_bound ai submission quiz answers).
Qed.

Lemma submitQuiz_skips_unknown_questions_witness :
  let result :=
    submitQuiz true Sample.ai_unavailable Sample.db 30000 30001 Sample.user
               1%N [Sample.choice_answer; Sample.stray_answer] in
  result = submitQuiz true Sample.ai_unavailable Sample.db 30000 30001
             Sample.user 1%N [Sample.choice_answer]
  /\ map Answer.question_id (DB.answers (snd result)) = [10%N]
  /\ map Submission.status (DB.submissions (snd result)) = [completed]
  /\ map Submission.total_points_earned (DB.submissions (snd result)) = [5%Z]
  /\ exists data, fst result = Success 200 data.
Proof.
  intros result.
  destruct (submitQuiz_skips_unknown_questions true Sample.ai_unavailable
              Sample.db 30000 30001 Sample.user 1%N
              [Sample.choice_answer; Sample.stray_answer]
              Sample.attempt Sample.quiz eq_refl eq_refl) as [_ [_ H]].
  split; [exact H|]. repeat split. eexists. reflexivity.
Defined.

(** The handler's average is zero whatever the answers' times were. *)
Lemma average_time_zero (rs : list AnswerResult.t) (q : Q) :
  average_time rs = Some q -> q == 0.
Proof.
  unfold average_time.
  assert (H : forall acc, acc == 0 ->
            fold_left (fun sum r =>
              match AnswerResult.time_taken_seconds r with
              | Some t => if (t =? 0)%Z then sum + 0 else sum + inject_Z t
              | None => sum + 0
              end) rs acc == 0).
  { induction rs as [|r rs IH]; intros acc Hacc; simpl; [exact Hacc|].
    apply IH. rewrite Hacc. reflexivity. }
  destruct rs as [|r rs]; [discriminate|].
  intros E. injection E as <-. unfold Qdiv.
  etransitivity; [apply Qmult_comp; [apply H|]; reflexivity|].
  apply Qmult_0_l.
Qed.

(** C9.  One answer, given after 30 seconds: the answer row keeps
    [time_taken_seconds = 30], the mean of the answers' times is 30, and the
    stored [average_time_per_question] is 0. *)
Theorem average_time_ignores_answer_times :
  let result :=
    submitQuiz true Sample.ai_unavailable Sample.db 30000 30001 Sample.user
               1%N [Sample.choice_answer] in
  map Answer.time_taken_seconds (DB.answers (snd result)) = [Some 30%Z]
  /\ Spec.mean_time
       (map Answer.time_taken_seconds (DB.answers (snd result))) == 30
  /\ map (fun s => option_map PerformanceAnalysis.average_time_per_question
                              (Submission.performance_analysis s))
         (DB.submissions (snd result))
     = [Some (Some 0)].
Proof. repeat split. Qed.

(** ** Starting *)

(** The outcomes of [startQuiz] for an existing, active quiz. *)

Lemma startQuiz_rejected (db : DB.t) (now : Z) (new_id userId quiz_id : UUID)
    (quiz : Quiz.t) :
  DB.findQuiz db quiz_id = Some quiz -> Quiz.is_active quiz = true ->
  (Quiz.max_attempts quiz <= countAttempts db userId quiz_id)%Z ->
  startQuiz db now new_id userId quiz_id
  = (Failure 400 "MAX_ATTEMPTS_REACHED", db).
Proof.
  intros Hq Ha Hc. unfold startQuiz. rewrite Hq, Ha. simpl.
  apply Z.geb_le in Hc. now rewrite Hc.
Qed.

Lemma startQuiz_resumed (db : DB.t) (now : Z) (new_id userId quiz_id : UUID)
    (quiz : Quiz.t) (s : Submission.t) :
  DB.findQuiz db quiz_id = Some quiz -> Quiz.is_active quiz = true ->
  (countAttempts db userId quiz_id < Quiz.max_attempts quiz)%Z ->
  findInProgress db userId quiz_id = Some s ->
  startQuiz db now new_id userId quiz_id
  = (Success 200 (Resumed (Submission.id s) (Submission.started_at s)
                          (Quiz.time_limit_minutes quiz)), db).
Proof.
  intros Hq Ha Hc Hs. unfold startQuiz. rewrite Hq, Ha. simpl.
  destruct (countAttempts db userId quiz_id >=? Quiz.max_attempts quiz)%Z eqn:E.
  - apply Z.geb_le in E. lia.
  - now rewrite Hs.
Qed.

(** A row without a score does not pass the validation of a new row. *)
Lemma createSubmission_without_score (db : DB.t) (s : Submission.t) :
  Submission.score_percentage s = None ->
  DB.createSubmission db s = inl SequelizeValidationError.
Proof.
  intros H. unfold DB.createSubmission, DB.validSubmission. now rewrite H.
Qed.

Lemma startQuiz_create_fails (db : DB.t) (now : Z)
    (new_id userId quiz_id : UUID) (quiz : Quiz.t) :
  DB.findQuiz db quiz_id = Some quiz -> Quiz.is_active quiz = true ->
  (countAttempts db userId quiz_id < Quiz.max_attempts quiz)%Z ->
  findInProgress db userId quiz_id = None ->
  startQuiz db now new_id userId quiz_id
  = (Failure 500 "Internal server error", db).
Proof.
  intros Hq Ha Hc Hs. unfold startQuiz. rewrite Hq, Ha. cbn [negb].
  destruct (countAttempts db userId quiz_id >=? Quiz.max_attempts quiz)%Z eqn:E.
  - apply Z.geb_le in E. lia.
  - rewrite Hs. cbv zeta.
    rewrite createSubmission_without_score by reflexivity.
    reflexivity.
Qed.

Lemma startQuiz_store (db : DB.t) (now : Z) (new_id userId quiz_id : UUID) :
  snd (startQuiz db now new_id userId quiz_id) = db.
Proof.
  unfold startQuiz.
  destruct (DB.findQuiz db quiz_id) as [quiz|]; [|reflexivity].
  destruct (negb (Quiz.is_active quiz)); [reflexivity|].
  destruct (countAttempts db userId quiz_id >=? Quiz.max_attempts quiz)%Z;
    [reflexivity|].
  destruct (findInProgress db userId quiz_id); [reflexivity|]. cbv zeta.
  rewrite createSubmission_without_score by reflexivity. reflexivity.
Qed.

(** The store being unchanged, every start preserves both invariants of
    the lifecycle. *)
Lemma startQuiz_preserves_invariants (db : DB.t) (now : Z)
    (new_id userId quiz_id : UUID) :
  (Spec.at_most_one_in_progress db ->
   Spec.at_most_one_in_progress (snd (startQuiz db now new_id userId quiz_id)))
  /\ (Spec.within_max_attempts db ->
      Spec.within_max_attempts (snd (startQuiz db now new_id userId quiz_id))).
Proof. rewrite startQuiz_store. split; intros H; exact H. Qed.

(** An in_progress submission that uses the last allowed attempt is not
    resumed: the limit is checked before the lookup, and the start is
    rejected with MAX_ATTEMPTS_REACHED. *)
Lemma startQuiz_last_attempt_not_resumed :
  option_map Submission.id (findInProgress Sample.db_last_attempt 2%N 4%N)
  = Some 7%N
  /\ fst (startQuiz Sample.db_last_attempt 1 8%N 2%N 4%N)
     = Failure 400 "MAX_ATTEMPTS_REACHED"
  /\ ~ Spec.resumes_whenever_in_progress.
Proof.
  split; [reflexivity|]. split; [reflexivity|].
  intros H.
  specialize (H Sample.db_last_attempt 1%Z 8%N 2%N 4%N
                Sample.single_attempt_quiz Sample.last_attempt
                eq_refl eq_refl eq_refl).
  discriminate H.
Qed.

(** C7.  The start handler never creates a submission.  For an existing,
    active quiz: a start is rejected with MAX_ATTEMPTS_REACHED whenever the
    count of completed and in-progress submissions has reached
    [max_attempts], even when a submission in progress exists; below the
    limit it returns the submission in progress when there is one; and
    otherwise, where the claim has it create a submission with attempt
    number count + 1, the new row without a score is refused by the
    validation and the handler answers with an internal error.  Whatever
    the outcome, the store is unchanged. *)
Theorem startQuiz_never_creates (db : DB.t) (now : Z)
    (new_id userId quiz_id : UUID) (quiz : Quiz.t) :
  DB.findQuiz db quiz_id = Some quiz -> Quiz.is_active quiz = true ->
  let count := countAttempts db userId quiz_id in
  let result := startQuiz db now new_id userId quiz_id in
  snd result = db
  /\ (forall i tl st n, fst result <> Success 201 (Started i tl st n))
  /\ ((Quiz.max_attempts quiz <= count)%Z ->
      fst result = Failure 400 "MAX_ATTEMPTS_REACHED")
  /\ ((count < Quiz.max_attempts quiz)%Z ->
      match findInProgress db userId quiz_id with
      | Some s =>
          fst result
          = Success 200 (Resumed (Submission.id s) (Submission.started_at s)
                                 (Quiz.time_limit_minutes quiz))
      | None => fst result = Failure 500 "Internal server error"
      end).
Proof.
  intros Hq Ha count result.
  split; [apply startQuiz_store|].
  assert (C3 : (Quiz.max_attempts quiz <= count)%Z ->
               fst result = Failure 400 "MAX_ATTEMPTS_REACHED").
  { intros Hc. unfold result.
    now rewrite (startQuiz_rejected db now new_id userId quiz_id quiz Hq Ha Hc). }
  assert (C4 : (count < Quiz.max_attempts quiz)%Z ->
      match findInProgress db userId quiz_id with
      | Some s =>
          fst result
          = Success 200 (Resumed (Submission.id s) (Submission.started_at s)
                                 (Quiz.time_limit_minutes quiz))
      | None => fst result = Failure 500 "Internal server error"
      end).
  { intros Hc. unfold result.
    destruct (findInProgress db userId quiz_id) as [s|] eqn:Hs.
    - now rewrite (startQuiz_resumed db now new_id userId quiz_id quiz s
                     Hq Ha Hc Hs).
    - now rewrite (startQuiz_create_fails db now new_id userId quiz_id quiz
                     Hq Ha Hc Hs). }
  split; [|split; assumption].
  intros i tl st n C.
  destruct (Z.le_gt_cases (Quiz.max_attempts quiz) count) as [Hc|Hc].
  - rewrite (C3 Hc) in C. discriminate.
  - specialize (C4 Hc).
    destruct (findInProgress db userId quiz_id); rewrite C4 in C; discriminate.
Qed.

Lemma startQuiz_never_creates_witness :
  startQuiz Sample.db 1000 7%N 2%N 4%N
  = (Failure 500 "Internal server error", Sample.db)
  /\ countAttempts Sample.db 2%N 4%N = 0%Z
  /\ Quiz.max_attempts Sample.single_attempt_quiz = 1%Z.
Proof.
  destruct (startQuiz_never_creates Sample.db 1000 7%N 2%N 4%N
              Sample.single_attempt_quiz eq_refl eq_refl)
    as [H1 [_ [_ H4]]].
  split; [|split; reflexivity].
  specialize (H4 ltac:(vm_compute; reflexivity)).
  change (findInProgress Sample.db 2%N 4%N) with (@None Submission.t) in H4.
  rewrite (surjective_pairing (startQuiz Sample.db 1000 7%N 2%N 4%N)).
  now rewrite H1, H4.
Defined.

(** ** The earned points of a graded submission *)

Lemma Math_round_scaled (pts : Z) (x : Q) :
  (0 <= pts)%Z -> 0 <= x -> x <= 1 ->
  (0 <= Math_round (inject_Z pts * x) <= pts)%Z.
Proof.
  intros Hp H0 H1.
  assert (Hq : 0 <= inject_Z pts).
  { change 0 with (inject_Z 0). now rewrite <- Zle_Qle. }
  split.
  - rewrite <- (Math_round_Z 0). apply Math_round_mono.
    change (inject_Z 0) with 0. nra.
  - rewrite <- (Math_round_Z pts) at 2. apply Math_round_mono. nra.
Qed.

Lemma similarity_unit (a b : string) :
  0 <= calculateSimilarity (toLowerCase a) (toLowerCase b)
  /\ calculateSimilarity (toLowerCase a) (toLowerCase b) <= 1.
Proof. apply (calculateSimilarity_unit (toLowerCase a) (toLowerCase b)). Qed.

(** Under the service contract an answer earns between 0 and the points of
    its question. *)
Lemma evaluate_points_bounded (this_bound : bool) (ai : AI.t) (n : nat)
    (q : Question.t) (ua : UserAnswer.t)
    (c : bool) (p : Z) (x : option string) (n' : nat) :
  Spec.service_contract ai -> (0 <= Question.points q)%Z ->
  evaluate this_bound ai n q ua = inr (c, p, x, n') ->
  (0 <= p <= Question.points q)%Z.
Proof.
  intros Hai Hp. unfold evaluate.
  assert (Hfb : forall e,
            AIService.evaluateAnswer (AI.available ai) (AI.evaluations ai n)
              (UserAnswer.answer ua) (Question.correct_answer q) = Some e ->
            0 <= AIService.Evaluation.partialCredit e
            /\ AIService.Evaluation.partialCredit e <= 1).
  { intros e. unfold AIService.evaluateAnswer.
    destruct (AI.available ai); simpl.
    - destruct (AI.evaluations ai n) as [| |e'] eqn:En.
      + intros E. injection E as <-. apply calculateSimilarity_unit.
      + discriminate.
      + intros E. injection E as <-. exact (Hai n e' En).
    - intros E. injection E as <-. apply calculateSimilarity_unit. }
  assert (Hopen :
    match AIService.evaluateAnswer (AI.available ai) (AI.evaluations ai n)
            (UserAnswer.answer ua) (Question.correct_answer q) with
    | Some evaluation =>
        inr (AIService.Evaluation.isCorrect evaluation,
             Math_round (inject_Z (Question.points q)
                         * AIService.Evaluation.partialCredit evaluation),
             Some (AIService.Evaluation.feedback evaluation),
             if AI.available ai then S n else n)
    | None =>
        if this_bound then
          inr (gt (calculateSimilarity (toLowerCase (UserAnswer.answer ua))
                     (toLowerCase (Question.correct_answer q))) (7 # 10),
               if gt (calculateSimilarity (toLowerCase (UserAnswer.answer ua))
                        (toLowerCase (Question.correct_answer q))) (7 # 10)
               then Question.points q
               else Math_round (inject_Z (Question.points q)
                      * calculateSimilarity (toLowerCase (UserAnswer.answer ua))
                          (toLowerCase (Question.correct_answer q))),
               None, if AI.available ai then S n else n)
        else inl TypeError
    end = inr (c, p, x, n') -> (0 <= p <= Question.points q)%Z).
  { destruct (AIService.evaluateAnswer _ _ _ _) as [e|] eqn:Ee.
    - intros E. injection E as _ <- _ _.
      destruct (Hfb e eq_refl). now apply Math_round_scaled.
    - destruct this_bound; [|discriminate].
      intros E. injection E as _ <- _ _.
      destruct (gt _ _); [lia|].
      destruct (similarity_unit (UserAnswer.answer ua) (Question.correct_answer q)).
      now apply Math_round_scaled. }
  destruct (Question.question_type q); try exact Hopen;
    intros E; injection E as _ <- _ _;
    destruct (String.eqb _ _); lia.
Qed.

Lemma points_where_mono (u u' : Question.t -> bool) (qs : list Question.t) :
  (forall q, In q qs -> (0 <= Question.points q)%Z) ->
  (forall q, u' q = true -> u q = true) ->
  (Spec.points_where u' qs <= Spec.points_where u qs)%Z.
Proof.
  intros Hp Hsub. induction qs as [|q r IH]; simpl; [lia|].
  assert (IH' := IH (fun x Hx => Hp x (or_intror Hx))).
  assert (Hq := Hp q (or_introl eq_refl)).
  destruct (u' q) eqn:E'; [rewrite (Hsub q E'); lia|].
  destruct (u q); lia.
Qed.

Lemma points_where_drop (u u' : Question.t -> bool) (qs : list Question.t)
    (q0 : Question.t) :
  (forall q, In q qs -> (0 <= Question.points q)%Z) ->
  (forall q, u' q = true -> u q = true) ->
  In q0 qs -> u q0 = true -> u' q0 = false ->
  (Spec.points_where u' qs + Question.points q0
   <= Spec.points_where u qs)%Z.
Proof.
  intros Hp Hsub Hin Hu Hu'. induction qs as [|q r IH]; [contradiction|].
  simpl. assert (Hq := Hp q (or_introl eq_refl)).
  assert (Hr : forall x, In x r -> (0 <= Question.points x)%Z)
    by (intros x Hx; apply Hp; now right).
  destruct Hin as [<-|Hin].
  - rewrite Hu, Hu'. pose proof (points_where_mono u u' r Hr Hsub). lia.
  - specialize (IH Hr Hin).
    destruct (u' q) eqn:E'; [rewrite (Hsub q E'); lia|].
    destruct (u q); lia.
Qed.

Lemma points_where_nonneg (u : Question.t -> bool) (qs : list Question.t) :
  (forall q, In q qs -> (0 <= Question.points q)%Z) ->
  (0 <= Spec.points_where u qs)%Z.
Proof.
  intros Hp. induction qs as [|q r IH]; simpl; [lia|].
  assert (Hq := Hp q (or_introl eq_refl)).
  assert (IH' := IH (fun x Hx => Hp x (or_intror Hx))).
  destruct (u q); lia.
Qed.

(** The sum [startQuiz] snapshots into [total_points_possible]. *)
Lemma points_where_all (qs : list Question.t) :
  fold_left (fun sum q => (sum + Question.points q)%Z) qs 0%Z
  = Spec.points_where (fun _ => true) qs.
Proof.
  assert (H : forall acc,
            fold_left (fun sum q => (sum + Question.points q)%Z) qs acc
            = (acc + Spec.points_where (fun _ => true) qs)%Z).
  { induction qs as [|q r IH]; intros acc; simpl; [lia|]. rewrite IH. lia. }
  rewrite H. lia.
Qed.

Lemma gradeAnswer_invariant (this_bound : bool) (ai : AI.t)
    (submission : Submission.t) (quiz : Quiz.t) (l l' : Loop.t)
    (ua : UserAnswer.t) :
  Spec.service_contract ai ->
  (forall q, In q (Quiz.questions quiz) -> (0 <= Question.points q)%Z) ->
  Spec.loop_invariant submission quiz l ->
  gradeAnswer this_bound ai submission quiz l ua = inr l' ->
  Spec.loop_invariant submission quiz l'.
Proof.
  intros Hai Hp [Hrows [H0 Hsum]]. unfold gradeAnswer.
  destruct (find _ (Quiz.questions quiz)) as [q|] eqn:Eq.
  2:{ intros E. injection E as <-. now repeat split. }
  apply find_some in Eq as [Hin Hid]. apply N.eqb_eq in Hid.
  destruct (evaluate this_bound ai (Loop.requests l) q ua)
    as [e|[[[c p] x] n]] eqn:Ev; [discriminate|].
  pose proof (evaluate_points_bounded _ _ _ _ _ _ _ _ _ Hai (Hp q Hin) Ev) as Hb.
  unfold DB.createAnswer.
  destruct (existsb _ (DB.answers (Loop.db l))) eqn:Ex; [discriminate|].
  simpl in Ex. intros E. injection E as <-.
  unfold Spec.loop_invariant. simpl. split; [|split].
  - intros r Hr. apply in_app_or in Hr as [Hr|[<-|[]]].
    + destruct (Hrows r Hr) as [row [Hrow Hrest]].
      exists row. split; [apply in_or_app; now left|exact Hrest].
    + eexists. split; [apply in_or_app; right; left; reflexivity|].
      split; reflexivity.
  - lia.
  - assert (Hu : Spec.ungraded (Loop.answerResults l) q = true).
    { unfold Spec.ungraded. apply negb_true_iff.
      destruct (existsb _ (Loop.answerResults l)) eqn:Er; [|reflexivity].
      apply existsb_exists in Er as [r [Hr Hrq]]. apply N.eqb_eq in Hrq.
      destruct (Hrows r Hr) as [row [Hrow [Hs Hqid]]].
      assert (Ht : existsb
                (fun r0 => (Answer.submission_id r0 =? Submission.id submission)%N
                           && (Answer.question_id r0 =? Question.id q)%N)
                (DB.answers (Loop.db l)) = true).
      { apply existsb_exists. exists row. split; [exact Hrow|].
        rewrite Hs, Hqid, Hrq, !N.eqb_refl. reflexivity. }
      congruence. }
    match goal with
    | |- context [Spec.ungraded (?rs ++ [?r])%list] =>
        pose proof (points_where_drop
                      (Spec.ungraded rs)
                      (Spec.ungraded (rs ++ [r])%list)
                      (Quiz.questions quiz) q Hp) as Hd
    end.
    assert (Hd' := Hd).
    lapply Hd'; clear Hd'.
    + intros Hd'. specialize (Hd' Hin Hu).
      lapply Hd'; [lia|].
      unfold Spec.ungraded. rewrite existsb_app. simpl.
      rewrite N.eqb_refl, orb_true_r. reflexivity.
    + intros y. unfold Spec.ungraded. rewrite existsb_app.
      rewrite negb_orb. intros Hy. now apply andb_prop in Hy as [Hy _].
Qed.

Lemma gradeAnswers_invariant (this_bound : bool) (ai : AI.t)
    (submission : Submission.t) (quiz : Quiz.t) (answers : list UserAnswer.t) :
  Spec.service_contract ai ->
  (forall q, In q (Quiz.questions quiz) -> (0 <= Question.points q)%Z) ->
  forall l,
    Spec.loop_invariant submission quiz l ->
    Spec.loop_invariant submission quiz
      (fst (gradeAnswers this_bound ai submission quiz answers l)).
Proof.
  intros Hai Hp. induction answers as [|ua rest IH]; intros l Hl; simpl;
    [exact Hl|].
  destruct (gradeAnswer this_bound ai submission quiz l ua) as [e|l'] eqn:E;
    [exact Hl|].
  apply IH. now apply (gradeAnswer_invariant this_bound ai submission quiz l l' ua).
Qed.

(** The points a completed submission has earned lie between 0 and the
    points snapshotted at the start, provided the evaluation service keeps
    its contract and no question has negative points; so the score of a
    successful submit lies between 0 and 100. *)
Lemma submitQuiz_score_in_range (this_bound : bool) (ai : AI.t)
    (db : DB.t) (now completedAt : Z) (user : User.t) (submission_id : UUID)
    (answers : list UserAnswer.t) (submission : Submission.t) (quiz : Quiz.t)
    (data : SubmitData.t) :
  find (fun s => (Submission.id s =? submission_id)%N
                 && (Submission.user_id s =? User.id user)%N)
       (DB.submissions db) = Some submission ->
  DB.findQuiz db (Submission.quiz_id submission) = Some quiz ->
  Submission.total_points_possible submission
  = fold_left (fun sum q => (sum + Question.points q)%Z)
              (Quiz.questions quiz) 0%Z ->
  Spec.service_contract ai ->
  (forall q, In q (Quiz.questions quiz) -> (0 <= Question.points q)%Z) ->
  fst (submitQuiz this_bound ai db now completedAt user submission_id answers)
  = Success 200 data ->
  let s := SubmitData.submission data in
  (0 <= Submission.total_points_earned s
   <= Submission.total_points_possible s)%Z
  /\ Submission.status s = completed
  /\ exists score,
       Submission.score_percentage s = Some score
       /\ 0 <= score /\ score <= 100.
Proof.
  intros Hfind Hquiz Hsnap Hai Hp. unfold submitQuiz. rewrite Hfind, Hquiz.
  destruct (negb _); [discriminate|].
  match goal with |- context [if ?b then _ else _] => destruct b end;
    [discriminate|].
  pose proof (gradeAnswers_invariant this_bound ai submission quiz answers
                Hai Hp
                {| Loop.db := db; Loop.answerResults := [];
                   Loop.totalPointsEarned := 0; Loop.correctAnswers := 0;
                   Loop.requests := 0 |}) as Hinv.
  lapply Hinv; clear Hinv.
  2:{ unfold Spec.loop_invariant. simpl. split; [intros r []|].
      split; [lia|]. apply Z.eq_le_incl. reflexivity. }
  intros [_ [H0 Hsum]].
  destruct (gradeAnswers this_bound ai submission quiz answers _)
    as [l [e|]]; [discriminate|].
  simpl fst in H0, Hsum.
  destruct this_bound; [|discriminate].
  simpl. intros E. injection E as <-. simpl.
  pose proof (points_where_nonneg
                (Spec.ungraded (Loop.answerResults l))
                (Quiz.questions quiz) Hp) as Hn.
  rewrite points_where_all in Hsnap.
  assert (Hrange : (0 <= Loop.totalPointsEarned l
                    <= Submission.total_points_possible submission)%Z) by lia.
  split; [exact Hrange|]. split; [reflexivity|].
  eexists. split; [reflexivity|].
  unfold Submission.calculateScore. simpl.
  destruct (Submission.total_points_possible submission =? 0)%Z eqn:Ez.
  - split; lra.
  - apply Z.eqb_neq in Ez. apply round_100_range; apply Qdiv_Z_percent; lia.
Qed.

(** * Further properties of the modelled code *)

(** ** Similarity and fallback evaluation *)

Lemma count_present_le (wa wb : list string) :
  (Spec.count_present wa wb <= List.length wa)%nat.
Proof.
  induction wa as [|w r IH]; simpl; [lia|].
  destruct (in_dec string_dec w wb); lia.
Qed.

Lemma count_present_all (wa wb : list string) :
  Spec.count_present wa wb = List.length wa <-> (forall w, In w wa -> In w wb).
Proof.
  induction wa as [|w r IH]; simpl.
  - split; [intros _ x []|reflexivity].
  - pose proof (count_present_le r wb) as Hle.
    destruct (in_dec string_dec w wb) as [Hin|Hnin].
    + split.
      * intros H x [<-|Hx]; [exact Hin|]. apply IH; [lia|exact Hx].
      * intros H. simpl. f_equal. apply IH. intros x Hx. apply H. now right.
    + split; [lia|]. intros H. exfalso. apply Hnin. apply H. now left.
Qed.

Lemma div_nat_one (n m : nat) : (1 <= m)%nat -> (div_nat n m == 1 <-> n = m).
Proof.
  intros Hm. unfold div_nat, Qdiv, Qeq, Qmult, Qinv, inject_Z. simpl.
  destruct (Z.of_nat m) eqn:E; try lia. simpl. lia.
Qed.

(** X1.  The similarity is 1 exactly when every word of the first text occurs in
    the second and the second has no more words than the first. *)
Theorem calculateSimilarity_one_iff (text1 text2 : string) :
  AIService.calculateSimilarity text1 text2 == 1
  <-> (forall w, In w (split_ws text1) -> In w (split_ws text2))
      /\ (List.length (split_ws text2) <= List.length (split_ws text1))%nat.
Proof.
  unfold AIService.calculateSimilarity. rewrite commonWords_count.
  pose proof (split_ws_length text1) as H1.
  pose proof (count_present_le (split_ws text1) (split_ws text2)) as Hle.
  rewrite div_nat_one by lia. rewrite <- count_present_all. lia.
Qed.

Lemma calculateSimilarity_same (text : string) :
  AIService.calculateSimilarity text text == 1.
Proof.
  unfold AIService.calculateSimilarity. rewrite commonWords_count.
  pose proof (split_ws_length text) as H1.
  rewrite div_nat_one by lia. rewrite Nat.max_id.
  apply (count_present_all (split_ws text) (split_ws text)). auto.
Qed.

Lemma Math_round_le_Z (x : Q) (k : Z) :
  x <= inject_Z k -> (Math_round x <= k)%Z.
Proof.
  intros H. rewrite <- (Math_round_Z k). now apply Math_round_mono.
Qed.

Lemma Math_round_ge_Z (x : Q) (k : Z) :
  inject_Z k <= x -> (k <= Math_round x)%Z.
Proof.
  intros H. rewrite <- (Math_round_Z k) at 1. now apply Math_round_mono.
Qed.

Lemma Math_round_comp (x y : Q) : x == y -> Math_round x = Math_round y.
Proof. intros H. unfold Math_round. now rewrite H. Qed.

Lemma gt_comp (x y z : Q) : x == y -> gt x z = gt y z.
Proof.
  intros H. destruct (gt y z) eqn:E.
  - apply gt_true. apply gt_true in E. now rewrite H.
  - destruct (gt x z) eqn:E'; [|reflexivity].
    apply gt_true in E'. rewrite H in E'. apply gt_true in E'. congruence.
Qed.

(** X2.  An answer equal to the reference answer up to letter case is marked
    correct and earns all the points of its question on every grading path
    that does not use a reply of the model: exact match for choice and
    true/false questions, either similarity fallback for open questions. *)
Theorem evaluate_same_answer_full_points (ai : AI.t) (n : nat)
    (q : Question.t) (ua : UserAnswer.t) :
  toLowerCase (UserAnswer.answer ua) = toLowerCase (Question.correct_answer q) ->
  (forall e, AI.available ai = true -> AI.evaluations ai n <> AIService.Parsed e) ->
  exists explanation requests,
    evaluate true ai n q ua
    = inr (true, Question.points q, explanation, requests).
Proof.
  intros Heq Hno. unfold evaluate.
  assert (Hs : calculateSimilarity (toLowerCase (UserAnswer.answer ua))
                 (toLowerCase (Question.correct_answer q)) == 1).
  { rewrite Heq. apply calculateSimilarity_same. }
  assert (Hgt : gt (calculateSimilarity (toLowerCase (UserAnswer.answer ua))
                      (toLowerCase (Question.correct_answer q))) (7 # 10) = true).
  { rewrite (gt_comp _ 1 _ Hs). reflexivity. }
  assert (Hopen : exists explanation requests,
    match AIService.evaluateAnswer (AI.available ai) (AI.evaluations ai n)
            (UserAnswer.answer ua) (Question.correct_answer q) with
    | Some evaluation =>
        inr (AIService.Evaluation.isCorrect evaluation,
             Math_round (inject_Z (Question.points q)
                         * AIService.Evaluation.partialCredit evaluation),
             Some (AIService.Evaluation.feedback evaluation),
             if AI.available ai then S n else n)
    | None =>
        let similarity :=
          calculateSimilarity (toLowerCase (UserAnswer.answer ua))
            (toLowerCase (Question.correct_answer q)) in
        let isCorrect := gt similarity (7 # 10) in
        inr (isCorrect,
             if isCorrect then Question.points q
             else Math_round (inject_Z (Question.points q) * similarity),
             None, if AI.available ai then S n else n)
    end = inr (true, Question.points q, explanation, requests) :> exn + _).
  { assert (Hfb : AIService.fallbackEvaluation (UserAnswer.answer ua)
                    (Question.correct_answer q)
                  = {| AIService.Evaluation.isCorrect := true;
                       AIService.Evaluation.score :=
                         Math_round (AIService.calculateSimilarity
                                       (toLowerCase (UserAnswer.answer ua))
                                       (toLowerCase (Question.correct_answer q)) * 100);
                       AIService.Evaluation.feedback := "Good answer!";
                       AIService.Evaluation.partialCredit :=
                         AIService.calculateSimilarity
                           (toLowerCase (UserAnswer.answer ua))
                           (toLowerCase (Question.correct_answer q)) |}).
    { unfold AIService.fallbackEvaluation.
      change (AIService.calculateSimilarity ?a ?b) with (calculateSimilarity a b).
      now rewrite Hgt. }
    assert (Hpts : Math_round (inject_Z (Question.points q)
                     * AIService.calculateSimilarity
                         (toLowerCase (UserAnswer.answer ua))
                         (toLowerCase (Question.correct_answer q)))
                   = Question.points q).
    { rewrite <- (Math_round_Z (Question.points q)) at 2.
      apply Math_round_comp.
      change (AIService.calculateSimilarity ?a ?b) with (calculateSimilarity a b).
      rewrite Hs. ring. }
    unfold AIService.evaluateAnswer.
    destruct (AI.available ai) eqn:Ea; simpl negb; cbv iota.
    - destruct (AI.evaluations ai n) as [| |e] eqn:En.
      + rewrite Hfb. cbn [AIService.Evaluation.isCorrect
                          AIService.Evaluation.partialCredit
                          AIService.Evaluation.feedback].
        rewrite Hpts. eexists. eexists. reflexivity.
      + cbv zeta. rewrite Hgt. eexists. eexists. reflexivity.
      + exfalso. exact (Hno e eq_refl eq_refl).
    - rewrite Hfb. cbn [AIService.Evaluation.isCorrect
                        AIService.Evaluation.partialCredit
                        AIService.Evaluation.feedback].
      rewrite Hpts. eexists. eexists. reflexivity. }
  destruct (Question.question_type q); try exact Hopen;
    rewrite Heq, String.eqb_refl; eexists; eexists; reflexivity.
Qed.

Lemma evaluate_same_answer_full_points_witness :
  exists explanation requests,
    evaluate true Sample.ai_failing 0 Sample.choice_question Sample.choice_answer
    = inr (true, 5%Z, explanation, requests).
Proof.
  apply (evaluate_same_answer_full_points Sample.ai_failing 0
           Sample.choice_question Sample.choice_answer).
  - reflexivity.
  - intros e _. discriminate.
Defined.

(** X3.  The fallback evaluation is coherent: the partial credit lies in [0, 1],
    the score in [0, 100]; an answer marked correct scores at least 70, one
    marked incorrect at most 70; and the feedback praises exactly the
    answers marked correct. *)
Theorem fallbackEvaluation_coherent (userAnswer correctAnswer : string) :
  let e := AIService.fallbackEvaluation userAnswer correctAnswer in
  0 <= AIService.Evaluation.partialCredit e
  /\ AIService.Evaluation.partialCredit e <= 1
  /\ (0 <= AIService.Evaluation.score e <= 100)%Z
  /\ (AIService.Evaluation.isCorrect e = true ->
      (70 <= AIService.Evaluation.score e)%Z)
  /\ (AIService.Evaluation.isCorrect e = false ->
      (AIService.Evaluation.score e <= 70)%Z)
  /\ (AIService.Evaluation.feedback e = "Good answer!"
      <-> AIService.Evaluation.isCorrect e = true).
Proof.
  intros e. unfold e, AIService.fallbackEvaluation. simpl.
  set (s := AIService.calculateSimilarity (toLowerCase userAnswer)
              (toLowerCase correctAnswer)).
  destruct (calculateSimilarity_unit (toLowerCase userAnswer)
              (toLowerCase correctAnswer)) as [H0 H1]. fold s in H0, H1.
  split; [exact H0|]. split; [exact H1|].
  split.
  { split.
    - apply Math_round_ge_Z. change (inject_Z 0) with 0. lra.
    - apply Math_round_le_Z. change (inject_Z 100) with 100. lra. }
  split.
  { intros Hc. apply gt_true in Hc.
    apply Math_round_ge_Z. change (inject_Z 70) with 70. lra. }
  split.
  { intros Hc. apply Math_round_le_Z. change (inject_Z 70) with 70.
    destruct (Qlt_le_dec (7 # 10) s) as [Hlt|Hle]; [|lra].
    apply gt_true in Hlt. congruence. }
  destruct (gt s (7 # 10)); split; intros H; try reflexivity; discriminate.
Qed.

Lemma fallbackEvaluation_coherent_witness :
  (70 <= AIService.Evaluation.score
           (AIService.fallbackEvaluation "a b c x" "a b c d"))%Z.
Proof.
  destruct (fallbackEvaluation_coherent "a b c x" "a b c d")
    as [_ [_ [_ [H _]]]].
  apply H. reflexivity.
Defined.

(** ** Trend *)

(** The service and the controller each define [calculateTrend]; although
    they name their halves in opposite ways, the two compute the same
    number on every list: mean of the slice from the middle on, minus mean
    of the slice before the middle. *)
Lemma calculateTrend_copies_agree (scores : list Q) :
  SubmissionQueries.calculateTrend scores = AIService.calculateTrend scores.
Proof. reflexivity. Qed.

Lemma Forall_firstn {A : Type} (P : A -> Prop) (n : nat) (l : list A) :
  Forall P l -> Forall P (firstn n l).
Proof.
  intros H. rewrite <- (firstn_skipn n l) in H.
  now apply Forall_app in H.
Qed.

Lemma Forall_skipn {A : Type} (P : A -> Prop) (n : nat) (l : list A) :
  Forall P l -> Forall P (skipn n l).
Proof.
  intros H. rewrite <- (firstn_skipn n l) in H.
  now apply Forall_app in H.
Qed.

(** ** Adaptive difficulty: coherence and locality *)

(** X5.  Whatever the history, an analysis object names one of the four
    difficulties, its reasoning sentence is the one of the branch that
    chose the difficulty, "hard" never comes with a declining trend, and
    the trend "unknown" only comes with the cold-start default. *)
Theorem adaptQuizDifficulty_coherent (h : AIService.UserHistory)
    (a : AIService.Analysis.t) :
  AIService.adaptQuizDifficulty h = AIService.RObject a ->
  In (AIService.Analysis.difficulty a) ["easy"; "medium"; "hard"; "mixed"]
  /\ (AIService.Analysis.difficulty a = "hard"
      <-> AIService.Analysis.reasoning a
          = "You're doing great! Ready for more challenging questions.")
  /\ (AIService.Analysis.difficulty a = "medium"
      <-> AIService.Analysis.reasoning a
          = "Good progress! Continuing with moderate difficulty.")
  /\ (AIService.Analysis.difficulty a = "easy"
      <-> AIService.Analysis.reasoning a
          = "Let's focus on building confidence with easier questions.")
  /\ (AIService.Analysis.difficulty a = "hard" ->
      AIService.Analysis.trend a = "improving"
      \/ AIService.Analysis.trend a = "stable")
  /\ (AIService.Analysis.trend a = "unknown" ->
      AIService.Analysis.difficulty a = "mixed"
      /\ AIService.Analysis.averageScore a = 0).
Proof.
  unfold AIService.adaptQuizDifficulty.
  destruct (AIService.adaptQuizDifficulty_try h) as [e|r] eqn:E.
  - intros H. injection H as <-. simpl.
    repeat split; try discriminate; auto.
  - intros ->. unfold AIService.adaptQuizDifficulty_try in E.
    destruct h as [|items|]; try discriminate.
    destruct (List.length items =? 0)%nat; [discriminate|].
    destruct (AIService.scores_of (slice_last 5 items)) as [e|scores];
      [discriminate|].
    injection E as <-. unfold AIService.getDifficultyReasoning. simpl.
    set (avg := sumQ scores / _). set (t := AIService.calculateTrend scores).
    unfold gt, lt, geq.
    destruct (Qle_bool 85 avg), (Qle_bool 0 t) eqn:Et, (Qle_bool 70 avg),
      (Qle_bool avg 60), (Qle_bool 60 avg), (Qle_bool t 0); simpl;
      repeat split; try discriminate; auto 6.
Qed.

Lemma adaptQuizDifficulty_coherent_witness :
  AIService.get_trend
    (AIService.adaptQuizDifficulty
       (AIService.HArray (Sample.history_of [90; 95])))
  = Some "improving".
Proof.
  destruct (AIService.adaptQuizDifficulty
              (AIService.HArray (Sample.history_of [90; 95]))) as [s|a] eqn:E;
    [discriminate|].
  destruct (adaptQuizDifficulty_coherent _ a E) as [_ [_ [_ [_ [H _]]]]].
  assert (Hd : AIService.Analysis.difficulty a = "hard").
  { vm_compute in E. injection E as <-. reflexivity. }
  destruct (H Hd) as [Ht|Ht]; simpl; rewrite Ht; [reflexivity|].
  exfalso. vm_compute in E. injection E as <-. discriminate.
Defined.

Lemma slice_last_app {A : Type} (n : nat) (older recent : list A) :
  (n <= List.length recent)%nat ->
  slice_last n (older ++ recent) = slice_last n recent.
Proof.
  intros H. unfold slice_last. rewrite length_app.
  replace (List.length older + List.length recent - n)%nat
    with (List.length older + (List.length recent - n))%nat by lia.
  rewrite skipn_app.
  replace (List.length older + (List.length recent - n) - List.length older)%nat
    with (List.length recent - n)%nat by lia.
  rewrite skipn_all2 by lia. reflexivity.
Qed.

(** X6.  Only the last five items of the array count: whatever precedes them,
    null items included, does not change the analysis. *)
Theorem adaptQuizDifficulty_last_five_only
    (older recent : list (option AIService.HistoryItem.t)) :
  (5 <= List.length recent)%nat ->
  AIService.adaptQuizDifficulty (AIService.HArray (older ++ recent))
  = AIService.adaptQuizDifficulty (AIService.HArray recent).
Proof.
  intros H. unfold AIService.adaptQuizDifficulty, AIService.adaptQuizDifficulty_try.
  rewrite slice_last_app by exact H.
  assert (E1 : (List.length (older ++ recent) =? 0)%nat = false).
  { apply Nat.eqb_neq. rewrite length_app. lia. }
  assert (E2 : (List.length recent =? 0)%nat = false).
  { apply Nat.eqb_neq. lia. }
  now rewrite E1, E2.
Qed.

Lemma adaptQuizDifficulty_last_five_only_witness :
  AIService.adaptQuizDifficulty
    (AIService.HArray ([None] ++ Sample.history_of [90; 90; 90; 90; 10]))
  = AIService.adaptQuizDifficulty
      (AIService.HArray (Sample.history_of [90; 90; 90; 90; 10])).
Proof.
  apply adaptQuizDifficulty_last_five_only. simpl. lia.
Defined.

(** ** Grades *)

Lemma rank_up (s : Q) (k r : Z) :
  45 + 5 * inject_Z r <= s -> (k <= r)%Z -> 45 + 5 * inject_Z k <= s.
Proof. intros H Hk. rewrite Zle_Qle in Hk. lra. Qed.

Lemma rank_down (s : Q) (k r : Z) :
  s < 45 + 5 * inject_Z (r + 1) -> 45 + 5 * inject_Z k <= s -> (k <= r)%Z.
Proof.
  intros H Hk. assert (Hlt : inject_Z k < inject_Z (r + 1)) by lra.
  rewrite <- Zlt_Qlt in Hlt. lia.
Qed.

(** The grade of rank [k] (1 to 9) starts at 45 + 5k percent. *)
Lemma getGrade_rank_ge (s : Q) (k : Z) :
  (1 <= k <= 9)%Z ->
  ((k <= Aux.grade_rank (getGrade s))%Z <-> 45 + 5 * inject_Z k <= s).
Proof.
  intros Hk.
  assert (R : forall t, Qle_bool t s = true -> t <= s)
    by (intros t; apply Qle_bool_iff).
  assert (N : forall t, Qle_bool t s = false -> s < t).
  { intros t H. apply Qnot_le_lt. intros C. apply Qle_bool_iff in C.
    congruence. }
  unfold getGrade, geq.
  destruct (Qle_bool 90 s) eqn:E90.
  { apply R in E90. change (Aux.grade_rank "A+") with 9%Z.
    split; [apply rank_up; exact E90|lia]. }
  apply N in E90.
  destruct (Qle_bool 85 s) eqn:E85.
  { apply R in E85. change (Aux.grade_rank "A") with 8%Z.
    split; [apply rank_up; exact E85|apply rank_down; exact E90]. }
  apply N in E85.
  destruct (Qle_bool 80 s) eqn:E80.
  { apply R in E80. change (Aux.grade_rank "A-") with 7%Z.
    split; [apply rank_up; exact E80|apply rank_down; exact E85]. }
  apply N in E80.
  destruct (Qle_bool 75 s) eqn:E75.
  { apply R in E75. change (Aux.grade_rank "B+") with 6%Z.
    split; [apply rank_up; exact E75|apply rank_down; exact E80]. }
  apply N in E75.
  destruct (Qle_bool 70 s) eqn:E70.
  { apply R in E70. change (Aux.grade_rank "B") with 5%Z.
    split; [apply rank_up; exact E70|apply rank_down; exact E75]. }
  apply N in E70.
  destruct (Qle_bool 65 s) eqn:E65.
  { apply R in E65. change (Aux.grade_rank "B-") with 4%Z.
    split; [apply rank_up; exact E65|apply rank_down; exact E70]. }
  apply N in E65.
  destruct (Qle_bool 60 s) eqn:E60.
  { apply R in E60. change (Aux.grade_rank "C+") with 3%Z.
    split; [apply rank_up; exact E60|apply rank_down; exact E65]. }
  apply N in E60.
  destruct (Qle_bool 55 s) eqn:E55.
  { apply R in E55. change (Aux.grade_rank "C") with 2%Z.
    split; [apply rank_up; exact E55|apply rank_down; exact E60]. }
  apply N in E55.
  destruct (Qle_bool 50 s) eqn:E50.
  { apply R in E50. change (Aux.grade_rank "C-") with 1%Z.
    split; [apply rank_up; exact E50|apply rank_down; exact E55]. }
  apply N in E50. change (Aux.grade_rank "F") with 0%Z.
  split; [lia|apply rank_down; exact E50].
Qed.

Lemma grade_rank_range (s : Q) : (0 <= Aux.grade_rank (getGrade s) <= 9)%Z.
Proof.
  unfold getGrade.
  repeat match goal with
         | |- context [if ?b then _ else _] => destruct b
         end; vm_compute; split; discriminate.
Qed.

(** X7.  A higher score never gets a worse grade; the grade is F exactly below
    50 and A+ exactly from 90 on. *)
Theorem getGrade_monotone (s1 s2 : Q) :
  s1 <= s2 ->
  (Aux.grade_rank (getGrade s1) <= Aux.grade_rank (getGrade s2))%Z
  /\ (getGrade s1 = "F" <-> s1 < 50)
  /\ (getGrade s1 = "A+" <-> 90 <= s1).
Proof.
  intros H. split; [|split].
  - pose proof (grade_rank_range s1) as Hr.
    destruct (Z.eq_dec (Aux.grade_rank (getGrade s1)) 0) as [E|E];
      [rewrite E; apply grade_rank_range|].
    apply (getGrade_rank_ge s2); [lia|].
    assert (H1 : 45 + 5 * inject_Z (Aux.grade_rank (getGrade s1)) <= s1).
    { apply (getGrade_rank_ge s1); lia. }
    lra.
  - pose proof (getGrade_rank_ge s1 1 ltac:(lia)) as H1.
    change (inject_Z 1) with 1 in H1.
    pose proof (grade_rank_range s1) as Hr.
    split.
    + intros E. rewrite E in H1. change (Aux.grade_rank "F") with 0%Z in H1.
      destruct (Qlt_le_dec s1 50) as [Hlt|Hge]; [exact Hlt|].
      assert (C : (1 <= 0)%Z) by (apply H1; lra). lia.
    + intros Hlt. unfold getGrade, geq.
      assert (F : forall t, 50 <= t -> Qle_bool t s1 = false).
      { intros t Ht. destruct (Qle_bool t s1) eqn:Eb; [|reflexivity].
        apply Qle_bool_iff in Eb. lra. }
      rewrite !F by lra. reflexivity.
  - split.
    + intros E. pose proof (getGrade_rank_ge s1 9 ltac:(lia)) as H9.
      rewrite E in H9. change (Aux.grade_rank "A+") with 9%Z in H9.
      change (inject_Z 9) with 9 in H9.
      assert (C : 45 + 5 * 9 <= s1) by (apply H9; lia). lra.
    + intros Hge. unfold getGrade, geq.
      assert (T : Qle_bool 90 s1 = true) by (now apply Qle_bool_iff).
      now rewrite T.
Qed.

Lemma getGrade_monotone_witness :
  (Aux.grade_rank (getGrade (8999 # 100)) <= Aux.grade_rank (getGrade 90))%Z.
Proof.
  apply (getGrade_monotone (8999 # 100) 90). unfold Qle. simpl. lia.
Defined.

(** ** Rolling statistics over many quizzes *)

Lemma updateStats_step (u : User.t) (s : Q) :
  (0 <= User.total_quizzes_attempted u)%Z ->
  0 <= User.average_score u -> User.average_score u <= 100 ->
  0 <= s -> s <= 100 ->
  (0 <= User.total_quizzes_attempted (User.updateStats u s))%Z
  /\ User.total_quizzes_attempted (User.updateStats u s)
     = (User.total_quizzes_attempted u + 1)%Z
  /\ 0 <= User.average_score (User.updateStats u s)
  /\ User.average_score (User.updateStats u s) <= 100.
Proof.
  intros Hn Ha0 Ha1 Hs0 Hs1. unfold User.updateStats. simpl.
  split; [lia|]. split; [reflexivity|].
  set (n := User.total_quizzes_attempted u) in *.
  assert (Hq : 0 <= inject_Z n).
  { change 0 with (inject_Z 0). now rewrite <- Zle_Qle. }
  assert (Hd : 0 < inject_Z (n + 1)).
  { change 0 with (inject_Z 0). rewrite <- Zlt_Qlt. lia. }
  assert (Hn1 : inject_Z (n + 1) == inject_Z n + 1).
  { rewrite inject_Z_plus. reflexivity. }
  apply round_100_range.
  - apply Qle_shift_div_l; [exact Hd|]. nra.
  - apply Qle_shift_div_r; [exact Hd|]. rewrite Hn1. nra.
Qed.

(** X8.  Starting from a non-negative count and an average within [0, 100],
    any series of scores within [0, 100] leaves the average within
    [0, 100] and raises the count by the number of scores. *)
Theorem updateStats_series (scores : list Q) (u : User.t) :
  (0 <= User.total_quizzes_attempted u)%Z ->
  0 <= User.average_score u -> User.average_score u <= 100 ->
  Forall (fun s => 0 <= s /\ s <= 100) scores ->
  User.total_quizzes_attempted (Aux.after_scores u scores)
  = (User.total_quizzes_attempted u + Z.of_nat (List.length scores))%Z
  /\ 0 <= User.average_score (Aux.after_scores u scores)
  /\ User.average_score (Aux.after_scores u scores) <= 100.
Proof.
  intros Hn Ha0 Ha1 Hall. revert u Hn Ha0 Ha1.
  induction Hall as [|s r [Hs0 Hs1] _ IH]; intros u Hn Ha0 Ha1.
  - simpl. split; [lia|]. now split.
  - unfold Aux.after_scores. cbn [fold_left]. fold (Aux.after_scores (User.updateStats u s) r).
    destruct (updateStats_step u s Hn Ha0 Ha1 Hs0 Hs1) as [Hn' [Hc [Hb0 Hb1]]].
    destruct (IH _ Hn' Hb0 Hb1) as [Hc' Hb'].
    split; [|exact Hb'].
    rewrite Hc', Hc. cbn [List.length]. lia.
Qed.

Lemma updateStats_series_witness :
  User.total_quizzes_attempted (Aux.after_scores Sample.user [100; 0; 50]) = 5%Z
  /\ User.average_score (Aux.after_scores Sample.user [100; 0; 50]) <= 100.
Proof.
  destruct (updateStats_series [100; 0; 50] Sample.user) as [H1 [_ H2]].
  - simpl. lia.
  - simpl. lra.
  - simpl. lra.
  - repeat constructor; lra.
  - split; [exact H1|exact H2].
Defined.

(** ** What a submit changes *)

Lemma gradeAnswer_log (this_bound : bool) (ai : AI.t)
    (submission : Submission.t) (quiz : Quiz.t) (l l' : Loop.t)
    (ua : UserAnswer.t) :
  gradeAnswer this_bound ai submission quiz l ua = inr l' ->
  l' = l
  \/ exists row r,
       DB.answers (Loop.db l') = (DB.answers (Loop.db l) ++ [row])%list
       /\ DB.submissions (Loop.db l') = DB.submissions (Loop.db l)
       /\ DB.users (Loop.db l') = DB.users (Loop.db l)
       /\ DB.quizzes (Loop.db l') = DB.quizzes (Loop.db l)
       /\ Loop.answerResults l' = (Loop.answerResults l ++ [r])%list
       /\ Answer.submission_id row = Submission.id submission
       /\ Answer.question_id row = AnswerResult.question_id r
       /\ Answer.is_correct row = AnswerResult.is_correct r
       /\ Answer.points_earned row = AnswerResult.points_earned r
       /\ Loop.totalPointsEarned l'
          = (Loop.totalPointsEarned l + Answer.points_earned row)%Z
       /\ Loop.correctAnswers l'
          = (Loop.correctAnswers l
             + if Answer.is_correct row then 1 else 0)%Z
       /\ existsb (fun a => (Answer.submission_id a =? Submission.id submission)%N
                            && (Answer.question_id a =? Answer.question_id row)%N)
                  (DB.answers (Loop.db l)) = false.
Proof.
  unfold gradeAnswer.
  destruct (find _ (Quiz.questions quiz)) as [q|];
    [|intros E; injection E as <-; now left].
  destruct (evaluate this_bound ai (Loop.requests l) q ua)
    as [e|[[[c p] x] n]]; [discriminate|].
  unfold DB.createAnswer.
  destruct (existsb _ (DB.answers (Loop.db l))) eqn:Ex; [discriminate|].
  intros E. injection E as <-. right. eexists. eexists. simpl.
  repeat split; try reflexivity.
  - simpl. destruct c; lia.
  - exact Ex.
Qed.

(** The log of a run of the answer loop: the rows it appended, all of the
    submission, one per result, and the totals it accumulated. *)
Lemma gradeAnswers_log (this_bound : bool) (ai : AI.t)
    (submission : Submission.t) (quiz : Quiz.t) (answers : list UserAnswer.t) :
  forall l,
    let l' := fst (gradeAnswers this_bound ai submission quiz answers l) in
    exists rows results,
      DB.answers (Loop.db l') = (DB.answers (Loop.db l) ++ rows)%list
      /\ DB.submissions (Loop.db l') = DB.submissions (Loop.db l)
      /\ DB.users (Loop.db l') = DB.users (Loop.db l)
      /\ DB.quizzes (Loop.db l') = DB.quizzes (Loop.db l)
      /\ Loop.answerResults l' = (Loop.answerResults l ++ results)%list
      /\ Forall (fun a => Answer.submission_id a = Submission.id submission) rows
      /\ map Answer.question_id rows = map AnswerResult.question_id results
      /\ map Answer.is_correct rows = map AnswerResult.is_correct results
      /\ Loop.totalPointsEarned l'
         = (Loop.totalPointsEarned l + Aux.points_of rows)%Z
      /\ Loop.correctAnswers l'
         = (Loop.correctAnswers l
            + Z.of_nat (List.length (filter Answer.is_correct rows)))%Z.
Proof.
  induction answers as [|ua rest IH]; intros l; simpl.
  - exists [], []. rewrite !app_nil_r. simpl. repeat split; try lia. constructor.
  - destruct (gradeAnswer this_bound ai submission quiz l ua) as [e|l1] eqn:E.
    + exists [], []. rewrite !app_nil_r. simpl. repeat split; try lia.
      constructor.
    + destruct (IH l1) as [rows [results H]].
      destruct H as [Ha [Hs [Hu [Hq [Hr [Hf [Hi [Hc [Ht Hn]]]]]]]]].
      apply gradeAnswer_log in E as [->|[row [r E]]].
      * exists rows, results. repeat split; assumption.
      * destruct E as [Ea [Es [Eu [Eq [Er [Esid [Eid [Ec [Ep [Et [En _]]]]]]]]]]].
        exists (row :: rows), (r :: results).
        split; [rewrite Ha, Ea, <- app_assoc; reflexivity|].
        split; [congruence|]. split; [congruence|]. split; [congruence|].
        split; [rewrite Hr, Er, <- app_assoc; reflexivity|].
        split; [constructor; assumption|].
        split; [simpl; congruence|]. split; [simpl; congruence|].
        split.
        -- rewrite Ht, Et. simpl. lia.
        -- rewrite Hn, En. cbn [filter].
           destruct (Answer.is_correct row); cbn [List.length]; lia.
Qed.

(** X9.  Whatever its outcome, a submit leaves the quizzes alone, keeps every
    answer row there was and adds rows of the submitted submission only,
    changes no submission other than the submitted one and no user other
    than the caller, and neither adds nor removes a submission or a user. *)
Theorem submitQuiz_frame (this_bound : bool) (ai : AI.t) (db : DB.t)
    (now completedAt : Z) (user : User.t) (submission_id : UUID)
    (answers : list UserAnswer.t) :
  let db' :=
    snd (submitQuiz this_bound ai db now completedAt user submission_id answers) in
  DB.quizzes db' = DB.quizzes db
  /\ (exists rows,
        DB.answers db' = (DB.answers db ++ rows)%list
        /\ Forall (fun a => Answer.submission_id a = submission_id) rows)
  /\ (exists f,
        DB.submissions db' = map f (DB.submissions db)
        /\ forall r, Submission.id r <> submission_id -> f r = r)
  /\ (exists g,
        DB.users db' = map g (DB.users db)
        /\ forall r, User.id r <> User.id user -> g r = r).
Proof.
  assert (Hid : forall {A} (l : list A), l = map (fun r => r) l)
    by (intros A l; now rewrite map_id).
  assert (Same : forall d : DB.t,
    DB.quizzes d = DB.quizzes d
    /\ (exists rows, DB.answers d = (DB.answers d ++ rows)%list
          /\ Forall (fun a => Answer.submission_id a = submission_id) rows)
    /\ (exists f, DB.submissions d = map f (DB.submissions d)
          /\ forall r, Submission.id r <> submission_id -> f r = r)
    /\ (exists g, DB.users d = map g (DB.users d)
          /\ forall r, User.id r <> User.id user -> g r = r)).
  { intros d. split; [reflexivity|]. split; [|split].
    - exists []. split; [now rewrite app_nil_r|constructor].
    - exists (fun r => r). split; [apply Hid|reflexivity].
    - exists (fun r => r). split; [apply Hid|reflexivity]. }
  unfold submitQuiz.
  destruct (find _ (DB.submissions db)) as [submission|] eqn:Hfind;
    [|apply Same].
  assert (Hsid : Submission.id submission = submission_id).
  { apply find_some in Hfind as [_ H]. apply andb_prop in H as [H _].
    now apply N.eqb_eq in H. }
  destruct (negb _); [apply Same|].
  destruct (DB.findQuiz db _) as [quiz|]; [|apply Same].
  match goal with |- context [if ?b then _ else _] => destruct b end.
  { simpl. split; [reflexivity|]. split; [|split].
    - exists []. split; [now rewrite app_nil_r|constructor].
    - eexists. split; [reflexivity|]. intros r Hr. cbv beta.
      rewrite Hsid. apply N.eqb_neq in Hr. now rewrite Hr.
    - exists (fun r => r). split; [apply Hid|reflexivity]. }
  match goal with
  | |- context [gradeAnswers this_bound ai submission quiz answers ?l0] =>
      pose proof (gradeAnswers_log this_bound ai submission quiz answers l0) as Hlog;
      destruct (gradeAnswers this_bound ai submission quiz answers l0)
        as [l [e|]]
  end; simpl in Hlog;
    destruct Hlog as [rows [results [Ha [Hs [Hu [Hq [_ [Hf _]]]]]]]].
  - simpl. rewrite Hq, Ha, Hs, Hu. split; [reflexivity|]. split; [|split].
    + exists rows. split; [reflexivity|]. now rewrite <- Hsid.
    + exists (fun r => r). split; [apply Hid|reflexivity].
    + exists (fun r => r). split; [apply Hid|reflexivity].
  - assert (G : forall (X : Response SubmitData.t) (d : DB.t),
              DB.quizzes d = DB.quizzes db ->
              DB.answers d = (DB.answers db ++ rows)%list ->
              (exists f, DB.submissions d = map f (DB.submissions db)
                 /\ forall r, Submission.id r <> submission_id -> f r = r) ->
              (exists g, DB.users d = map g (DB.users db)
                 /\ forall r, User.id r <> User.id user -> g r = r) ->
              DB.quizzes (snd (X, d)) = DB.quizzes db
              /\ (exists rows0, DB.answers (snd (X, d)) = (DB.answers db ++ rows0)%list
                    /\ Forall (fun a => Answer.submission_id a = submission_id) rows0)
              /\ (exists f, DB.submissions (snd (X, d)) = map f (DB.submissions db)
                    /\ forall r, Submission.id r <> submission_id -> f r = r)
              /\ (exists g, DB.users (snd (X, d)) = map g (DB.users db)
                    /\ forall r, User.id r <> User.id user -> g r = r)).
    { intros X d H1 H2 H3 H4. simpl. split; [exact H1|]. split; [|now split].
      exists rows. split; [exact H2|]. now rewrite <- Hsid. }
    cbv zeta. destruct this_bound; apply G; simpl;
      rewrite ?Hq, ?Ha, ?Hs, ?Hu; try reflexivity.
    all: eexists; (split; [rewrite ?map_map; reflexivity|]);
      intros r Hr; cbv beta; rewrite ?Hsid; apply N.eqb_neq in Hr;
      repeat (rewrite Hr; cbv beta iota); reflexivity.
Qed.

Lemma submitQuiz_not_in_progress (this_bound : bool) (ai : AI.t) (db : DB.t)
    (now completedAt : Z) (user : User.t) (submission_id : UUID)
    (answers : list UserAnswer.t) (s : Submission.t) :
  find (fun s => (Submission.id s =? submission_id)%N
                 && (Submission.user_id s =? User.id user)%N)
       (DB.submissions db) = Some s ->
  Submission.status s <> in_progress ->
  submitQuiz this_bound ai db now completedAt user submission_id answers
  = (Failure 400 "QUIZ_NOT_IN_PROGRESS", db).
Proof.
  intros Hfind Hst. unfold submitQuiz. rewrite Hfind.
  destruct (Submission.status s); [contradiction| | |]; reflexivity.
Qed.

(** X10.  A submission is graded at most once: after a submit that was answered
    with the results (200) or with TIME_LIMIT_EXCEEDED, every further
    submit of the same submission by the same user, whatever the answers
    and the time, is rejected with QUIZ_NOT_IN_PROGRESS and changes
    nothing. *)
Theorem submitQuiz_only_once (this_bound : bool) (ai : AI.t) (db : DB.t)
    (now completedAt : Z) (user : User.t) (submission_id : UUID)
    (answers : list UserAnswer.t) :
  let first :=
    submitQuiz this_bound ai db now completedAt user submission_id answers in
  (exists data, fst first = Success 200 data)
  \/ fst first = Failure 400 "TIME_LIMIT_EXCEEDED" ->
  forall this_bound' ai' now' completedAt' answers',
    submitQuiz this_bound' ai' (snd first) now' completedAt' user
               submission_id answers'
    = (Failure 400 "QUIZ_NOT_IN_PROGRESS", snd first).
Proof.
  intros first Hfirst tb' ai' now' cAt' answers'.
  assert (Hstored : exists s,
            find (fun s => (Submission.id s =? submission_id)%N
                           && (Submission.user_id s =? User.id user)%N)
                 (DB.submissions (snd first)) = Some s
            /\ Submission.status s <> in_progress).
  { revert Hfirst. unfold first, submitQuiz.
    destruct (find _ (DB.submissions db)) as [submission|] eqn:Hfind.
    2:{ intros [[d H]|H]; discriminate. }
    assert (Hsid : Submission.id submission = submission_id).
    { apply find_some in Hfind as [_ H]. apply andb_prop in H as [H _].
      now apply N.eqb_eq in H. }
    destruct (negb _); [intros [[d H]|H]; discriminate|].
    destruct (DB.findQuiz db _) as [quiz|];
      [|intros [[d H]|H]; discriminate].
    match goal with |- context [if ?b then _ else _] => destruct b end.
    { intros _. simpl. rewrite find_map_same.
      - rewrite Hfind. simpl. rewrite N.eqb_refl. eexists.
        split; [reflexivity|]. discriminate.
      - intros r. destruct (Submission.id r =? Submission.id submission)%N;
          reflexivity. }
    match goal with
    | |- context [gradeAnswers this_bound ai submission quiz answers ?l0] =>
        pose proof (gradeAnswers_log this_bound ai submission quiz answers l0)
          as Hlog;
        destruct (gradeAnswers this_bound ai submission quiz answers l0)
          as [l [e|]]
    end; simpl in Hlog;
      destruct Hlog as [rows [results [_ [Hs _]]]];
      [intros [[d H]|H]; discriminate|].
    cbv zeta. destruct this_bound; [|intros [[d H]|H]; discriminate].
    intros _. simpl. rewrite Hs, !map_map, find_map_same.
    - rewrite Hfind. simpl. rewrite ?N.eqb_refl. simpl.
      rewrite ?N.eqb_refl. simpl. eexists. split; [reflexivity|]. discriminate.
    - intros r.
      destruct (Submission.id r =? Submission.id submission)%N eqn:Er;
        simpl; rewrite ?Er; simpl; rewrite ?Er; reflexivity. }
  destruct Hstored as [s [Hs Hst]].
  now apply (submitQuiz_not_in_progress tb' ai' (snd first) now' cAt' user
               submission_id answers' s).
Qed.

Lemma submitQuiz_only_once_witness :
  let first :=
    submitQuiz true Sample.ai_unavailable Sample.db 30000 30001 Sample.user
               1%N [Sample.choice_answer] in
  submitQuiz true Sample.ai_unavailable (snd first) 40000 40001 Sample.user
             1%N [Sample.open_answer]
  = (Failure 400 "QUIZ_NOT_IN_PROGRESS", snd first).
Proof.
  intros first.
  apply (submitQuiz_only_once true Sample.ai_unavailable Sample.db 30000 30001
           Sample.user 1%N [Sample.choice_answer]).
  left. eexists. reflexivity.
Defined.

Lemma gradeAnswer_keeps_rows (this_bound : bool) (ai : AI.t)
    (submission : Submission.t) (quiz : Quiz.t) (l l' : Loop.t)
    (ua : UserAnswer.t) (row : Answer.t) :
  gradeAnswer this_bound ai submission quiz l ua = inr l' ->
  In row (DB.answers (Loop.db l)) -> In row (DB.answers (Loop.db l')).
Proof.
  intros E Hin. apply gradeAnswer_log in E as [->|[row' [r [Ea _]]]];
    [exact Hin|].
  rewrite Ea. apply in_or_app. now left.
Qed.

(** Once a row exists for a question of the submission, the loop throws
    when it meets an answer to that question, if not before. *)
Lemma gradeAnswers_answered_twice (this_bound : bool) (ai : AI.t)
    (submission : Submission.t) (quiz : Quiz.t) (answers : list UserAnswer.t)
    (ua : UserAnswer.t) (row : Answer.t) :
  In ua answers ->
  Spec.known_question quiz ua = true ->
  Answer.submission_id row = Submission.id submission ->
  Answer.question_id row = UserAnswer.question_id ua ->
  forall l,
    In row (DB.answers (Loop.db l)) ->
    snd (gradeAnswers this_bound ai submission quiz answers l) <> None.
Proof.
  intros Hin Hknown Hsid Hqid.
  induction answers as [|a rest IH]; [contradiction|].
  intros l Hrow. simpl.
  destruct (gradeAnswer this_bound ai submission quiz l a) as [e|l'] eqn:E;
    [discriminate|].
  destruct Hin as [->|Hin].
  - exfalso. revert E. unfold gradeAnswer.
    destruct (find _ (Quiz.questions quiz)) as [q|] eqn:Eq.
    + apply find_some in Eq as [_ Hq]. apply N.eqb_eq in Hq.
      destruct (evaluate this_bound ai (Loop.requests l) q ua)
        as [e|[[[c p] x] n]]; [discriminate|].
      unfold DB.createAnswer.
      destruct (existsb _ (DB.answers (Loop.db l))) eqn:Ex; [discriminate|].
      assert (Ht : existsb
                (fun r => (Answer.submission_id r =? Submission.id submission)%N
                          && (Answer.question_id r =? Question.id q)%N)
                (DB.answers (Loop.db l)) = true).
      { apply existsb_exists. exists row. split; [exact Hrow|].
        rewrite Hsid, Hqid, Hq, !N.eqb_refl. reflexivity. }
      simpl in Ex. congruence.
    + unfold Spec.known_question in Hknown.
      apply existsb_exists in Hknown as [q [Hq1 Hq2]].
      pose proof (find_none _ _ Eq q Hq1) as Hn. simpl in Hn. congruence.
  - apply (IH Hin l').
    now apply (gradeAnswer_keeps_rows this_bound ai submission quiz l l' a).
Qed.

Lemma gradeAnswers_repeated (this_bound : bool) (ai : AI.t)
    (submission : Submission.t) (quiz : Quiz.t)
    (before between after : list UserAnswer.t) (ua1 ua2 : UserAnswer.t) :
  Spec.known_question quiz ua1 = true ->
  UserAnswer.question_id ua2 = UserAnswer.question_id ua1 ->
  forall l,
    snd (gradeAnswers this_bound ai submission quiz
           (before ++ ua1 :: between ++ ua2 :: after) l) <> None.
Proof.
  intros Hknown Hsame.
  assert (Hknown2 : Spec.known_question quiz ua2 = true).
  { unfold Spec.known_question in *. now rewrite Hsame. }
  induction before as [|a rest IH]; intros l; simpl.
  - destruct (gradeAnswer this_bound ai submission quiz l ua1) as [e|l'] eqn:E;
      [discriminate|].
    pose proof E as E'.
    apply gradeAnswer_log in E' as [->|[row [r [Ea [_ [_ [_ [_ [Hs [Hq _]]]]]]]]]].
    + (* impossible: a known question is either graded or throws *)
      exfalso. revert E. unfold gradeAnswer.
      destruct (find _ (Quiz.questions quiz)) as [q|] eqn:Eq.
      * destruct (evaluate this_bound ai (Loop.requests l) q ua1)
          as [e|[[[c p] x] n]]; [discriminate|].
        unfold DB.createAnswer.
        destruct (existsb _ (DB.answers (Loop.db l))); [discriminate|].
        intros E. injection E as E.
        apply (f_equal (fun l => List.length (DB.answers (Loop.db l)))) in E.
        simpl in E. rewrite length_app in E. simpl in E. lia.
      * unfold Spec.known_question in Hknown.
        apply existsb_exists in Hknown as [q [Hq1 Hq2]].
        pose proof (find_none _ _ Eq q Hq1) as Hn. simpl in Hn. congruence.
    + apply (gradeAnswers_answered_twice this_bound ai submission quiz
               (between ++ ua2 :: after) ua2 row).
      * apply in_or_app. right. now left.
      * exact Hknown2.
      * exact Hs.
      * revert E. unfold gradeAnswer.
        destruct (find _ (Quiz.questions quiz)) as [q|] eqn:Eq.
        -- apply find_some in Eq as [_ Hq']. apply N.eqb_eq in Hq'.
           destruct (evaluate this_bound ai (Loop.requests l) q ua1)
             as [e|[[[c p] x] n]]; [discriminate|].
           unfold DB.createAnswer.
           destruct (existsb _ (DB.answers (Loop.db l))); [discriminate|].
           intros E. injection E as <-. simpl in Ea.
           apply app_inv_head in Ea. injection Ea as <-. simpl.
           now rewrite Hq', Hsame.
        -- intros E. injection E as <-.
           apply (f_equal (@List.length _)) in Ea. rewrite length_app in Ea.
           simpl in Ea. lia.
      * rewrite Ea. apply in_or_app. right. now left.
  - destruct (gradeAnswer this_bound ai submission quiz l a) as [e|l'];
      [discriminate|apply IH].
Qed.

(** X11.  A request that answers the same question of the quiz twice is never
    graded: unless the time limit has passed, it is answered with an
    internal error, the submission stays as it was (in progress) and the
    user's statistics are not touched. *)
Theorem submitQuiz_repeated_question (this_bound : bool) (ai : AI.t)
    (db : DB.t) (now completedAt : Z) (user : User.t) (submission_id : UUID)
    (before between after : list UserAnswer.t) (ua1 ua2 : UserAnswer.t)
    (submission : Submission.t) (quiz : Quiz.t) :
  find (fun s => (Submission.id s =? submission_id)%N
                 && (Submission.user_id s =? User.id user)%N)
       (DB.submissions db) = Some submission ->
  Submission.status submission = in_progress ->
  DB.findQuiz db (Submission.quiz_id submission) = Some quiz ->
  Spec.known_question quiz ua1 = true ->
  UserAnswer.question_id ua2 = UserAnswer.question_id ua1 ->
  let result :=
    submitQuiz this_bound ai db now completedAt user submission_id
               (before ++ ua1 :: between ++ ua2 :: after) in
  fst result = Failure 400 "TIME_LIMIT_EXCEEDED"
  \/ (fst result = Failure 500 "Internal server error"
      /\ DB.submissions (snd result) = DB.submissions db
      /\ DB.users (snd result) = DB.users db).
Proof.
  intros Hfind Hst Hquiz Hknown Hsame result. unfold result, submitQuiz.
  rewrite Hfind, Hst, Hquiz. simpl negb. cbv iota.
  match goal with |- context [if ?b then _ else _] => destruct b end;
    [now left|right].
  match goal with
  | |- context [gradeAnswers this_bound ai submission quiz ?a ?l0] =>
      pose proof (gradeAnswers_log this_bound ai submission quiz a l0) as Hlog;
      pose proof (gradeAnswers_repeated this_bound ai submission quiz
                    before between after ua1 ua2 Hknown Hsame l0) as Hthrow;
      destruct (gradeAnswers this_bound ai submission quiz a l0) as [l [e|]]
  end; [|now contradiction Hthrow].
  simpl in Hlog. destruct Hlog as [rows [results [_ [Hs [Hu _]]]]].
  simpl. now repeat split.
Qed.

Lemma submitQuiz_repeated_question_witness :
  let result :=
    submitQuiz true Sample.ai_unavailable Sample.db 30000 30001 Sample.user
               1%N [Sample.choice_answer; Sample.choice_answer] in
  fst result = Failure 500 "Internal server error"
  /\ map Submission.status (DB.submissions (snd result)) = [in_progress].
Proof.
  intros result.
  destruct (submitQuiz_repeated_question true Sample.ai_unavailable Sample.db
              30000 30001 Sample.user 1%N [] [] []
              Sample.choice_answer Sample.choice_answer
              Sample.attempt Sample.quiz eq_refl eq_refl eq_refl eq_refl eq_refl)
    as [H|[H1 [H2 _]]].
  - discriminate H.
  - split; [exact H1|]. simpl app in H2. unfold result. rewrite H2.
    reflexivity.
Defined.

Lemma rows_of_app (db : DB.t) (sid : UUID) (rows : list Answer.t) :
  Forall (fun a => Answer.submission_id a = sid) rows ->
  filter (fun a => (Answer.submission_id a =? sid)%N)
         (DB.answers db ++ rows)%list
  = (Aux.rows_of db sid ++ rows)%list.
Proof.
  intros H. unfold Aux.rows_of. rewrite filter_app. f_equal.
  induction H as [|a r Ha _ IH]; simpl; [reflexivity|].
  rewrite Ha, N.eqb_refl. now rewrite IH.
Qed.

(** X12.  After a successful submit of a submission that had no answer rows
    yet, the submission returned is the one stored, it is completed, and
    its totals agree with its answer rows: [correct_answers] is the number
    of its rows marked correct, [total_points_earned] the sum of their
    points, and there is one row per reported result. *)
Theorem submitQuiz_totals_match_rows (this_bound : bool) (ai : AI.t)
    (db : DB.t) (now completedAt : Z) (user : User.t) (submission_id : UUID)
    (answers : list UserAnswer.t) (data : SubmitData.t) :
  Aux.rows_of db submission_id = [] ->
  let result :=
    submitQuiz this_bound ai db now completedAt user submission_id answers in
  fst result = Success 200 data ->
  let s := SubmitData.submission data in
  let rows := Aux.rows_of (snd result) submission_id in
  find (fun s => (Submission.id s =? submission_id)%N
                 && (Submission.user_id s =? User.id user)%N)
       (DB.submissions (snd result)) = Some s
  /\ Submission.status s = completed
  /\ Submission.correct_answers s
     = Z.of_nat (List.length (filter Answer.is_correct rows))
  /\ Submission.total_points_earned s = Aux.points_of rows
  /\ map AnswerResult.question_id (SubmitData.results data)
     = map Answer.question_id rows
  /\ SubmitData.correct_answers data = Submission.correct_answers s
  /\ SubmitData.total_points_earned data = Submission.total_points_earned s.
Proof.
  intros Hfresh result. unfold result, submitQuiz.
  destruct (find _ (DB.submissions db)) as [submission|] eqn:Hfind;
    [|discriminate].
  assert (Hsid : Submission.id submission = submission_id).
  { apply find_some in Hfind as [_ H]. apply andb_prop in H as [H _].
    now apply N.eqb_eq in H. }
  destruct (negb _); [discriminate|].
  destruct (DB.findQuiz db _) as [quiz|]; [|discriminate].
  match goal with |- context [if ?b then _ else _] => destruct b end;
    [discriminate|].
  match goal with
  | |- context [gradeAnswers this_bound ai submission quiz answers ?l0] =>
      pose proof (gradeAnswers_log this_bound ai submission quiz answers l0)
        as Hlog;
      destruct (gradeAnswers this_bound ai submission quiz answers l0)
        as [l [e|]]
  end; [discriminate|].
  simpl in Hlog.
  destruct Hlog as [rows [results [Ha [Hs [_ [_ [Hr [Hf [Hi [_ [Ht Hn]]]]]]]]]]].
  cbv zeta. destruct this_bound; [|discriminate].
  intros E. injection E as <-.
  rewrite Hsid in Hf.
  assert (Hrows' : forall d : DB.t,
            DB.answers d = (DB.answers db ++ rows)%list ->
            Aux.rows_of d submission_id = rows).
  { intros d Hd. unfold Aux.rows_of. rewrite Hd.
    rewrite (rows_of_app db submission_id rows Hf). now rewrite Hfresh. }
  repeat match goal with
         | |- context [Aux.rows_of ?d submission_id] =>
             rewrite (Hrows' d) by (simpl; exact Ha)
         end.
  simpl.
  split.
  { rewrite Hs, !map_map, find_map_same.
    - rewrite Hfind. simpl. rewrite ?N.eqb_refl. simpl.
      rewrite ?N.eqb_refl. simpl. reflexivity.
    - intros r.
      destruct (Submission.id r =? Submission.id submission)%N eqn:Er;
        simpl; rewrite ?Er; simpl; rewrite ?Er; reflexivity. }
  split; [reflexivity|].
  split; [rewrite Hn; lia|].
  split; [rewrite Ht; lia|].
  split; [rewrite Hr; simpl; now rewrite Hi|].
  split; reflexivity.
Qed.

Lemma submitQuiz_totals_match_rows_witness :
  let result :=
    submitQuiz true Sample.ai_unavailable Sample.db 30000 30001 Sample.user
               1%N [Sample.choice_answer; Sample.open_answer] in
  map Submission.correct_answers (DB.submissions (snd result)) = [2%Z]
  /\ (Aux.points_of (Aux.rows_of (snd result) 1%N) = 13)%Z.
Proof.
  intros result.
  destruct (fst result) as [http data|] eqn:E; [|discriminate E].
  assert (Hhttp : http = 200%Z) by (vm_compute in E; now injection E as <- _).
  subst http.
  destruct (submitQuiz_totals_match_rows true Sample.ai_unavailable Sample.db
              30000 30001 Sample.user 1%N
              [Sample.choice_answer; Sample.open_answer] data eq_refl E)
    as [_ [_ [_ [H _]]]].
  split; [reflexivity|]. fold result in H. rewrite <- H.
  vm_compute in E. injection E as <-. reflexivity.
Defined.

(** ** Rate limiting *)

Lemma get_set_same (m : RateLimit.Store) (u : UUID) (h : list Z) :
  RateLimit.get (RateLimit.set m u h) u = Some h.
Proof.
  induction m as [|[k v] r IH]; simpl.
  - now rewrite N.eqb_refl.
  - destruct (k =? u)%N eqn:E; simpl; rewrite E; [reflexivity|exact IH].
Qed.

Lemma get_set_other (m : RateLimit.Store) (u v : UUID) (h : list Z) :
  u <> v -> RateLimit.get (RateLimit.set m u h) v = RateLimit.get m v.
Proof.
  intros Hne. induction m as [|[k w] r IH]; simpl.
  - apply N.eqb_neq in Hne. now rewrite Hne.
  - destruct (k =? u)%N eqn:E; simpl.
    + apply N.eqb_eq in E. subst k. apply N.eqb_neq in Hne. now rewrite Hne.
    + destruct (k =? v)%N; [reflexivity|exact IH].
Qed.

Lemma filter_filter_later (w t1 t2 : Z) (l : list Z) :
  (t1 <= t2)%Z ->
  filter (fun t => (t >? t2 - w)%Z) (filter (fun t => (t >? t1 - w)%Z) l)
  = filter (fun t => (t >? t2 - w)%Z) l.
Proof.
  intros H. induction l as [|x r IH]; simpl; [reflexivity|].
  destruct (x >? t1 - w)%Z eqn:E1; simpl.
  - destruct (x >? t2 - w)%Z; [now rewrite IH|exact IH].
  - destruct (x >? t2 - w)%Z eqn:E2; [|exact IH].
    apply Z.gtb_lt in E2. 
    assert (x <= t1 - w)%Z by (destruct (Z.gtb_spec x (t1 - w)); [discriminate|lia]).
    lia.
Qed.

Lemma passed_since_snoc (log : list (UUID * Z)) (u v : UUID) (t since : Z) :
  Aux.passed_since (log ++ [(v, t)]) u since
  = (Aux.passed_since log u since
     ++ if (v =? u)%N && (t >? since)%Z then [t] else [])%list.
Proof.
  unfold Aux.passed_since. rewrite filter_app, map_app, filter_app. simpl.
  destruct (v =? u)%N; simpl; [|reflexivity].
  destruct (t >? since)%Z; reflexivity.
Qed.

Lemma serve_one_remembers (maxRequests w t0 : Z)
    (st : RateLimit.Store * list (UUID * Z)) (user : option UUID) (now : Z) :
  (t0 <= now)%Z ->
  Aux.remembers w t0 st ->
  Aux.remembers w now (RateLimit.serve_one maxRequests w st (user, now)).
Proof.
  intros Ht Hinv. destruct st as [m log]. unfold RateLimit.serve_one.
  destruct user as [u|]; simpl.
  2:{ intros v t Hv. apply Hinv. simpl. lia. }
  destruct (Z.of_nat _ >=? maxRequests)%Z.
  { intros v t Hv. apply Hinv. simpl. lia. }
  intros v t Hv. simpl.
  destruct (N.eq_dec u v) as [<-|Hne].
  - rewrite get_set_same, passed_since_snoc, N.eqb_refl. simpl.
    rewrite filter_app, filter_filter_later by exact Hv.
    specialize (Hinv u t ltac:(lia)). simpl in Hinv. rewrite Hinv.
    reflexivity.
  - rewrite get_set_other by exact Hne. rewrite passed_since_snoc.
    apply N.eqb_neq in Hne. rewrite Hne. simpl. rewrite app_nil_r.
    apply (Hinv v t). lia.
Qed.

Lemma ascending_from_init (t0 t1 : Z) (times : list Z) :
  Aux.ascending_from t0 (times ++ [t1]) -> Aux.ascending_from t0 times.
Proof.
  revert t0. induction times as [|t r IH]; intros t0 H; simpl in *;
    [exact I|]. destruct H as [H1 H2]. split; [exact H1|]. now apply IH.
Qed.

Lemma serve_remembers (maxRequests w : Z) (requests : list (option UUID * Z)) :
  forall t0 st t1,
    Aux.remembers w t0 st ->
    Aux.ascending_from t0 (map snd requests ++ [t1]) ->
    Aux.remembers w t1
      (fold_left (RateLimit.serve_one maxRequests w) requests st).
Proof.
  induction requests as [|[user now] rest IH]; intros t0 st t1 Hinv Hasc.
  - simpl in *. intros u t Ht. apply Hinv. lia.
  - simpl in *. destruct Hasc as [H0 Hasc].
    apply (IH now); [|exact Hasc].
    now apply (serve_one_remembers maxRequests w t0).
Qed.

(** X15.  The sliding window is exact.  After any series of requests whose times
    never go back, a further request of a user is refused exactly when
    [maxRequests] or more of that user's requests were let through within
    the last [windowMs] milliseconds; so no user gets more than
    [maxRequests] requests through in any window. *)
Theorem rateLimitByUser_exact_window (maxRequests windowMs : Z)
    (requests : list (option UUID * Z)) (userId : UUID) (now t0 : Z) :
  Aux.ascending_from t0 (map snd requests ++ [now]) ->
  let m := fst (RateLimit.serve maxRequests windowMs requests) in
  let log := snd (RateLimit.serve maxRequests windowMs requests) in
  let passed := Aux.passed_since log userId (now - windowMs) in
  (fst (RateLimit.rateLimitByUser maxRequests windowMs m (Some userId) now)
   = RateLimit.TooManyRequests (Qceiling (inject_Z windowMs / 1000))
   <-> (maxRequests <= Z.of_nat (List.length passed))%Z)
  /\ ((exists h,
         fst (RateLimit.rateLimitByUser maxRequests windowMs m (Some userId) now)
         = RateLimit.Next h)
      <-> (Z.of_nat (List.length passed) < maxRequests)%Z).
Proof.
  intros Hasc m log passed.
  assert (Hinv : Aux.remembers windowMs now
                   (RateLimit.serve maxRequests windowMs requests)).
  { unfold RateLimit.serve.
    apply (serve_remembers maxRequests windowMs requests t0);
      [|exact Hasc].
    intros u t _. reflexivity. }
  specialize (Hinv userId now (Z.le_refl now)). fold m log passed in Hinv.
  unfold RateLimit.rateLimitByUser. rewrite Hinv.
  destruct (Z.geb_spec (Z.of_nat (List.length passed)) maxRequests)
    as [Hge|Hlt]; simpl.
  - split; [split; [lia|reflexivity]|].
    split; [intros [h H]; discriminate|lia].
  - split; [split; [discriminate|lia]|].
    split; [lia|]. intros _. eexists. reflexivity.
Qed.

Lemma rateLimitByUser_exact_window_witness :
  fst (RateLimit.rateLimitByUser 2 1000
         (fst (RateLimit.serve 2 1000
                 [(Some 5%N, 0%Z); (Some 5%N, 10%Z); (Some 6%N, 20%Z)]))
         (Some 5%N) 900)
  = RateLimit.TooManyRequests 1.
Proof.
  destruct (rateLimitByUser_exact_window 2 1000
              [(Some 5%N, 0%Z); (Some 5%N, 10%Z); (Some 6%N, 20%Z)]
              5%N 900 0) as [[_ H] _]; [simpl; lia|].
  apply H. vm_compute. discriminate.
Defined.

(** ** Question generation *)

Lemma sampleQuestions_shape :
  Forall (fun b =>
       List.length (Generation.RawQuestion.options b) = 4%nat
       /\ In (Generation.RawQuestion.correctAnswer b) ["A"; "B"; "C"; "D"]
       /\ Generation.RawQuestion.question b <> "")
     Generation.sampleQuestions_mathematics
  /\ Forall (fun b =>
       List.length (Generation.RawQuestion.options b) = 4%nat
       /\ In (Generation.RawQuestion.correctAnswer b) ["A"; "B"; "C"; "D"]
       /\ Generation.RawQuestion.question b <> "")
     Generation.sampleQuestions_science.
Proof.
  split.
  - unfold Generation.sampleQuestions_mathematics.
    repeat (apply Forall_cons;
            [split; [reflexivity|split; [simpl; tauto|discriminate]]|]).
    apply Forall_nil.
  - unfold Generation.sampleQuestions_science.
    repeat (apply Forall_cons;
            [split; [reflexivity|split; [simpl; tauto|discriminate]]|]).
    apply Forall_nil.
Qed.

(** The lookup finds a table for every subject that is not the name of a
    member of [Object.prototype], and an inherited member otherwise. *)
Lemma subjectQuestions_shape (subject : string) :
  (PerformanceSummary.inherited subject = false ->
   exists base,
     Generation.subjectQuestions subject = Generation.Own base
     /\ base <> []
     /\ Forall (fun b =>
          List.length (Generation.RawQuestion.options b) = 4%nat
          /\ In (Generation.RawQuestion.correctAnswer b) ["A"; "B"; "C"; "D"]
          /\ Generation.RawQuestion.question b <> "")
        base)
  /\ (PerformanceSummary.inherited subject = true ->
      Generation.subjectQuestions subject = Generation.Inherited).
Proof.
  destruct sampleQuestions_shape as [M S].
  unfold Generation.subjectQuestions. split.
  - intros H. rewrite H.
    destruct (String.eqb subject "mathematics");
      [|destruct (String.eqb subject "science")];
      eexists; (split; [reflexivity|]); (split; [discriminate|assumption]).
  - intros H. rewrite H.
    destruct (String.eqb subject "mathematics") eqn:E1.
    { apply String.eqb_eq in E1. subst. discriminate H. }
    destruct (String.eqb subject "science") eqn:E2.
    { apply String.eqb_eq in E2. subst. discriminate H. }
    reflexivity.
Qed.

Lemma pushQuestions_each (base : list Generation.RawQuestion.t)
    (numQuestions : Z) :
  base <> [] ->
  Forall (fun b =>
       List.length (Generation.RawQuestion.options b) = 4%nat
       /\ In (Generation.RawQuestion.correctAnswer b) ["A"; "B"; "C"; "D"]
       /\ Generation.RawQuestion.question b <> "")
     base ->
  let questions := Generation.pushQuestions base numQuestions in
  List.length questions = Z.to_nat (Z.min numQuestions 10)
  /\ map Generation.GeneratedQuestion.question_order questions
     = map (fun i => (Z.of_nat i + 1)%Z) (seq 0 (List.length questions))
  /\ Forall (fun q =>
       Generation.GeneratedQuestion.points q = 1%Z
       /\ Generation.GeneratedQuestion.question_type q = multiple_choice
       /\ List.length (Generation.GeneratedQuestion.options q) = 4%nat
       /\ In (Generation.GeneratedQuestion.correct_answer q) ["A"; "B"; "C"; "D"]
       /\ Generation.GeneratedQuestion.question_text q <> "")
     questions
  /\ (forall i, (i < List.length questions)%nat ->
        option_map Generation.GeneratedQuestion.question_text (nth_error questions i)
        = option_map Generation.RawQuestion.question
            (nth_error base (i mod List.length base))).
Proof.
  intros Hne Hall questions. unfold questions, Generation.pushQuestions.
  set (n := Z.to_nat (Z.min numQuestions 10)).
  assert (Hlen : (0 < List.length base)%nat).
  { destruct base; [contradiction|simpl; lia]. }
  split; [now rewrite length_map, length_seq|].
  split.
  { rewrite map_map, length_map, length_seq. reflexivity. }
  split.
  { apply Forall_forall. intros q Hq. apply in_map_iff in Hq as [i [<- _]].
    simpl. rewrite Forall_forall in Hall.
    assert (Hin : In (nth (i mod List.length base) base Generation.no_question) base).
    { apply nth_In. apply Nat.mod_upper_bound. lia. }
    destruct (Hall _ Hin) as [H1 [H2 H3]]. repeat split; assumption. }
  intros i Hi. rewrite length_map, length_seq in Hi.
  rewrite nth_error_map, nth_error_seq.
  destruct (Nat.ltb_spec i n) as [_|C]; [|lia]. simpl.
  rewrite (nth_error_nth' base Generation.no_question)
    by (apply Nat.mod_upper_bound; lia).
  reflexivity.
Qed.

Lemma generateSampleQuestions_shape_aux (subject : string) (numQuestions : Z) :
  (PerformanceSummary.inherited subject = false ->
   exists questions,
     Generation.generateSampleQuestions subject numQuestions = inr questions
     /\ List.length questions = Z.to_nat (Z.min numQuestions 10)
     /\ map Generation.GeneratedQuestion.question_order questions
        = map (fun i => (Z.of_nat i + 1)%Z) (seq 0 (List.length questions))
     /\ Forall (fun q =>
          Generation.GeneratedQuestion.points q = 1%Z
          /\ Generation.GeneratedQuestion.question_type q = multiple_choice
          /\ List.length (Generation.GeneratedQuestion.options q) = 4%nat
          /\ In (Generation.GeneratedQuestion.correct_answer q)
                ["A"; "B"; "C"; "D"]
          /\ Generation.GeneratedQuestion.question_text q <> "")
        questions)
  /\ (PerformanceSummary.inherited subject = true ->
      ((1 <= numQuestions)%Z ->
       Generation.generateSampleQuestions subject numQuestions = inl TypeError)
      /\ ((numQuestions < 1)%Z ->
          Generation.generateSampleQuestions subject numQuestions = inr [])).
Proof.
  destruct (subjectQuestions_shape subject) as [HO HI].
  unfold Generation.generateSampleQuestions. split.
  - intros H. destruct (HO H) as [base [E [Hne Hall]]]. rewrite E.
    destruct (pushQuestions_each base numQuestions Hne Hall)
      as [P1 [P2 [P3 _]]].
    eexists. split; [reflexivity|]. split; [exact P1|].
    split; [exact P2|exact P3].
  - intros H. rewrite (HI H). split; intros Hn.
    + destruct (Z.ltb_spec 0 (Z.min numQuestions 10)); [reflexivity|lia].
    + destruct (Z.ltb_spec 0 (Z.min numQuestions 10)); [lia|reflexivity].
Qed.

(** X16.  For a subject that is not the name of a member of [Object.prototype],
    the sample generator returns [min(numQuestions, 10)] questions (none
    for a count below 1), numbered 1, 2, ... in order; each is a one-point
    multiple-choice question with four options and a correct answer among
    A to D, and the questions repeat cyclically over the subject's table.
    For a subject such as "constructor" the generator throws a TypeError as
    soon as one question is asked for. *)
Theorem generateSampleQuestions_shape (subject : string) (numQuestions : Z) :
  (PerformanceSummary.inherited subject = false ->
   exists base questions,
     Generation.subjectQuestions subject = Generation.Own base
     /\ Generation.generateSampleQuestions subject numQuestions = inr questions
     /\ List.length questions = Z.to_nat (Z.min numQuestions 10)
     /\ map Generation.GeneratedQuestion.question_order questions
        = map (fun i => (Z.of_nat i + 1)%Z) (seq 0 (List.length questions))
     /\ Forall (fun q =>
          Generation.GeneratedQuestion.points q = 1%Z
          /\ Generation.GeneratedQuestion.question_type q = multiple_choice
          /\ List.length (Generation.GeneratedQuestion.options q) = 4%nat
          /\ In (Generation.GeneratedQuestion.correct_answer q)
                ["A"; "B"; "C"; "D"]
          /\ Generation.GeneratedQuestion.question_text q <> "")
        questions
     /\ (forall i, (i < List.length questions)%nat ->
           option_map Generation.GeneratedQuestion.question_text
                      (nth_error questions i)
           = option_map Generation.RawQuestion.question
               (nth_error base (i mod List.length base))))
  /\ (PerformanceSummary.inherited subject = true ->
      ((1 <= numQuestions)%Z ->
       Generation.generateSampleQuestions subject numQuestions = inl TypeError)
      /\ ((numQuestions < 1)%Z ->
          Generation.generateSampleQuestions subject numQuestions = inr [])).
Proof.
  destruct (subjectQuestions_shape subject) as [HO HI].
  unfold Generation.generateSampleQuestions. split.
  - intros H. destruct (HO H) as [base [E [Hne Hall]]]. rewrite E.
    destruct (pushQuestions_each base numQuestions Hne Hall)
      as [P1 [P2 [P3 P4]]].
    exists base, (Generation.pushQuestions base numQuestions).
    split; [reflexivity|]. split; [reflexivity|].
    split; [exact P1|]. split; [exact P2|]. split; [exact P3|exact P4].
  - intros H. rewrite (HI H). split; intros Hn.
    + destruct (Z.ltb_spec 0 (Z.min numQuestions 10)); [reflexivity|lia].
    + destruct (Z.ltb_spec 0 (Z.min numQuestions 10)); [lia|reflexivity].
Qed.

Lemma number_from_shape (difficulty : string)
    (questions : list Generation.RawQuestion.t) : forall index,
  List.length (Generation.number_from index difficulty questions)
  = List.length questions
  /\ map Generation.GeneratedQuestion.question_order
         (Generation.number_from index difficulty questions)
     = map (fun i => (Z.of_nat i + 1)%Z) (seq index (List.length questions))
  /\ Forall (fun q =>
       Generation.GeneratedQuestion.points q <> 0%Z
       /\ Generation.GeneratedQuestion.question_type q = multiple_choice)
     (Generation.number_from index difficulty questions).
Proof.
  induction questions as [|q rest IH]; intros index; simpl.
  - repeat split. constructor.
  - destruct (IH (S index)) as [H1 [H2 H3]].
    split; [now rewrite H1|]. split; [now rewrite H2|].
    constructor; [|exact H3]. simpl. split; [|reflexivity].
    destruct (Generation.RawQuestion.points q) as [p|]; [|discriminate].
    destruct (Z.eqb_spec p 0); [discriminate|assumption].
Qed.

(** X17.  Whatever the model does, the questions the generator returns are
    numbered 1, 2, ... in order, are multiple-choice questions and never
    carry zero points, and for a requested number of at least 1 the result
    is empty only when the model replied with an empty array.  When the
    service is not configured, the call fails or the reply holds no array,
    the result is that of the sample generator: at most ten sample
    questions for a subject that is not the name of a member of
    [Object.prototype], and a TypeError thrown out of the generator for a
    subject such as "constructor". *)
Theorem generateQuizQuestions_shape (available : bool)
    (completion : AIService.Completion (option (list Generation.RawQuestion.t)))
    (subject difficulty : string) (numQuestions : Z) :
  let result :=
    Generation.generateQuizQuestions available completion subject difficulty
                                     numQuestions in
  let fallback :=
    available = false \/ (forall l, completion <> AIService.Parsed (Some l)) in
  (forall questions,
     result = inr questions ->
     map Generation.GeneratedQuestion.question_order questions
     = map (fun i => (Z.of_nat i + 1)%Z) (seq 0 (List.length questions))
     /\ Forall (fun q =>
          Generation.GeneratedQuestion.points q <> 0%Z
          /\ Generation.GeneratedQuestion.question_type q = multiple_choice)
        questions
     /\ ((1 <= numQuestions)%Z -> questions = [] ->
         available = true /\ completion = AIService.Parsed (Some [])))
  /\ (fallback ->
      result = Generation.generateSampleQuestions subject numQuestions)
  /\ (~ fallback -> exists questions, result = inr questions)
  /\ (PerformanceSummary.inherited subject = false ->
      exists questions,
        result = inr questions
        /\ (fallback -> (List.length questions <= 10)%nat))
  /\ (PerformanceSummary.inherited subject = true ->
      (1 <= numQuestions)%Z -> fallback -> result = inl TypeError).
Proof.
  intros result fallback.
  destruct (generateSampleQuestions_shape_aux subject numQuestions)
    as [SO SI].
  assert (F : fallback ->
              result = Generation.generateSampleQuestions subject numQuestions).
  { intros [Ha|Hc]; unfold result, Generation.generateQuizQuestions.
    - now rewrite Ha.
    - destruct available; [|reflexivity]. cbn [negb].
      destruct completion as [| |[l|]]; try reflexivity.
      exfalso. now apply (Hc l). }
  assert (NF : ~ fallback ->
               exists l, available = true
                         /\ completion = AIService.Parsed (Some l)).
  { intros Hn. destruct available.
    - destruct completion as [| |[l|]];
        try (exfalso; apply Hn; right; intros l C; discriminate C).
      exists l. now split.
    - exfalso. apply Hn. now left. }
  assert (Dec : fallback \/ ~ fallback).
  { unfold fallback. destruct available; [|left; now left].
    destruct completion as [| |[l|]];
      try (left; right; intros l' C; discriminate C).
    right. intros [C|C]; [discriminate|]. now apply (C l). }
  split; [|split; [exact F|split; [|split]]].
  - intros questions Hr. destruct Dec as [Hf|Hn].
    + rewrite (F Hf) in Hr.
      destruct (PerformanceSummary.inherited subject) eqn:Ei.
      * destruct (SI eq_refl) as [T E].
        destruct (Z.le_gt_cases 1 numQuestions) as [Hn|Hn].
        -- rewrite (T Hn) in Hr. discriminate.
        -- rewrite (E ltac:(lia)) in Hr. injection Hr as <-.
           split; [reflexivity|]. split; [constructor|]. intros C. lia.
      * destruct (SO eq_refl) as [questions' [E [Hl [Ho Hf']]]].
        rewrite E in Hr. injection Hr as <-.
        split; [exact Ho|]. split.
        { eapply Forall_impl; [|exact Hf'].
          intros q [H1 [H2 _]]. split; [rewrite H1; discriminate|exact H2]. }
        intros Hn C. apply (f_equal (@List.length _)) in C.
        rewrite Hl in C. simpl in C. lia.
    + destruct (NF Hn) as [l [Ha Hc]]. unfold result in Hr.
      rewrite Ha, Hc in Hr. cbn in Hr. injection Hr as <-.
      destruct (number_from_shape difficulty l 0) as [H1 [H2 H3]].
      split; [now rewrite H1|]. split; [exact H3|].
      intros _ C. split; [exact Ha|]. rewrite Hc.
      apply (f_equal (@List.length _)) in C. rewrite H1 in C.
      destruct l; [reflexivity|discriminate].
  - intros Hn. destruct (NF Hn) as [l [Ha Hc]]. unfold result.
    rewrite Ha, Hc. eexists. reflexivity.
  - intros Hi. destruct Dec as [Hf|Hn].
    + destruct (SO Hi) as [questions [E [Hl _]]].
      exists questions. rewrite (F Hf). split; [exact E|].
      intros _. rewrite Hl. lia.
    + destruct (NF Hn) as [l [Ha Hc]]. unfold result. rewrite Ha, Hc.
      eexists. split; [reflexivity|]. intros Hf. contradiction.
  - intros Hi Hn Hf. rewrite (F Hf). destruct (SI Hi) as [T _]. now apply T.
Qed.

Lemma generateQuizQuestions_shape_witness :
  Generation.generateQuizQuestions false AIService.ApiThrows
                                   "constructor" "hard" 5
  = inl TypeError
  /\ exists questions,
       Generation.generateQuizQuestions false AIService.ApiThrows
                                        "history" "hard" 50
       = inr questions
       /\ (List.length questions <= 10)%nat.
Proof.
  split.
  - destruct (generateQuizQuestions_shape false AIService.ApiThrows
                "constructor" "hard" 5) as [_ [_ [_ [_ H]]]].
    apply H; [reflexivity|lia|now left].
  - destruct (generateQuizQuestions_shape false AIService.ApiThrows
                "history" "hard" 50) as [_ [_ [_ [H _]]]].
    destruct (H eq_refl) as [questions [E L]].
    exists questions. split; [exact E|]. apply L. now left.
Defined.

Lemma generateSampleQuestions_shape_witness :
  Generation.generateSampleQuestions "toString" 1 = inl TypeError
  /\ exists questions,
       Generation.generateSampleQuestions "mathematics" 5 = inr questions
       /\ option_map Generation.GeneratedQuestion.question_text
                     (nth_error questions 3)
          = Some "What is 15 + 27?".
Proof.
  split.
  - destruct (generateSampleQuestions_shape "toString" 1) as [_ H].
    destruct (H eq_refl) as [T _]. apply T. lia.
  - destruct (generateSampleQuestions_shape "mathematics" 5) as [H _].
    destruct (H eq_refl) as [base [questions [B [E [L [_ [_ C]]]]]]].
    exists questions. split; [exact E|].
    rewrite (C 3%nat) by (rewrite L; simpl; lia).
    vm_compute in B. injection B as <-. reflexivity.
Defined.

(** ** The retry check *)

Lemma firstn_length_le_n {A : Type} (n : nat) (l : list A) :
  (List.length (firstn n l) <= n)%nat.
Proof. rewrite length_firstn. lia. Qed.

Lemma failure_transfer {A B : Type} (h http : Z) (e error : string) :
  @Failure A h e = Failure http error <-> @Failure B h e = Failure http error.
Proof. split; intros E; injection E as <- <-; reflexivity. Qed.

(** X18.  The retry check and the start agree on the three rejections: each
    answers QUIZ_NOT_FOUND, QUIZ_INACTIVE or MAX_ATTEMPTS_REACHED exactly
    when the other does.  When the check succeeds it reports the count the
    start uses, at least one remaining attempt, [current + remaining =
    max], and at most three previous attempts; and a handler running
    without [this] fails exactly when the check would succeed for a user
    who has a completed attempt. *)
Theorem retryQuiz_agrees_with_startQuiz (this_bound : bool) (db : DB.t)
    (now : Z) (new_id userId quiz_id : UUID) :
  (forall http error,
     error <> "Internal server error" ->
     (SubmissionQueries.retryQuiz this_bound db userId quiz_id
      = Failure http error
      <-> fst (startQuiz db now new_id userId quiz_id) = Failure http error))
  /\ (forall http data,
        SubmissionQueries.retryQuiz this_bound db userId quiz_id
        = Success http data ->
        http = 200%Z
        /\ SubmissionQueries.RetryData.current_attempts data
           = countAttempts db userId quiz_id
        /\ (1 <= SubmissionQueries.RetryData.remaining_attempts data)%Z
        /\ (SubmissionQueries.RetryData.current_attempts data
            + SubmissionQueries.RetryData.remaining_attempts data
            = SubmissionQueries.RetryData.max_attempts data)%Z
        /\ (List.length (SubmissionQueries.RetryData.previous_attempts data)
            <= 3)%nat)
  /\ (SubmissionQueries.retryQuiz false db userId quiz_id = internal_error
      <-> (exists data,
             SubmissionQueries.retryQuiz true db userId quiz_id
             = Success 200 data
             /\ SubmissionQueries.RetryData.previous_attempts data <> [])).
Proof.
  unfold SubmissionQueries.retryQuiz, startQuiz.
  destruct (DB.findQuiz db quiz_id) as [quiz|].
  2:{ split; [|split].
      - intros http error _. simpl. apply failure_transfer.
      - intros http data H. discriminate.
      - split; [discriminate|]. intros [d [H _]]. discriminate. }
  destruct (Quiz.is_active quiz); cbn [negb].
  2:{ split; [|split].
      - intros http error _. apply failure_transfer.
      - intros http data H. discriminate.
      - split; [discriminate|]. intros [d [H _]]. discriminate. }
  destruct (Z.geb_spec (countAttempts db userId quiz_id) (Quiz.max_attempts quiz))
    as [Hge|Hlt].
  { split; [|split].
    - intros http error _. apply failure_transfer.
    - intros http data H. discriminate.
    - split; [discriminate|]. intros [d [H _]]. discriminate. }
  set (previous := @firstn Submission.t 3 _).
  assert (Hprev : (List.length previous <= 3)%nat)
    by apply firstn_length_le_n.
  split; [|split].
  - intros http error Herr.
    assert (L : forall X : Response SubmissionQueries.RetryData.t,
              (X = internal_error \/ exists d, X = Success 200 d) ->
              (X = Failure http error <-> False)).
    { intros X [->|[d ->]]; split; try contradiction; try discriminate.
      unfold internal_error. intros E. injection E as _ E. congruence. }
    assert (R : forall Y : Response StartData * DB.t,
              (fst Y = internal_error \/ exists h d, fst Y = Success h d) ->
              (False <-> fst Y = Failure http error)).
    { intros Y [E|[h [d E]]]; rewrite E; split; try contradiction;
        try discriminate.
      unfold internal_error. intros E'. injection E' as _ E'. congruence. }
    etransitivity; [apply L|apply R].
    + destruct previous, this_bound; eauto.
    + destruct (findInProgress db userId quiz_id); [simpl; eauto|].
      rewrite createSubmission_without_score by reflexivity. now left.
  - intros http data H.
    assert (E : Success http data
                = Success 200
                    {| SubmissionQueries.RetryData.quiz_id := Quiz.id quiz;
                       SubmissionQueries.RetryData.current_attempts :=
                         countAttempts db userId quiz_id;
                       SubmissionQueries.RetryData.max_attempts :=
                         Quiz.max_attempts quiz;
                       SubmissionQueries.RetryData.remaining_attempts :=
                         (Quiz.max_attempts quiz - countAttempts db userId quiz_id)%Z;
                       SubmissionQueries.RetryData.previous_attempts :=
                         map (fun attempt => {|
                                SubmissionQueries.PreviousAttempt.attempt_number :=
                                  Submission.attempt_number attempt;
                                SubmissionQueries.PreviousAttempt.score_percentage :=
                                  Submission.score_percentage attempt;
                                SubmissionQueries.PreviousAttempt.completed_at :=
                                  Submission.completed_at attempt;
                                SubmissionQueries.PreviousAttempt.grade :=
                                  SubmissionQueries.grade_of
                                    (Submission.score_percentage attempt) |})
                             previous |}).
    { rewrite <- H. destruct previous, this_bound; try reflexivity.
      discriminate H. }
    injection E as -> ->. simpl. rewrite length_map.
    repeat split; try lia.
  - destruct previous as [|p r]; simpl.
    + split; [discriminate|]. intros [d [H C]]. injection H as <-.
      simpl in C. contradiction.
    + split; [|reflexivity]. intros _. eexists. split; [reflexivity|].
      simpl. discriminate.
Qed.

Lemma retryQuiz_agrees_with_startQuiz_witness :
  exists data,
    SubmissionQueries.retryQuiz true Sample.db 2%N 3%N = Success 200 data
    /\ (1 <= SubmissionQueries.RetryData.remaining_attempts data)%Z.
Proof.
  destruct (retryQuiz_agrees_with_startQuiz true Sample.db 0 7%N 2%N 3%N)
    as [_ [H _]].
  eexists. split; [reflexivity|].
  refine (proj1 (proj2 (proj2 (H 200%Z _ eq_refl)))).
Defined.

(** ** Pagination *)

Lemma Qceiling_div (a b : Z) :
  (0 < b)%Z -> Qceiling (inject_Z a / inject_Z b) = (- ((- a) / b))%Z.
Proof.
  intros Hb. unfold Qceiling. f_equal.
  destruct b as [|p|p]; try lia.
  unfold Qfloor, Qopp, Qdiv, Qmult, Qinv, inject_Z. simpl.
  rewrite Z.mul_1_r. reflexivity.
Qed.

Lemma total_pages_bounds (limit total : Z) :
  (1 <= limit)%Z -> (0 <= total)%Z ->
  let pages := Qceiling (inject_Z total / inject_Z limit) in
  (0 <= pages)%Z /\ (total <= pages * limit)%Z /\ ((pages - 1) * limit < total \/ total = 0)%Z
  /\ (total = 0 -> pages = 0)%Z.
Proof.
  intros Hl Ht pages. unfold pages. rewrite Qceiling_div by lia.
  pose proof (Z.div_mod (- total) limit ltac:(lia)) as Hdm.
  pose proof (Z.mod_pos_bound (- total) limit ltac:(lia)) as Hm.
  split; [nia|]. split; [nia|]. split.
  - destruct (Z.eq_dec total 0) as [->|Hne]; [now right|left; nia].
  - intros ->. reflexivity.
Qed.

Lemma chunks_firstn {A : Type} (rows : list A) (k : nat) : forall n,
  List.concat (map (fun p => firstn k (skipn (p * k) rows)) (seq 0 n))
  = firstn (n * k) rows.
Proof.
  induction n as [|n IH]; [reflexivity|].
  rewrite seq_S, map_app, concat_app, IH. simpl. rewrite app_nil_r.
  rewrite <- (firstn_skipn (n * k) (firstn (k + n * k) rows)) at 1.
  rewrite firstn_firstn. replace (Nat.min (n * k) (k + n * k)) with (n * k)%nat by lia.
  f_equal. rewrite skipn_firstn_comm.
  replace (k + n * k - n * k)%nat with k by lia. reflexivity.
Qed.

(** X19.  For a page number and a page size of at least 1: [has_next] holds
    exactly when the current page is before the last one, and exactly when
    rows remain after the page; [has_prev] exactly when the page is not the
    first; [total_pages] is the least number of pages that holds all rows;
    and the pages 1 to [total_pages], one after the other, are the matching
    rows, none lost and none twice. *)
Theorem pagination_pages {A : Type} (matching : list A) (page limit : Z) :
  (1 <= page)%Z -> (1 <= limit)%Z ->
  let total := Z.of_nat (List.length matching) in
  let p := SubmissionQueries.pagination page limit total in
  let pages := SubmissionQueries.Pagination.total_pages p in
  (SubmissionQueries.Pagination.has_next p = true <-> (page < pages)%Z)
  /\ (SubmissionQueries.Pagination.has_next p = true
      <-> skipn (Z.to_nat (SubmissionQueries.offset page limit + limit)) matching
          <> [])
  /\ (SubmissionQueries.Pagination.has_prev p = true <-> (1 < page)%Z)
  /\ (total <= pages * limit)%Z
  /\ (forall n, (0 <= n)%Z -> (total <= n * limit)%Z -> (pages <= n)%Z)
  /\ List.concat (map (fun i => SubmissionQueries.page_rows matching
                             (Z.of_nat i + 1) limit)
                 (seq 0 (Z.to_nat pages)))
     = matching.
Proof.
  intros Hp Hl total p pages.
  destruct (total_pages_bounds limit total Hl ltac:(unfold total; lia))
    as [P0 [P1 [P2 P3]]].
  change (Qceiling (inject_Z total / inject_Z limit)) with pages in P0, P1, P2, P3.
  simpl. split; [|split; [|split; [|split; [|split]]]].
  - rewrite Z.ltb_lt. split; intros H; [|nia].
    destruct P2 as [P2|P2]; nia.
  - rewrite Z.ltb_lt. unfold SubmissionQueries.offset.
    replace ((page - 1) * limit + limit)%Z with (page * limit)%Z by lia.
    split.
    + intros H C. apply (f_equal (@List.length _)) in C.
      rewrite length_skipn in C. simpl in C. unfold total in H. lia.
    + intros H. destruct (Z.ltb_spec (page * limit) total) as [|Hge];
        [assumption|]. exfalso. apply H. apply skipn_all2.
      unfold total in Hge. lia.
  - rewrite Z.gtb_lt. reflexivity.
  - exact P1.
  - intros n Hn Hcover. destruct P2 as [P2|P2]; [nia|].
    rewrite (P3 P2). exact Hn.
  - assert (E : map (fun i => SubmissionQueries.page_rows matching
                                (Z.of_nat i + 1) limit)
                    (seq 0 (Z.to_nat pages))
                = map (fun i => firstn (Z.to_nat limit)
                                  (skipn (i * Z.to_nat limit) matching))
                      (seq 0 (Z.to_nat pages))).
    { apply map_ext. intros i. unfold SubmissionQueries.page_rows,
        SubmissionQueries.offset. do 2 f_equal. nia. }
    rewrite E, chunks_firstn. apply firstn_all2. unfold total in P1. nia.
Qed.

Lemma pagination_pages_witness :
  SubmissionQueries.Pagination.total_pages
    (SubmissionQueries.pagination 1 2 (Z.of_nat (List.length [1; 2; 3; 4; 5]%Z)))
  = 3%Z
  /\ List.concat (map (fun i => SubmissionQueries.page_rows [1; 2; 3; 4; 5]%Z
                             (Z.of_nat i + 1) 2)
                 (seq 0 3))
     = [1; 2; 3; 4; 5]%Z.
Proof.
  destruct (pagination_pages [1; 2; 3; 4; 5]%Z 1 2 ltac:(lia) ltac:(lia))
    as [_ [_ [_ [_ [_ H]]]]].
  split; [reflexivity|exact H].
Defined.

(** ** Quiz statistics *)

Lemma max2_spec (a b : Q) :
  a <= QuizStats.max2 a b /\ b <= QuizStats.max2 a b
  /\ (QuizStats.max2 a b = a \/ QuizStats.max2 a b = b).
Proof.
  unfold QuizStats.max2. destruct (Qle_bool a b) eqn:E.
  - apply Qle_bool_iff in E. repeat split; try lra. now right.
  - assert (b < a).
    { apply Qnot_le_lt. intros C. apply Qle_bool_iff in C. congruence. }
    repeat split; try lra. now left.
Qed.

Lemma min2_spec (a b : Q) :
  QuizStats.min2 a b <= a /\ QuizStats.min2 a b <= b
  /\ (QuizStats.min2 a b = a \/ QuizStats.min2 a b = b).
Proof.
  unfold QuizStats.min2. destruct (Qle_bool a b) eqn:E.
  - apply Qle_bool_iff in E. repeat split; try lra. now left.
  - assert (b < a).
    { apply Qnot_le_lt. intros C. apply Qle_bool_iff in C. congruence. }
    repeat split; try lra. now right.
Qed.

Lemma fold_max2 (others : list Q) : forall first,
  let m := fold_left QuizStats.max2 others first in
  In m (first :: others) /\ Forall (fun x => x <= m) (first :: others).
Proof.
  induction others as [|x r IH]; intros first; simpl.
  - split; [now left|]. constructor; [lra|constructor].
  - destruct (IH (QuizStats.max2 first x)) as [Hin Hall].
    destruct (max2_spec first x) as [H1 [H2 H3]].
    inversion Hall as [|? ? Hm Hr]; subst.
    split.
    + destruct Hin as [Hin|Hin]; [|now right; right].
      destruct H3 as [H3|H3]; [left|right; left];
        (etransitivity; [symmetry; exact H3|exact Hin]).
    + constructor; [lra|]. constructor; [lra|exact Hr].
Qed.

Lemma fold_min2 (others : list Q) : forall first,
  let m := fold_left QuizStats.min2 others first in
  In m (first :: others) /\ Forall (fun x => m <= x) (first :: others).
Proof.
  induction others as [|x r IH]; intros first; simpl.
  - split; [now left|]. constructor; [lra|constructor].
  - destruct (IH (QuizStats.min2 first x)) as [Hin Hall].
    destruct (min2_spec first x) as [H1 [H2 H3]].
    inversion Hall as [|? ? Hm Hr]; subst.
    split.
    + destruct Hin as [Hin|Hin]; [|now right; right].
      destruct H3 as [H3|H3]; [left|right; left];
        (etransitivity; [symmetry; exact H3|exact Hin]).
    + constructor; [lra|]. constructor; [lra|exact Hr].
Qed.

Lemma lt_weaken (s a b : Q) : a <= b -> lt s a = true -> lt s b = true.
Proof.
  intros Hab Ha. unfold lt in *. apply negb_true_iff in Ha.
  apply negb_true_iff. destruct (Qle_bool b s) eqn:E; [|reflexivity].
  apply Qle_bool_iff in E.
  assert (H : a <= s) by lra. apply Qle_bool_iff in H. congruence.
Qed.

Lemma buckets_partition (scores : list Q) :
  (QuizStats.count_where (fun s => geq s 90) scores
   + QuizStats.count_where (fun s => geq s 70 && lt s 90) scores
   + QuizStats.count_where (fun s => geq s 50 && lt s 70) scores
   + QuizStats.count_where (fun s => lt s 50) scores
   = Z.of_nat (List.length scores))%Z.
Proof.
  assert (H57 : 50 <= 70) by lra.
  assert (H59 : 50 <= 90) by lra.
  assert (H79 : 70 <= 90) by lra.
  unfold QuizStats.count_where.
  induction scores as [|s r IH]; [reflexivity|]. cbn [filter List.length].
  assert (B : forall k, geq s k = negb (lt s k))
    by (intros k; unfold geq, lt; now rewrite negb_involutive).
  rewrite !B.
  destruct (lt s 50) eqn:E50.
  - rewrite (lt_weaken s 50 70 H57 E50), (lt_weaken s 50 90 H59 E50).
    cbn [negb andb List.length]. lia.
  - destruct (lt s 70) eqn:E70.
    + rewrite (lt_weaken s 70 90 H79 E70).
      cbn [negb andb List.length]. lia.
    + destruct (lt s 90) eqn:E90; cbn [negb andb List.length]; lia.
Qed.

Lemma unique_length (ids : list UUID) :
  (List.length (QuizStats.unique ids) <= List.length ids)%nat
  /\ (ids <> [] -> 1 <= List.length (QuizStats.unique ids))%nat.
Proof.
  split.
  - induction ids as [|x r IH]; simpl; [lia|].
    apply le_n_S. etransitivity; [apply filter_length_le|exact IH].
  - destruct ids; [contradiction|]. intros _. simpl. lia.
Qed.

Lemma unique_NoDup (ids : list UUID) :
  NoDup (QuizStats.unique ids)
  /\ forall x, In x (QuizStats.unique ids) <-> In x ids.
Proof.
  induction ids as [|x r [IHn IHi]]; simpl.
  - split; [constructor|reflexivity].
  - split.
    + constructor.
      * intros C. apply filter_In in C as [_ C]. now rewrite N.eqb_refl in C.
      * now apply NoDup_filter.
    + intros y. rewrite filter_In, IHi. split.
      * intros [->|[H _]]; auto.
      * intros [->|H]; [now left|].
        destruct (N.eq_dec y x) as [->|Hne]; [now left|].
        right. split; [exact H|]. apply negb_true_iff. now apply N.eqb_neq.
Qed.

(** X20.  The statistics of a quiz are coherent.  Without a completed
    submission everything is 0 and there is no distribution.  Otherwise
    the four score classes add up to the number of attempts; the highest
    and the lowest score are scores of attempts and bound all of them; and
    the participants are the distinct users, at least one and at most as
    many as the attempts. *)
Theorem getQuizStats_coherent (db : DB.t) (id : UUID) :
  let submissions :=
    filter (fun s => (Submission.quiz_id s =? id)%N
                     && Status_eqb (Submission.status s) completed)
           (DB.submissions db) in
  let scores :=
    map (fun s => QuizStats.num (Submission.score_percentage s)) submissions in
  let stats := QuizStats.getQuizStats db id in
  QuizStats.Stats.total_attempts stats = Z.of_nat (List.length submissions)
  /\ (submissions = [] ->
      stats = {| QuizStats.Stats.total_attempts := 0;
                 QuizStats.Stats.average_score := 0;
                 QuizStats.Stats.highest_score := 0;
                 QuizStats.Stats.lowest_score := 0;
                 QuizStats.Stats.average_completion_time := 0;
                 QuizStats.Stats.unique_participants := 0;
                 QuizStats.Stats.score_distribution := None |})
  /\ (submissions <> [] ->
      (exists d,
         QuizStats.Stats.score_distribution stats = Some d
         /\ (QuizStats.Distribution.excellent d + QuizStats.Distribution.good d
             + QuizStats.Distribution.fair d + QuizStats.Distribution.poor d
             = QuizStats.Stats.total_attempts stats)%Z)
      /\ In (QuizStats.Stats.highest_score stats) scores
      /\ In (QuizStats.Stats.lowest_score stats) scores
      /\ Forall (fun x => QuizStats.Stats.lowest_score stats <= x
                          /\ x <= QuizStats.Stats.highest_score stats) scores
      /\ (1 <= QuizStats.Stats.unique_participants stats
          <= QuizStats.Stats.total_attempts stats)%Z
      /\ QuizStats.Stats.unique_participants stats
         = Z.of_nat (List.length (QuizStats.unique
                                    (map Submission.user_id submissions)))).
Proof.
  intros submissions scores stats. unfold stats, QuizStats.getQuizStats.
  fold submissions. unfold QuizStats.stats_of. fold scores.
  destruct submissions as [|s0 rest] eqn:Es.
  - simpl. split; [reflexivity|]. split; [reflexivity|]. intros C.
    contradiction.
  - assert (Hsc : scores = QuizStats.num (Submission.score_percentage s0)
                           :: map (fun s => QuizStats.num (Submission.score_percentage s)) rest)
      by reflexivity.
    rewrite Hsc. set (first := QuizStats.num (Submission.score_percentage s0)).
    set (others := map (fun s => QuizStats.num (Submission.score_percentage s)) rest).
    cbn [QuizStats.Stats.total_attempts QuizStats.Stats.score_distribution
         QuizStats.Stats.highest_score QuizStats.Stats.lowest_score
         QuizStats.Stats.unique_participants].
    split; [reflexivity|]. split; [discriminate|]. intros _.
    destruct (fold_max2 others first) as [Hmax1 Hmax2].
    destruct (fold_min2 others first) as [Hmin1 Hmin2].
    split.
    { eexists. split; [reflexivity|].
      cbn [QuizStats.Distribution.excellent QuizStats.Distribution.good
           QuizStats.Distribution.fair QuizStats.Distribution.poor].
      rewrite (buckets_partition (first :: others)).
      unfold others. cbn [List.length]. now rewrite length_map. }
    split; [exact Hmax1|]. split; [exact Hmin1|].
    split.
    { rewrite Forall_forall in *. intros x Hx. split; auto. }
    destruct (unique_length (map Submission.user_id (s0 :: rest))) as [U1 U2].
    rewrite length_map in U1. specialize (U2 ltac:(discriminate)).
    split; [lia|reflexivity].
Qed.

Lemma getQuizStats_coherent_witness :
  QuizStats.Stats.total_attempts
    (QuizStats.getQuizStats
       (snd (submitQuiz true Sample.ai_unavailable Sample.db 30000 30001
                        Sample.user 1%N [Sample.choice_answer])) 3%N)
  = 1%Z
  /\ QuizStats.Stats.total_attempts (QuizStats.getQuizStats Sample.db 3%N) = 0%Z.
Proof.
  split.
  - destruct (getQuizStats_coherent
                (snd (submitQuiz true Sample.ai_unavailable Sample.db 30000
                                 30001 Sample.user 1%N [Sample.choice_answer]))
                3%N) as [H _].
    rewrite H. reflexivity.
  - destruct (getQuizStats_coherent Sample.db 3%N) as [_ [H _]].
    rewrite H; reflexivity.
Defined.

(** ** Performance summary *)

Import PerformanceSummary.

















(** *** The trend label *)

Lemma sorts_before_trans (x y z : Submission.t) :
  SubmissionQueries.sorts_before x y = true ->
  SubmissionQueries.sorts_before y z = true ->
  SubmissionQueries.sorts_before x z = true.
Proof.
  unfold SubmissionQueries.sorts_before.
  destruct (Submission.completed_at x), (Submission.completed_at y),
    (Submission.completed_at z); try discriminate; try reflexivity.
  rewrite !Z.leb_le. lia.
Qed.

Lemma sorts_before_total (x y : Submission.t) :
  SubmissionQueries.sorts_before x y = false ->
  SubmissionQueries.sorts_before y x = true.
Proof.
  unfold SubmissionQueries.sorts_before.
  destruct (Submission.completed_at x), (Submission.completed_at y);
    try discriminate; try reflexivity.
  rewrite Z.leb_gt, Z.leb_le. lia.
Qed.

Lemma insert_desc_In (x z : Submission.t) (l : list Submission.t) :
  In z (SubmissionQueries.insert_desc x l) -> z = x \/ In z l.
Proof.
  induction l as [|y r IH]; simpl.
  - intros [->|[]]. now left.
  - destruct (SubmissionQueries.sorts_before x y).
    + intros [->|H]; [now left|now right].
    + intros [->|H]; [right; now left|].
      destruct (IH H) as [->|H']; [now left|right; now right].
Qed.

Lemma insert_desc_sorted (x : Submission.t) (l : list Submission.t) :
  ForallOrdPairs (fun a b => SubmissionQueries.sorts_before a b = true) l ->
  ForallOrdPairs (fun a b => SubmissionQueries.sorts_before a b = true)
                 (SubmissionQueries.insert_desc x l).
Proof.
  intros Hs. induction Hs as [|y r Hy Hr IH]; simpl.
  - constructor; constructor.
  - destruct (SubmissionQueries.sorts_before x y) eqn:E.
    + constructor; [|constructor; assumption].
      constructor; [exact E|].
      rewrite Forall_forall in *. intros z Hz.
      apply (sorts_before_trans x y z E). now apply Hy.
    + constructor; [|exact IH].
      rewrite Forall_forall in *. intros z Hz.
      destruct (insert_desc_In _ _ _ Hz) as [->|Hz'].
      * now apply sorts_before_total.
      * now apply Hy.
Qed.

Lemma order_by_sorted (l : list Submission.t) :
  ForallOrdPairs (fun a b => SubmissionQueries.sorts_before a b = true)
                 (SubmissionQueries.order_by_completed_at_desc l).
Proof.
  induction l as [|x r IH]; simpl.
  - constructor.
  - apply insert_desc_sorted. exact IH.
Qed.

Lemma sorted_app_pairs {A : Type} (R : A -> A -> Prop) (a b : list A) :
  ForallOrdPairs R (a ++ b)%list ->
  forall x y, In x a -> In y b -> R x y.
Proof.
  induction a as [|h t IH]; simpl; intros Hs x y Hx Hy; [contradiction|].
  inversion Hs as [|? ? Hh Ht]; subst.
  destruct Hx as [->|Hx].
  - rewrite Forall_forall in Hh. apply Hh. apply in_or_app. now right.
  - now apply IH.
Qed.

Lemma lt_true (x y : Q) : lt x y = true <-> x < y.
Proof. exact (gt_true y x). Qed.

(** *** The trend on doubles *)

Module Trend64Facts.
Import Binary64 Binary64Facts Trend64.

Lemma fl_step (x : Q) :
  - (512) <= x -> x <= 512 -> - step <= fl x - x /\ fl x - x <= step.
Proof.
  intros H1 H2.
  assert (B : Qabs x <= 512) by (apply Qabs_bound; assumption).
  pose proof pow2_m1022_le_1 as P.
  destruct (fl_error x 512 B ltac:(lra)) as [E1 E2].
  rewrite u_value in E1, E2. unfold step. lra.
Qed.

Lemma sum_error (xs : list Q) :
  Forall (fun x => 0 <= x /\ x <= 100) xs -> (List.length xs <= 3)%nat ->
  - (3 * step) <= PerformanceSummary64.sum xs - JsNum.sumQ xs
  /\ PerformanceSummary64.sum xs - JsNum.sumQ xs <= 3 * step
  /\ 0 <= JsNum.sumQ xs
  /\ JsNum.sumQ xs <= 100 * inject_Z (Z.of_nat (List.length xs)).
Proof.
  intros H L. unfold PerformanceSummary64.sum, JsNum.sumQ, step.
  destruct xs as [|x [|y [|z [|w r]]]]; simpl in L; try lia; simpl.
  - change (inject_Z 0) with 0. repeat split; lra.
  - inversion H as [|? ? [X1 X2] _]; subst.
    destruct (fl_step (0 + x)) as [a1 a2]; [lra|lra|].
    unfold step in *. change (inject_Z 1) with 1. repeat split; lra.
  - inversion H as [|? ? [X1 X2] H']; subst.
    inversion H' as [|? ? [Y1 Y2] _]; subst.
    destruct (fl_step (0 + x)) as [a1 a2]; [lra|lra|].
    unfold step in *.
    destruct (fl_step (fl (0 + x) + y)) as [b1 b2]; [lra|lra|].
    unfold step in *. change (inject_Z 2) with 2. repeat split; lra.
  - inversion H as [|? ? [X1 X2] H']; subst.
    inversion H' as [|? ? [Y1 Y2] H'']; subst.
    inversion H'' as [|? ? [Z1 Z2] _]; subst.
    destruct (fl_step (0 + x)) as [a1 a2]; [lra|lra|].
    unfold step in *.
    destruct (fl_step (fl (0 + x) + y)) as [b1 b2]; [lra|lra|].
    unfold step in *.
    destruct (fl_step (fl (fl (0 + x) + y) + z)) as [c1 c2]; [lra|lra|].
    unfold step in *. change (inject_Z 3) with 3. repeat split; lra.
Qed.

(** The mean of one to three scores, as the doubles compute it. *)
Lemma mean_error (xs : list Q) :
  Forall (fun x => 0 <= x /\ x <= 100) xs ->
  (1 <= List.length xs <= 3)%nat ->
  let m :=
    fl (PerformanceSummary64.sum xs
        / inject_Z (Z.of_nat (List.length xs))) in
  - (4 * step) <= m - Spec.mean xs /\ m - Spec.mean xs <= 4 * step
  /\ 0 <= Spec.mean xs /\ Spec.mean xs <= 100.
Proof.
  intros H L m. unfold m, Spec.mean.
  destruct (sum_error xs H ltac:(lia)) as [S1 [S2 [S3 S4]]].
  set (s := PerformanceSummary64.sum xs) in *.
  set (t := JsNum.sumQ xs) in *.
  assert (C : List.length xs = 1%nat \/ List.length xs = 2%nat
              \/ List.length xs = 3%nat) by lia.
  unfold step in *.
  destruct C as [C|[C|C]]; rewrite C in *.
  - change (inject_Z (Z.of_nat 1)) with 1 in *.
    unfold Qdiv. change (/ 1) with 1.
    destruct (fl_step (s * 1)) as [a1 a2]; [lra|lra|]. unfold step in *. repeat split; lra.
  - change (inject_Z (Z.of_nat 2)) with 2 in *.
    unfold Qdiv. change (/ 2) with (1 # 2).
    destruct (fl_step (s * (1 # 2))) as [a1 a2]; [lra|lra|].
    unfold step in *. repeat split; lra.
  - change (inject_Z (Z.of_nat 3)) with 3 in *.
    unfold Qdiv. change (/ 3) with (1 # 3).
    destruct (fl_step (s * (1 # 3))) as [a1 a2]; [lra|lra|].
    unfold step in *. repeat split; lra.
Qed.

(** The trend of two to five scores between 0 and 100 is within [2 ^ -40]
    of the difference of the two exact means. *)
Lemma calculateTrend_error (scores : list Q) :
  Forall (fun x => 0 <= x /\ x <= 100) scores ->
  (2 <= List.length scores <= 5)%nat ->
  let exact :=
    Spec.mean (skipn (List.length scores / 2) scores)
    - Spec.mean (firstn (List.length scores / 2) scores) in
  - slack <= PerformanceSummary64.calculateTrend scores - exact
  /\ PerformanceSummary64.calculateTrend scores - exact <= slack.
Proof.
  intros H L exact. unfold exact, PerformanceSummary64.calculateTrend.
  destruct (Nat.ltb_spec (List.length scores) 2) as [C|_]; [lia|].
  set (h := (List.length scores / 2)%nat).
  assert (Hh : (1 <= h <= 2)%nat /\ (List.length scores - h <= 3)%nat
               /\ (h < List.length scores)%nat).
  { unfold h.
    assert (C : List.length scores = 2%nat \/ List.length scores = 3%nat
                \/ List.length scores = 4%nat \/ List.length scores = 5%nat)
      by lia.
    destruct C as [C|[C|[C|C]]]; rewrite C; simpl; lia. }
  destruct (mean_error (skipn h scores)) as [a1 [a2 [a3 a4]]].
  { now apply Forall_skipn. }
  { rewrite length_skipn. lia. }
  destruct (mean_error (firstn h scores)) as [b1 [b2 [b3 b4]]].
  { now apply Forall_firstn. }
  { rewrite length_firstn. lia. }
  cbv zeta.
  set (fa := fl (PerformanceSummary64.sum (skipn h scores) / _)) in *.
  set (sa := fl (PerformanceSummary64.sum (firstn h scores) / _)) in *.
  unfold step in *.
  destruct (fl_step (fa - sa)) as [c1 c2]; [lra|lra|].
  unfold step, slack in *. lra.
Qed.

End Trend64Facts.

(** The model's trend agrees with the kernel's binary64 arithmetic. *)
Lemma calculateTrend_agrees_with_kernel_floats :
  Forall (fun l =>
            match KernelFloat.value
                    (KernelFloatTrend.calculateTrend
                       (map KernelFloatTrend.of_hundredths l)) with
            | Some v =>
                v == PerformanceSummary64.calculateTrend
                       (map (fun k => Binary64.fl (inject_Z k / 100)) l)
            | None => False
            end)
         [[571; 1071]; [8560; 8560; 8560; 8560; 8560]; [9000; 1234; 7777];
          [3333; 6667; 1; 9999]; [10000; 0]; [4567]]%Z.
Proof.
  repeat (apply Forall_cons; [vm_compute; reflexivity|]). apply Forall_nil.
Qed.

(** Two scores stored as the doubles nearest to 5.71 and 10.71 differ by
    more than 5, and five equal scores of 85.6 have a negative trend. *)
Lemma calculateTrend_of_decimal_scores :
  5 < PerformanceSummary64.calculateTrend
        (map (fun k => Binary64.fl (inject_Z k / 100)) [571; 1071]%Z)
  /\ PerformanceSummary64.calculateTrend
       (map (fun k => Binary64.fl (inject_Z k / 100))
            [8560; 8560; 8560; 8560; 8560]%Z) < 0.
Proof. split; vm_compute; reflexivity. Qed.

(** X4.  On doubles, the service's trend of fewer than two scores is 0.  For two
    to five scores between 0 and 100 (the window of the difficulty
    estimator holds at most five) it is within [2 ^ -40] of the exact mean
    of the second half minus the exact mean of the first half, and so
    between [-100 - 2 ^ -40] and [100 + 2 ^ -40]. *)
Theorem calculateTrend_bounds (scores : list Q) :
  Forall (fun x => 0 <= x /\ x <= 100) scores ->
  (List.length scores <= 5)%nat ->
  let exact :=
    if (List.length scores <? 2)%nat then 0
    else Spec.mean (skipn (List.length scores / 2) scores)
         - Spec.mean (firstn (List.length scores / 2) scores) in
  ((List.length scores < 2)%nat -> AIService64.calculateTrend scores = 0)
  /\ - Trend64.slack <= AIService64.calculateTrend scores - exact
  /\ AIService64.calculateTrend scores - exact <= Trend64.slack
  /\ - 100 - Trend64.slack <= AIService64.calculateTrend scores
  /\ AIService64.calculateTrend scores <= 100 + Trend64.slack.
Proof.
  intros H L. cbv zeta.
  destruct (Nat.ltb_spec (List.length scores) 2) as [C|C].
  - assert (E : AIService64.calculateTrend scores = 0).
    { unfold AIService64.calculateTrend.
      destruct (Nat.ltb_spec (List.length scores) 2); [reflexivity|lia]. }
    rewrite E. unfold Trend64.slack.
    split; [reflexivity|]. repeat split; lra.
  - change (AIService64.calculateTrend scores)
      with (PerformanceSummary64.calculateTrend scores).
    destruct (Trend64Facts.calculateTrend_error scores H ltac:(lia))
      as [T1 T2].
    set (h := (List.length scores / 2)%nat) in *.
    assert (Hh : (1 <= h <= 2)%nat /\ (1 <= List.length scores - h <= 3)%nat).
    { unfold h.
      assert (D : List.length scores = 2%nat \/ List.length scores = 3%nat
                  \/ List.length scores = 4%nat \/ List.length scores = 5%nat)
        by lia.
      destruct D as [D|[D|[D|D]]]; rewrite D; simpl; lia. }
    destruct (Trend64Facts.mean_error (skipn h scores)) as [_ [_ [a3 a4]]].
    { now apply Forall_skipn. }
    { rewrite length_skipn. lia. }
    destruct (Trend64Facts.mean_error (firstn h scores)) as [_ [_ [b3 b4]]].
    { now apply Forall_firstn. }
    { rewrite length_firstn. lia. }
    unfold Trend64.slack in *.
    split; [intros C'; lia|]. repeat split; lra.
Qed.

Lemma calculateTrend_bounds_witness :
  - Trend64.slack
  <= AIService64.calculateTrend [90; 70; 80]
     - (Spec.mean [70; 80] - Spec.mean [90])
  /\ AIService64.calculateTrend [90; 70; 80] <= 100 + Trend64.slack.
Proof.
  destruct (calculateTrend_bounds [90; 70; 80]) as [_ [H1 [_ [_ H2]]]].
  - repeat (apply Forall_cons; [split; vm_compute; discriminate|]).
    apply Forall_nil.
  - simpl. lia.
  - split; [exact H1|exact H2].
Defined.

(** X22.  The trend label of the performance summary, computed on doubles.  The
    summary looks at the five most recently completed submissions, newest
    first, and splits them in the middle: every submission of the first
    part was completed no earlier than every one of the second.  The label
    is "no_data" exactly without completed submissions and "stable" for a
    single one.  For scores between 0 and 100, where [gain] is the exact
    mean of the older part minus the exact mean of the newer part: the
    label is "improving" when [gain] exceeds 5 by more than [2 ^ -40] and
    only when it exceeds [5 - 2 ^ -40]; it is "declining" when [gain] is
    below -5 by more than [2 ^ -40] and only when it is below
    [-5 + 2 ^ -40]; it is "stable" when [gain] lies in
    [[-5 + 2 ^ -40, 5 - 2 ^ -40]].  A summary over at least one submission
    is only produced when the handler runs with [this] bound. *)
Theorem getPerformanceSummary_trend (this_bound : bool) (db : DB.t)
    (userId : UUID) (http : Z) (data : SummaryData.t) :
  PerformanceSummary64.getPerformanceSummary this_bound db userId
  = SubmissionController.Success http data ->
  let subs := completed_submissions db userId in
  let recent := firstn 5 subs in
  let newer := firstn (List.length recent / 2) recent in
  let older := skipn (List.length recent / 2) recent in
  let score := fun s => QuizStats.num (Submission.score_percentage s) in
  let gain := Spec.mean (map score older) - Spec.mean (map score newer) in
  let label := SummaryData.improvement_trend data in
  (forall x y, In x newer -> In y older ->
               SubmissionQueries.sorts_before x y = true)
  /\ (label = "no_data" <-> subs = [])
  /\ In label ["no_data"; "improving"; "declining"; "stable"]
  /\ (List.length subs = 1%nat -> label = "stable")
  /\ (Forall (fun s => 0 <= score s /\ score s <= 100) recent ->
      (2 <= List.length recent)%nat ->
      (5 + Trend64.slack < gain -> label = "improving")
      /\ (label = "improving" -> 5 - Trend64.slack < gain)
      /\ (gain < - 5 - Trend64.slack -> label = "declining")
      /\ (label = "declining" -> gain < - 5 + Trend64.slack)
      /\ (- 5 + Trend64.slack <= gain ->
          gain <= 5 - Trend64.slack -> label = "stable"))
  /\ (subs <> [] -> this_bound = true)
  /\ map RecentPerformance.completed_at (SummaryData.recent_performance data)
     = map Submission.completed_at recent.
Proof.
  intros H. cbv zeta.
  unfold PerformanceSummary64.getPerformanceSummary in H.
  remember (completed_submissions db userId) as subs eqn:Es.
  remember (fun s => QuizStats.num (Submission.score_percentage s))
    as score eqn:Esc.
  remember (firstn 5 subs) as recent eqn:Er.
  remember (firstn (List.length recent / 2) recent) as newer eqn:En.
  remember (skipn (List.length recent / 2) recent) as older eqn:Eo.
  split.
  { intros x y Hx Hy.
    apply (sorted_app_pairs
             (fun a b => SubmissionQueries.sorts_before a b = true)
             newer (older ++ skipn 5 subs)%list); [|exact Hx|].
    - rewrite app_assoc, En, Eo, firstn_skipn, Er, firstn_skipn, Es.
      apply order_by_sorted.
    - apply in_or_app. now left. }
  destruct (map score subs) as [|first others] eqn:Em.
  - apply map_eq_nil in Em. injection H as <- <-.
    cbn [SummaryData.improvement_trend SummaryData.recent_performance].
    assert (Hr : recent = []) by (rewrite Er, Em; reflexivity).
    rewrite Hr. cbn [List.length map].
    split; [tauto|].
    split; [simpl; tauto|].
    split; [rewrite Em; discriminate|].
    split; [intros _ C; lia|].
    split; [contradiction|reflexivity].
  - assert (Hne : subs <> []) by (intros C; rewrite C in Em; discriminate).
    destruct (PerformanceSummary64.forEach_subject db subs []) as [o|];
      [|discriminate].
    destruct this_bound; [|discriminate]. cbv beta iota delta [negb] in H.
    injection H as <- <-.
    cbn [SummaryData.improvement_trend SummaryData.recent_performance].
    set (trend := PerformanceSummary64.calculateTrend (map score recent)).
    split.
    { split; [|intros C; contradiction].
      destruct (gt trend 5); [discriminate|].
      destruct (lt trend (-5)); discriminate. }
    split.
    { destruct (gt trend 5); [simpl; tauto|].
      destruct (lt trend (-5)); simpl; tauto. }
    split.
    { intros L1.
      assert (T : trend = 0).
      { unfold trend, PerformanceSummary64.calculateTrend.
        rewrite length_map, Er, length_firstn, L1. reflexivity. }
      rewrite T. reflexivity. }
    split; [|split; [reflexivity|rewrite map_map; reflexivity]].
    intros Hrange Hlen.
    assert (Hl5 : (List.length recent <= 5)%nat).
    { rewrite Er, length_firstn. lia. }
    assert (Hr' : Forall (fun x => 0 <= x /\ x <= 100) (map score recent)).
    { apply Forall_map. exact Hrange. }
    destruct (Trend64Facts.calculateTrend_error (map score recent) Hr')
      as [T1 T2].
    { rewrite length_map. lia. }
    rewrite length_map, skipn_map, firstn_map, <- Eo, <- En in T1, T2.
    fold trend in T1, T2.
    set (gain := Spec.mean (map score older) - Spec.mean (map score newer))
      in *.
    unfold Trend64.slack in *.
    destruct (gt trend 5) eqn:G.
    + apply gt_true in G.
      split; [reflexivity|]. split; [intros _; lra|].
      split; [intros C; lra|]. split; [discriminate|].
      intros C1 C2. lra.
    + assert (G' : trend <= 5).
      { apply Qnot_lt_le. intros C. apply gt_true in C. congruence. }
      destruct (lt trend (-5)) eqn:D.
      * apply lt_true in D.
        split; [intros C; lra|]. split; [discriminate|].
        split; [reflexivity|]. split; [intros _; lra|].
        intros C1 C2. lra.
      * assert (D' : - 5 <= trend).
        { apply Qnot_lt_le. intros C. apply lt_true in C. congruence. }
        split; [intros C; lra|]. split; [discriminate|].
        split; [intros C; lra|]. split; [discriminate|].
        reflexivity.
Qed.

Lemma getPerformanceSummary_trend_witness :
  exists data,
    PerformanceSummary64.getPerformanceSummary true SampleHistory.db 2%N
    = SubmissionController.Success 200 data
    /\ SummaryData.improvement_trend data = "improving".
Proof.
  destruct (PerformanceSummary64.getPerformanceSummary true SampleHistory.db
                                                       2%N)
    as [http data|] eqn:E; [|vm_compute in E; discriminate].
  assert (Hh : http = 200%Z) by (vm_compute in E; congruence).
  subst http. exists data. split; [reflexivity|].
  destruct (getPerformanceSummary_trend _ _ _ _ _ E)
    as [_ [_ [_ [_ [H _]]]]].
  destruct H as [H _].
  - apply Forall_forall. intros s Hs. vm_compute in Hs.
    destruct Hs as [<-|[<-|[]]]; vm_compute; split; discriminate.
  - vm_compute. lia.
  - apply H. vm_compute. reflexivity.
Defined.

(** ** Authentication *)

Lemma substring_all (s : string) : substring 0 (String.length s) s = s.
Proof. induction s as [|c s IH]; simpl; [reflexivity|now rewrite IH]. Qed.

Lemma prefix_nonempty (p s : string) :
  p <> "" -> String.prefix p s = true -> s <> "".
Proof.
  intros Hp H C. subst s. destruct p; [contradiction|discriminate].
Qed.

Lemma prefix_app (p s : string) :
  String.prefix p s = true -> exists rest, s = p ++ rest.
Proof.
  revert s. induction p as [|c p IH]; intros s H.
  - exists s. reflexivity.
  - destruct s as [|d s]; simpl in H; [discriminate|].
    destruct (ascii_dec c d) as [<-|]; [|discriminate].
    destruct (IH s H) as [rest ->]. exists rest. reflexivity.
Qed.

Lemma extract_bearer (token : string) :
  Auth.extractTokenFromRequest (Some ("Bearer " ++ token)) = Some token.
Proof.
  unfold Auth.extractTokenFromRequest.
  change (String.eqb ("Bearer " ++ token) "") with false.
  change (String.prefix "Bearer " ("Bearer " ++ token))
    with (String.prefix "" token).
  replace (String.prefix "" token) with true by (now destruct token).
  cbv iota.
  replace (String.length ("Bearer " ++ token) - 7)%nat
    with (String.length token) by (simpl; lia).
  change (substring 7 (String.length token) ("Bearer " ++ token))
    with (substring 0 (String.length token) token).
  now rewrite substring_all.
Qed.

Lemma extract_plain (header : string) :
  header <> "" -> String.prefix "Bearer " header = false ->
  Auth.extractTokenFromRequest (Some header) = Some header.
Proof.
  intros Hne Hp. unfold Auth.extractTokenFromRequest.
  apply String.eqb_neq in Hne. now rewrite Hne, Hp.
Qed.

(** X23.  A token sent as "Bearer <token>" is extracted unchanged, and a header
    that does not start with "Bearer " is taken as the token itself; the
    extracted token is missing or empty exactly for an absent header, an
    empty one, and the bare prefix "Bearer ". *)
Theorem extractTokenFromRequest_bearer :
  (forall token,
     Auth.extractTokenFromRequest (Some ("Bearer " ++ token)) = Some token)
  /\ (forall header,
        header <> "" -> String.prefix "Bearer " header = false ->
        Auth.extractTokenFromRequest (Some header) = Some header)
  /\ (forall authorization,
        (Auth.extractTokenFromRequest authorization = None
         \/ Auth.extractTokenFromRequest authorization = Some "")
        <-> (authorization = None \/ authorization = Some ""
             \/ authorization = Some "Bearer ")).
Proof.
  split; [exact extract_bearer|]. split; [exact extract_plain|].
  intros [header|]; [|split; auto].
  destruct (String.eqb header "") eqn:E.
  { apply String.eqb_eq in E. subst header. split; auto. }
  apply String.eqb_neq in E.
  destruct (String.prefix "Bearer " header) eqn:P.
  - destruct (prefix_app _ _ P) as [rest ->]. rewrite extract_bearer. split.
    + intros [C|C]; [discriminate|]. injection C as ->.
      right. right. reflexivity.
    + intros [C|[C|C]]; [discriminate|discriminate|].
      right. assert (Hr : rest = "") by (simpl in C; congruence).
      now rewrite Hr.
  - rewrite (extract_plain header E P). split.
    + intros [C|C]; [discriminate|]. injection C as ->. contradiction.
    + intros [C|[C|C]]; [discriminate| |].
      * injection C as ->. contradiction.
      * injection C as ->. vm_compute in P. discriminate P.
Qed.

Lemma authentication_error_codes (message : string) :
  Auth.authentication_error message = Auth.Unauthorized "TOKEN_EXPIRED"
  \/ Auth.authentication_error message = Auth.Unauthorized "MALFORMED_TOKEN"
  \/ Auth.authentication_error message = Auth.Unauthorized "INVALID_TOKEN".
Proof.
  unfold Auth.authentication_error.
  destruct (Auth.String_includes message "expired"); [now left|].
  destruct (Auth.String_includes message "malformed"); auto.
Qed.

(** X24.  Whatever error the token library reports for a token, the middleware
    answers TOKEN_EXPIRED: the codes INVALID_TOKEN and MALFORMED_TOKEN are
    sent only when the token verified and the user query failed.  The
    request goes on exactly when the token verifies and names an active
    user, and then with that user and the extracted token; and the optional
    middleware attaches a user and a token exactly when the mandatory one
    lets the request through, the same ones. *)
Theorem authenticateToken_outcomes (jwt_verify : Auth.JwtVerify)
    (findByPk : Auth.FindByPk) (authorization : option string) :
  let outcome := Auth.authenticateToken jwt_verify findByPk authorization in
  (forall token message,
     Auth.extractTokenFromRequest authorization = Some token ->
     token <> "" -> jwt_verify token = inl message ->
     outcome = Auth.Unauthorized "TOKEN_EXPIRED")
  /\ (outcome = Auth.Unauthorized "INVALID_TOKEN"
      \/ outcome = Auth.Unauthorized "MALFORMED_TOKEN" ->
      exists token id message,
        Auth.extractTokenFromRequest authorization = Some token
        /\ jwt_verify token = inr id /\ findByPk id = inl message)
  /\ (forall user token,
        outcome = Auth.Next user token
        <-> Auth.extractTokenFromRequest authorization = Some token
            /\ token <> ""
            /\ exists id,
                 jwt_verify token = inr id
                 /\ findByPk id = inr (Some user)
                 /\ Auth.Account.is_active user = true)
  /\ (forall user token,
        Auth.optionalAuth jwt_verify findByPk authorization
        = Some (user, token)
        <-> outcome = Auth.Next user token).
Proof.
  unfold Auth.authenticateToken, Auth.optionalAuth, Auth.verifyToken.
  destruct (Auth.extractTokenFromRequest authorization) as [token|].
  2:{ cbv zeta. split; [intros t m C; discriminate|].
      split; [intros [C|C]; discriminate|].
      split; intros user t;
        (split; [discriminate|]); [intros [C _]|intros C]; discriminate. }
  destruct (String.eqb token "") eqn:E.
  { apply String.eqb_eq in E. cbv zeta.
    split; [intros t m C Hne; injection C as <-; contradiction|].
    split; [intros [C|C]; discriminate|].
    split; intros user t; (split; [discriminate|]).
    - intros [C [Hne _]]. injection C as <-. contradiction.
    - discriminate. }
  apply String.eqb_neq in E.
  destruct (jwt_verify token) as [message|id] eqn:V.
  - assert (X : Auth.authentication_error "Invalid or expired token"
                = Auth.Unauthorized "TOKEN_EXPIRED") by reflexivity.
    rewrite X. cbv zeta.
    split; [reflexivity|].
    split; [intros [C|C]; discriminate|].
    split; intros user t; (split; [discriminate|]).
    + intros [C [_ [i [V' _]]]]. injection C as <-. congruence.
    + discriminate.
  - cbv zeta.
    split; [intros t m C _ V'; injection C as <-; congruence|].
    destruct (findByPk id) as [message|[user|]] eqn:F.
    + split; [intros _; exists token, id, message; auto|].
      destruct (authentication_error_codes message) as [X|[X|X]]; rewrite X;
        (split; intros u t; (split; [discriminate|]);
         [intros [C [_ [i [V' [F' _]]]]]; injection C as <-;
          rewrite V in V'; injection V' as <-; congruence|discriminate]).
    + destruct (Auth.Account.is_active user) eqn:A;
        cbv beta iota delta [negb].
      * split; [intros [C|C]; discriminate|].
        split; intros u t.
        -- split.
           ++ intros C. injection C as <- <-. split; [reflexivity|].
              split; [exact E|]. exists id. auto.
           ++ intros [C [_ [i [V' [F' _]]]]]. injection C as <-.
              rewrite V in V'. injection V' as <-. rewrite F in F'.
              injection F' as <-. reflexivity.
        -- split; intros C; injection C as <- <-; reflexivity.
      * split; [intros [C|C]; discriminate|].
        split; intros u t; (split; [discriminate|]).
        -- intros [C [_ [i [V' [F' A']]]]]. injection C as <-.
           rewrite V in V'. injection V' as <-. rewrite F in F'.
           injection F' as <-. congruence.
        -- discriminate.
    + split; [intros [C|C]; discriminate|].
      split; intros u t; (split; [discriminate|]).
      * intros [C [_ [i [V' [F' _]]]]]. injection C as <-.
        rewrite V in V'. injection V' as <-. congruence.
      * discriminate.
Qed.
